(** * PDF toolkit: page-range operations of [utils/pdf_operations.py]

    A shallow embedding of the five operations of the toolkit
    ([compress_pdf], [extract_pages], [merge_pdfs], [delete_pages],
    [split_pdf]) and of [parse_page_ranges], together with the part of the
    Python runtime they rely on: [str.split], [str.strip], [int], sequence
    indexing, [range], [try]/[except], and a small file system. *)

From Stdlib Require Import ZArith String Ascii DecimalString Lia.
From stdpp Require Import base option list gmap strings.

Local Open Scope string_scope.
Local Open Scope list_scope.
Local Open Scope Z_scope.

(** ** Python strings

    A [str] is modelled as a Rocq [string]; the characters are the ASCII
    ones, a byte above 127 is neither a digit nor white space. *)

Module PyStr.

(** [str.isspace] on one ASCII character: TAB, LF, VT, FF, CR, the four
    separators FS, GS, RS, US, and the blank. *)
Definition isspace (c : ascii) : bool :=
  let n := nat_of_ascii c in
  ((9 <=? n) && (n <=? 13) || (28 <=? n) && (n <=? 32))%nat.

(** [Py_ISSPACE], the white space [int] skips around a literal. *)
Definition c_isspace (c : ascii) : bool :=
  let n := nat_of_ascii c in
  ((9 <=? n) && (n <=? 13) || (n =? 32))%nat.

Fixpoint lstrip (s : string) : string :=
  match s with
  | String c s' => if isspace c then lstrip s' else s
  | EmptyString => EmptyString
  end.

Fixpoint rstrip (s : string) : string :=
  match s with
  | String c s' =>
      match rstrip s' with
      | EmptyString => if isspace c then EmptyString else String c EmptyString
      | r => String c r
      end
  | EmptyString => EmptyString
  end.

(** [s.strip()] *)
Definition strip (s : string) : string := rstrip (lstrip s).

(** [s.split(sep)] for a one-character separator: one more part than there
    are separators, never an empty list. *)
Fixpoint split (sep : ascii) (s : string) : list string :=
  match s with
  | EmptyString => [EmptyString]
  | String c s' =>
      if Ascii.eqb c sep then EmptyString :: split sep s'
      else match split sep s' with
           | part :: parts => String c part :: parts
           | [] => [String c EmptyString]
           end
  end.

(** [s.rfind(c)]: the text before and after the last occurrence of [c]. *)
Fixpoint rpartition (c : ascii) (s : string) : option (string * string) :=
  match s with
  | EmptyString => None
  | String d s' =>
      match rpartition c s' with
      | Some (before, after) => Some (String d before, after)
      | None => if Ascii.eqb d c then Some (EmptyString, s') else None
      end
  end.

Fixpoint all_chars (p : ascii -> bool) (s : string) : bool :=
  match s with
  | EmptyString => true
  | String c s' => p c && all_chars p s'
  end.

Fixpoint rstrip_char (c : ascii) (s : string) : string :=
  match s with
  | String d s' =>
      match rstrip_char c s' with
      | EmptyString => if Ascii.eqb d c then EmptyString else String d EmptyString
      | r => String d r
      end
  | EmptyString => EmptyString
  end.

Definition startswith (c : ascii) (s : string) : bool :=
  match s with String d _ => Ascii.eqb d c | EmptyString => false end.

Fixpoint endswith (c : ascii) (s : string) : bool :=
  match s with
  | EmptyString => false
  | String d EmptyString => Ascii.eqb d c
  | String _ s' => endswith c s'
  end.

(** [str(n)] for an [int]. *)
Definition of_Z (n : Z) : string := NilZero.string_of_int (Z.to_int n).

End PyStr.

(** ** Exceptions

    The classes the operations can meet, with Python's hierarchy: an
    [except C] clause handles an exception whose class derives from [C].
    [KeyboardInterrupt] stands for the exceptions outside [Exception]; they
    come from signals, and no primitive below raises one. *)

Inductive ExnClass :=
  | BaseException | KeyboardInterrupt | Exception
  | ValueError | LookupError | IndexError | KeyError
  | ArithmeticError | ZeroDivisionError | EOFError
  | OSError | FileNotFoundError | FileExistsError | PermissionError
  | SubprocessError | CalledProcessError | PdfReadError.

#[global] Instance ExnClass_eq_dec : EqDecision ExnClass.
Proof. solve_decision. Defined.

(** The direct base class. *)
Definition base_class (c : ExnClass) : option ExnClass :=
  match c with
  | BaseException => None
  | KeyboardInterrupt | Exception => Some BaseException
  | ValueError | LookupError | ArithmeticError | EOFError | OSError
  | SubprocessError | PdfReadError => Some Exception
  | IndexError | KeyError => Some LookupError
  | ZeroDivisionError => Some ArithmeticError
  | FileNotFoundError | FileExistsError | PermissionError => Some OSError
  | CalledProcessError => Some SubprocessError
  end.

Fixpoint mro (depth : nat) (c : ExnClass) : list ExnClass :=
  c :: match depth, base_class c with
       | S d, Some b => mro d b
       | _, _ => []
       end.

Definition issubclass (c d : ExnClass) : bool := bool_decide (d ∈ mro 4 c).

(** An exception object: its class and the text or path it is about. *)
Record Exn := mkExn { exn_class : ExnClass; exn_about : string }.

Definition isinstance (e : Exn) (c : ExnClass) : bool :=
  issubclass (exn_class e) c.

(** Why an executable could not be started: [subprocess.Popen] raises the
    [OSError] of the failed [exec], whose class depends on the cause. *)
Inductive StartFailure :=
  | NoSuchFile
  | NotExecutable
  | OtherOSError.

Definition start_error (failure : StartFailure) : ExnClass :=
  match failure with
  | NoSuchFile => FileNotFoundError
  | NotExecutable => PermissionError
  | OtherOSError => OSError
  end.

(** The result of evaluating an expression: a value or a raised exception. *)
Inductive outcome (A : Type) :=
  | Ok (a : A)
  | Raise (e : Exn).
Arguments Ok {A} a.
Arguments Raise {A} e.

#[global] Instance outcome_ret : MRet outcome := @Ok.
#[global] Instance outcome_bind : MBind outcome := λ A B f m,
  match m with
  | Ok a => f a
  | Raise e => Raise e
  end.

(** A [for] loop over [xs] that updates local variables [s] and may raise. *)
Fixpoint for_pure {A S : Type} (xs : list A) (body : S → A → outcome S)
    (s : S) : outcome S :=
  match xs with
  | [] => Ok s
  | x :: xs' => s' ← body s x; for_pure xs' body s'
  end.

(** ** [int(text)] in base 10

    Optional white space, an optional sign, decimal digits with single
    underscores between them, optional white space. [max_digits] is the
    interpreter's limit on the number of digits of a literal
    ([sys.get_int_max_str_digits()], 0 when there is none). *)

Definition digit_value (c : ascii) : option Z :=
  let n := nat_of_ascii c in
  if ((48 <=? n) && (n <=? 57))%nat then Some (Z.of_nat (n - 48)) else None.

Fixpoint skip_space (s : string) : string :=
  match s with
  | String c s' => if PyStr.c_isspace c then skip_space s' else s
  | EmptyString => EmptyString
  end.

(** Reads digits and underscores; gives the value, the number of digits and
    the text left, or nothing after a doubled or a final underscore. *)
Fixpoint scan_digits (after_underscore : bool) (acc : Z) (count : nat)
    (s : string) : option (Z * nat * string) :=
  match s with
  | String c s' =>
      if Ascii.eqb c "_" then
        if after_underscore then None else scan_digits true acc count s'
      else
        match digit_value c with
        | Some d => scan_digits false (10 * acc + d) (S count) s'
        | None => if after_underscore then None else Some (acc, count, s)
        end
  | EmptyString => if after_underscore then None else Some (acc, count, s)
  end.

Definition py_int (max_digits : nat) (text : string) : outcome Z :=
  let invalid := Raise (mkExn ValueError text) in
  let s := skip_space text in
  let '(negative, s) :=
    match s with
    | String c s' =>
        if Ascii.eqb c "+" then (false, s')
        else if Ascii.eqb c "-" then (true, s')
        else (false, s)
    | EmptyString => (false, s)
    end in
  if PyStr.startswith "_" s then invalid
  else
    match scan_digits false 0 0 s with
    | Some (value, count, rest) =>
        if (count =? 0)%nat then invalid
        else if ((0 <? max_digits) && (max_digits <? count))%nat then invalid
        else if PyStr.all_chars PyStr.c_isspace rest
             then Ok (if negative then - value else value)
             else invalid
    | None => invalid
    end.

(** [a, b = map(int, parts)]: the iterator is consumed one element at a
    time, so the conversions run in order and a third element is converted
    before the unpacking is found to have too many values. *)
Definition unpack_pair (max_digits : nat) (parts : list string)
    : outcome (Z * Z) :=
  match parts with
  | [] => Raise (mkExn ValueError "not enough values to unpack")
  | a :: parts1 =>
      x ← py_int max_digits a;
      match parts1 with
      | [] => Raise (mkExn ValueError "not enough values to unpack")
      | b :: parts2 =>
          y ← py_int max_digits b;
          match parts2 with
          | [] => Ok (x, y)
          | c :: _ =>
              _ ← py_int max_digits c;
              Raise (mkExn ValueError "too many values to unpack")
          end
      end
  end.

(** [map(int, page_range.split('-'))] unpacked into [(start, end)]. *)
Definition range_of_token (max_digits : nat) (page_range : string)
    : outcome (Z * Z) :=
  unpack_pair max_digits (PyStr.split "-" page_range).

(** [range(a, b)] *)
Definition py_range (a b : Z) : list Z := seqZ a (b - a).

(** [parse_page_ranges(input_str)] *)
Definition parse_page_ranges (input_str : string) : list string :=
  PyStr.strip <$> PyStr.split "," input_str.

(** [a // b] on integers. *)
Definition floordiv (a b : Z) : outcome Z :=
  if b =? 0 then Raise (mkExn ZeroDivisionError "integer division or modulo by zero")
  else Ok (a / b).

(** ** [os.path] (POSIX flavour) *)

Module OsPath.

Definition basename (p : string) : string :=
  match PyStr.rpartition "/" p with
  | Some (_, tail) => tail
  | None => p
  end.

Definition dirname (p : string) : string :=
  match PyStr.rpartition "/" p with
  | Some (head, _) =>
      let head := head +:+ "/" in
      if PyStr.all_chars (Ascii.eqb "/") head then head
      else PyStr.rstrip_char "/" head
  | None => EmptyString
  end.

(** [splitext] of a name without directory part: the extension starts at
    the last dot, unless only dots come before it. *)
Definition splitext (name : string) : string * string :=
  match PyStr.rpartition "." name with
  | Some (root, ext) =>
      if PyStr.all_chars (Ascii.eqb ".") root then (name, EmptyString)
      else (root, String "." ext)
  | None => (name, EmptyString)
  end.

Definition join (a b : string) : string :=
  if PyStr.startswith "/" b then b
  else if bool_decide (a = EmptyString) || PyStr.endswith "/" a then a +:+ b
  else a +:+ "/" +:+ b.

End OsPath.

(** ** The world of an operation

    Pages are opaque objects. The file system holds regular files: a PDF
    with its pages, or other bytes of a given length. [w_locked] are the
    paths the process cannot create or open for writing. Everything an
    operation shows or writes is appended to [w_trace]. *)

Section Toolkit.

Context {Page : Type}.

(** The limit of [int] on digits, see [py_int]. *)
Variable int_max_str_digits : nat.

(** The length in bytes of the PDF serialisation of a page sequence. *)
Variable pdf_size : list Page → positive.

Inductive File :=
  | Pdf (pages : list Page)
  | Blob (size : N).

(** The compression backend: what running the command line does to the
    files, or nothing when the executable cannot be started. *)
Variable gs : list string → gmap string File → option (gmap string File).

(** Why the executable of a command line cannot be started, when it
    cannot. *)
Variable gs_failure : list string → StartFailure.

(** One constructor per message of the source. *)
Inductive Message :=
  | MsgInvalidLevel
  | MsgCompressing
  | MsgCompressed (original_size new_size : N)
  | MsgCompressionFailed (e : Exn)
  | MsgExn (e : Exn)
  | MsgUnexpected (e : Exn)
  | MsgNoSuchPage (page : Z)
  | MsgExtracted (output_pdf : string)
  | MsgFileNotFound (file : string)
  | MsgMerged (output_pdf : string)
  | MsgDeleted (output_pdf : string)
  | MsgSplit (num_parts : Z)
  | MsgSavedIn (output_dir : string)
  | MsgNaming (base_name : string)
  | MsgError (e : Exn).

Inductive Event :=
  | EPrint (m : Message)
  | EPrompt (text : string)
  | EBar (total : Z) (desc : string)
  | EUpdate (n : Z)
  | EMakedirs (dir : string)
  | EPopen (cmd : list string)
  | EWrite (path : string) (pages : list Page).

Record World := mkWorld {
  w_files : gmap string File;
  w_locked : gset string;
  w_stdin : list string;
  w_trace : list Event
}.

Definition emit (ev : Event) (w : World) : World :=
  mkWorld (w_files w) (w_locked w) (w_stdin w) (w_trace w ++ [ev]).

(** *** Computations: a world in, a value or an exception and a world out *)

Definition M (A : Type) : Type := World → outcome A * World.

#[global] Instance M_ret : MRet M := λ A a w, (Ok a, w).
#[global] Instance M_bind : MBind M := λ A B f m w,
  match m w with
  | (Ok a, w') => f a w'
  | (Raise e, w') => (Raise e, w')
  end.

Definition raise {A} (e : Exn) : M A := λ w, (Raise e, w).

Definition lift {A} (r : outcome A) : M A := λ w, (r, w).

(** [try: body except C1 as e: h1 ... except Cn as e: hn]: the first
    clause whose class the exception is an instance of handles it. *)
Fixpoint handle {A} (handlers : list (ExnClass * (Exn → M A))) (e : Exn)
    : M A :=
  match handlers with
  | [] => raise e
  | (c, h) :: rest => if isinstance e c then h e else handle rest e
  end.

Definition try_except {A} (body : M A)
    (handlers : list (ExnClass * (Exn → M A))) : M A := λ w,
  match body w with
  | (Ok a, w') => (Ok a, w')
  | (Raise e, w') => handle handlers e w'
  end.

(** A [for] loop whose body updates the local variables [s]. *)
Fixpoint for_each {A S : Type} (xs : list A) (body : S → A → M S) (s : S)
    : M S :=
  match xs with
  | [] => mret s
  | x :: xs' => s' ← body s x; for_each xs' body s'
  end.

(** *** Primitives *)

Definition print (m : Message) : M unit := λ w, (Ok tt, emit (EPrint m) w).

(** [tqdm(total=..., desc=...)] and [pbar.update(n)]: the bar only shows
    progress; a total that is zero or negative is shown as unknown. *)
Definition tqdm (total : Z) (desc : string) : M unit :=
  λ w, (Ok tt, emit (EBar total desc) w).
Definition pbar_update (n : Z) : M unit :=
  λ w, (Ok tt, emit (EUpdate n) w).

Definition os_path_exists (path : string) : M bool :=
  λ w, (Ok (bool_decide (is_Some (w_files w !! path))), w).

Definition os_path_getsize (path : string) : M N := λ w,
  match w_files w !! path with
  | Some (Pdf pages) => (Ok (Npos (pdf_size pages)), w)
  | Some (Blob size) => (Ok size, w)
  | None => (Raise (mkExn FileNotFoundError path), w)
  end.

(** [PdfReader(path)]: the file is read whole; [reader.pages] is the
    result. *)
Definition PdfReader (path : string) : M (list Page) := λ w,
  match w_files w !! path with
  | Some (Pdf pages) => (Ok pages, w)
  | Some (Blob _) => (Raise (mkExn PdfReadError path), w)
  | None => (Raise (mkExn FileNotFoundError path), w)
  end.

(** [reader.pages[i]]: a negative index counts from the end. *)
Definition pages_getitem (pages : list Page) (i : Z) : outcome Page :=
  let n := Z.of_nat (length pages) in
  let i := if i <? 0 then n + i else i in
  if (i <? 0) || (n <=? i)
  then Raise (mkExn IndexError "sequence index out of range")
  else match pages !! Z.to_nat i with
       | Some page => Ok page
       | None => Raise (mkExn IndexError "sequence index out of range")
       end.

(** [with open(path, 'wb') as out_file: writer.write(out_file)]: the
    pages added to the writer, none included, become the file. The
    failures are those of [open], which leave the file as it was; a
    [writer.write] that fails once [open] has truncated the file (a full
    disk) is not modelled, and a path is taken for the file it names: a
    file reached under two names is not modelled either. *)
Definition write_pdf (path : string) (writer : list Page) : M unit := λ w,
  if bool_decide (path = EmptyString)
  then (Raise (mkExn FileNotFoundError path), w)
  else if bool_decide (path ∈ w_locked w)
  then (Raise (mkExn PermissionError path), w)
  else (Ok tt,
        mkWorld (<[path := Pdf writer]> (w_files w)) (w_locked w)
                (w_stdin w) (w_trace w ++ [EWrite path writer])).

(** [input(prompt)] *)
Definition input (prompt : string) : M string := λ w,
  let w := emit (EPrompt prompt) w in
  match w_stdin w with
  | line :: rest =>
      (Ok line, mkWorld (w_files w) (w_locked w) rest (w_trace w))
  | [] => (Raise (mkExn EOFError "EOF when reading a line"), w)
  end.

(** [os.makedirs(dir, exist_ok=True)] *)
Definition os_makedirs (dir : string) : M unit := λ w,
  if bool_decide (dir = EmptyString)
  then (Raise (mkExn FileNotFoundError dir), w)
  else if bool_decide (is_Some (w_files w !! dir))
  then (Raise (mkExn FileExistsError dir), w)
  else if bool_decide (dir ∈ w_locked w)
  then (Raise (mkExn PermissionError dir), w)
  else (Ok tt, emit (EMakedirs dir) w).

(** [process = subprocess.Popen(cmd); process.wait()]: [Popen] raises
    when the executable cannot be started; [wait] returns whatever the exit
    status is. *)
Definition Popen_wait (cmd : list string) : M unit := λ w,
  let w := emit (EPopen cmd) w in
  match gs cmd (w_files w) with
  | Some files =>
      (Ok tt, mkWorld files (w_locked w) (w_stdin w) (w_trace w))
  | None => (Raise (mkExn (start_error (gs_failure cmd)) "gs"), w)
  end.

(** [d[k]] on a dictionary with integer keys. *)
Definition dict_getitem (d : gmap Z string) (k : Z) : outcome string :=
  match d !! k with
  | Some v => Ok v
  | None => Raise (mkExn KeyError (PyStr.of_Z k))
  end.

(** *** [compress_pdf] *)

Definition quality_map : gmap Z string :=
  {[ 1 := "/prepress"; 2 := "/printer"; 3 := "/ebook"; 4 := "/screen";
     5 := "/ebook" ]}.

Definition custom_flags : list string :=
  [ "-dDetectDuplicateImages=true";
    "-dColorImageResolution=150";
    "-dGrayImageResolution=150";
    "-dMonoImageResolution=150";
    "-dDownsampleColorImages=true";
    "-dDownsampleGrayImages=true";
    "-dDownsampleMonoImages=true" ].

(** The command line, with the slice assignment [gs_cmd[3:3] = ...] of
    level 5. *)
Definition gs_cmd (quality : string) (power : Z)
    (input_pdf output_pdf : string) : list string :=
  let cmd :=
    [ "gs";
      "-sDEVICE=pdfwrite";
      "-dCompatibilityLevel=1.5";
      "-dPDFSETTINGS=" +:+ quality;
      "-dNOPAUSE";
      "-dQUIET";
      "-dBATCH";
      "-dAutoRotatePages=/None";
      "-sOutputFile=" +:+ output_pdf;
      input_pdf ] in
  if power =? 5 then take 3 cmd ++ custom_flags ++ drop 3 cmd else cmd.

Definition compress_pdf (input_pdf output_pdf : string) (power : Z)
    : M unit :=
  power ← (if bool_decide (quality_map !! power = None)
           then print MsgInvalidLevel;; mret 3
           else mret power);
  quality ← lift (dict_getitem quality_map power);
  try_except
    (found ← os_path_exists input_pdf;
     (if negb found then raise (mkExn FileNotFoundError input_pdf)
      else mret tt);;
     print MsgCompressing;;
     Popen_wait (gs_cmd quality power input_pdf output_pdf);;
     created ← os_path_exists output_pdf;
     if (created : bool) then
       original_size ← os_path_getsize input_pdf;
       new_size ← os_path_getsize output_pdf;
       (if (original_size =? 0)%N
        then raise (mkExn ZeroDivisionError "float division by zero")
        else mret tt);;
       print (MsgCompressed original_size new_size)
     else raise (mkExn FileNotFoundError "Error: Output file was not created"))
    [ (CalledProcessError, λ e, print (MsgCompressionFailed e));
      (FileNotFoundError, λ e, print (MsgExn e));
      (Exception, λ e, print (MsgUnexpected e)) ].

(** *** [extract_pages] *)

(** The total of line 85: [sum(end - start + 1 for ...)] *)
Definition sum_range_sizes (page_ranges : list string) : outcome Z :=
  for_pure page_ranges
    (λ total r,
       '(start, end_) ← range_of_token int_max_str_digits r;
       mret (total + (end_ - start + 1)))
    0.

Definition extract_pages (input_pdf output_pdf : string)
    (page_ranges : list string) : M unit :=
  try_except
    (reader ← PdfReader input_pdf;
     total_pages ← lift (sum_range_sizes page_ranges);
     tqdm total_pages "Extracting pages";;
     writer ← for_each page_ranges
       (λ writer page_range,
          '(start, end_) ← lift (range_of_token int_max_str_digits page_range);
          for_each (py_range (start - 1) end_)
            (λ writer page_num,
               if page_num <? Z.of_nat (length reader) then
                 page ← lift (pages_getitem reader page_num);
                 pbar_update 1;;
                 mret (writer ++ [page])
               else
                 print (MsgNoSuchPage (page_num + 1));;
                 mret writer)
            writer)
       [];
     write_pdf output_pdf writer;;
     print (MsgExtracted output_pdf))
    [ (Exception, λ e, print (MsgError e)) ].

(** *** [merge_pdfs] *)

Definition merge_pdfs (input_files : list string) (output_pdf : string)
    : M unit :=
  try_except
    (total_pages ← for_each input_files
       (λ total_pages file,
          found ← os_path_exists file;
          if (found : bool) then
            reader ← PdfReader file;
            mret (total_pages + Z.of_nat (length reader))
          else mret total_pages)
       0;
     tqdm total_pages "Merging PDFs";;
     writer ← for_each input_files
       (λ writer file,
          found ← os_path_exists file;
          if negb found then
            print (MsgFileNotFound file);;
            mret writer
          else
            reader ← PdfReader file;
            for_each reader
              (λ writer page, pbar_update 1;; mret (writer ++ [page]))
              writer)
       [];
     write_pdf output_pdf writer;;
     print (MsgMerged output_pdf))
    [ (Exception, λ e, print (MsgError e)) ].

(** *** [delete_pages] *)

Definition delete_pages (input_pdf output_pdf : string)
    (page_ranges_to_delete : list string) : M unit :=
  try_except
    (reader ← PdfReader input_pdf;
     let total_pages := Z.of_nat (length reader) in
     pages_to_exclude ← lift (for_pure page_ranges_to_delete
       (λ (pages_to_exclude : gset Z) page_range,
          '(start, end_) ← range_of_token int_max_str_digits page_range;
          mret (pages_to_exclude ∪ list_to_set (py_range (start - 1) end_)))
       ∅);
     let remaining_pages := total_pages - Z.of_nat (size pages_to_exclude) in
     tqdm remaining_pages "Deleting pages";;
     writer ← for_each (py_range 0 total_pages)
       (λ writer page_num,
          if bool_decide (page_num ∉ pages_to_exclude) then
            page ← lift (pages_getitem reader page_num);
            pbar_update 1;;
            mret (writer ++ [page])
          else mret writer)
       [];
     write_pdf output_pdf writer;;
     print (MsgDeleted output_pdf))
    [ (Exception, λ e, print (MsgError e)) ].

(** *** [split_pdf] *)

Definition split_pdf (input_pdf : string) (pages_per_part : Z) : M unit :=
  try_except
    (reader ← PdfReader input_pdf;
     let total_pages := Z.of_nat (length reader) in
     num_parts ← lift (floordiv (total_pages + pages_per_part - 1) pages_per_part);
     let base_name := (OsPath.splitext (OsPath.basename input_pdf)).1 in
     line ← input "Enter directory to save parts (leave empty for same directory): ";
     let output_dir := PyStr.strip line in
     let output_dir :=
       if bool_decide (output_dir = EmptyString)
       then OsPath.dirname input_pdf else output_dir in
     os_makedirs output_dir;;
     tqdm total_pages "Splitting PDF";;
     for_each (py_range 0 num_parts)
       (λ _ part_num,
          let start_page := part_num * pages_per_part in
          let end_page := Z.min ((part_num + 1) * pages_per_part) total_pages in
          writer ← for_each (py_range start_page end_page)
            (λ writer page_num,
               page ← lift (pages_getitem reader page_num);
               pbar_update 1;;
               mret (writer ++ [page]))
            [];
          let output_pdf :=
            OsPath.join output_dir
              (base_name +:+ "_part" +:+ PyStr.of_Z (part_num + 1) +:+ ".pdf") in
          write_pdf output_pdf writer)
       tt;;
     print (MsgSplit num_parts);;
     print (MsgSavedIn output_dir);;
     print (MsgNaming base_name))
    [ (Exception, λ e, print (MsgError e)) ].

(** ** Specifications, in the words of the design document *)

(** A token that can be split into exactly two integer parts. *)
Definition two_integer_parts (token : string) : Prop :=
  ∃ a b x y, PyStr.split "-" token = [a; b] ∧
    py_int int_max_str_digits a = Ok x ∧ py_int int_max_str_digits b = Ok y.

(** The tokens denote the ranges [rs]. *)
Definition denote (tokens : list string) (rs : list (Z * Z)) : Prop :=
  Forall2 (λ token r, range_of_token int_max_str_digits token = Ok r)
          tokens rs.

(** The page with 1-indexed number [n], when the document has it. *)
Definition page_number (pages : list Page) (n : Z) : option Page :=
  if 1 <=? n then pages !! Z.to_nat (n - 1) else None.

(** The existing pages [start..end], in page order. *)
Definition pages_of_range (pages : list Page) (r : Z * Z) : list Page :=
  omap (page_number pages) (seqZ r.1 (r.2 - r.1 + 1)).

(** Extract: the concatenation over the ranges in input order. *)
Definition extract_spec (pages : list Page) (rs : list (Z * Z))
    : list Page :=
  rs ≫= pages_of_range pages.

(** The 0-indexed page number [i] lies in one of the ranges. *)
Definition in_ranges (rs : list (Z * Z)) (i : Z) : bool :=
  existsb (λ r, (r.1 - 1 <=? i) && (i <? r.2)) rs.

(** Delete: the pages from number [i] on that no range covers. *)
Fixpoint keep_from (i : Z) (rs : list (Z * Z)) (pages : list Page)
    : list Page :=
  match pages with
  | [] => []
  | page :: rest =>
      if in_ranges rs i then keep_from (i + 1) rs rest
      else page :: keep_from (i + 1) rs rest
  end.

Definition delete_spec (pages : list Page) (rs : list (Z * Z))
    : list Page :=
  keep_from 0 rs pages.

(** Merge: all pages of each file that exists, in the given order. *)
Definition merge_spec (files : gmap string File) (inputs : list string)
    : list Page :=
  inputs ≫= (λ file,
    match files !! file with
    | Some (Pdf pages) => pages
    | _ => []
    end).

(** Split: the pages of part [i] (0-based) and its file name. *)
Definition part_pages (pages : list Page) (pages_per_part i : Z)
    : list Page :=
  let start_page := i * pages_per_part in
  let end_page := Z.min ((i + 1) * pages_per_part) (Z.of_nat (length pages)) in
  take (Z.to_nat (end_page - start_page)) (drop (Z.to_nat start_page) pages).

Definition part_name (base_name : string) (i : Z) : string :=
  base_name +:+ "_part" +:+ PyStr.of_Z (i + 1) +:+ ".pdf".

(** Compress: the preset of a level, and the command line. *)
Definition preset_of_level (level : Z) : string :=
  match level with
  | 1 => "prepress"
  | 2 => "printer"
  | 3 => "ebook"
  | 4 => "screen"
  | 5 => "ebook"
  | _ => "ebook"
  end.

Definition valid_level (level : Z) : bool := (1 <=? level) && (level <=? 5).

Definition command_line_spec (level : Z) (input_pdf output_pdf : string)
    : list string :=
  [ "gs"; "-sDEVICE=pdfwrite"; "-dCompatibilityLevel=1.5" ]
  ++ (if level =? 5 then custom_flags else [])
  ++ [ "-dPDFSETTINGS=/" +:+ preset_of_level level;
       "-dNOPAUSE"; "-dQUIET"; "-dBATCH"; "-dAutoRotatePages=/None";
       "-sOutputFile=" +:+ output_pdf; input_pdf ].

(** Ranges that tile the page numbers [from .. upto - 1] in ascending
    order, without gap or overlap. *)
Fixpoint tiles (from : Z) (rs : list (Z * Z)) (upto : Z) : Prop :=
  match rs with
  | [] => from = upto
  | r :: rs' => r.1 = from ∧ from ≤ r.2 + 1 ∧ tiles (r.2 + 1) rs' upto
  end.

(** What a trace shows: the files written and the messages printed. *)
Definition writes_of (trace : list Event) : list (string * list Page) :=
  omap (λ ev, match ev with EWrite path pages => Some (path, pages)
                       | _ => None end) trace.

Definition messages_of (trace : list Event) : list Message :=
  omap (λ ev, match ev with EPrint m => Some m | _ => None end) trace.

Definition is_warning (m : Message) : bool :=
  match m with
  | MsgInvalidLevel | MsgNoSuchPage _ | MsgFileNotFound _ => true
  | _ => false
  end.

Definition is_success (m : Message) : bool :=
  match m with
  | MsgCompressed _ _ | MsgExtracted _ | MsgMerged _ | MsgDeleted _
  | MsgSplit _ | MsgSavedIn _ | MsgNaming _ => true
  | _ => false
  end.

Definition is_failure (m : Message) : bool :=
  match m with
  | MsgCompressionFailed _ | MsgExn _ | MsgUnexpected _ | MsgError _ => true
  | _ => false
  end.

(** The world after more events. *)
Definition after (evs : list Event) (w : World) : World :=
  mkWorld (w_files w) (w_locked w) (w_stdin w) (w_trace w ++ evs).

(** The world after [path] was written. *)
Definition written (path : string) (pages : list Page) (w : World)
    : World :=
  mkWorld (<[path := Pdf pages]> (w_files w)) (w_locked w) (w_stdin w)
          (w_trace w ++ [EWrite path pages]).

(** What the copy loop of [extract_pages] shows for the 0-indexed page
    numbers [l] of a document of [n] pages. *)
Definition copy_events (n : Z) (l : list Z) : list Event :=
  (λ i, if i <? n then EUpdate 1 else EPrint (MsgNoSuchPage (i + 1))) <$> l.

Definition extract_events (n : Z) (rs : list (Z * Z)) : list Event :=
  rs ≫= (λ r, copy_events n (py_range (r.1 - 1) r.2)).

(** The total of the progress bar of [extract_pages]. *)
Definition ranges_total (rs : list (Z * Z)) : Z :=
  foldr (λ r acc, (r.2 - r.1 + 1) + acc) 0 rs.

(** The exclusion set [delete_pages] builds from the ranges. *)
Definition excluded (rs : list (Z * Z)) : gset Z :=
  foldl (λ s r, s ∪ list_to_set (py_range (r.1 - 1) r.2)) ∅ rs.

(** The pages the copy loop of [delete_pages] keeps among the 0-indexed
    page numbers [l]. *)
Definition kept_pages (excl : gset Z) (pages : list Page) (l : list Z)
    : list Page :=
  l ≫= (λ i, if bool_decide (i ∉ excl)
             then option_list (pages !! Z.to_nat i) else []).

Definition ticks (n : nat) : list Event := replicate n (EUpdate 1).

(** What the two passes of [merge_pdfs] compute and show. *)
Definition merge_total (files : gmap string File) (inputs : list string) : Z :=
  foldr (λ file acc,
           match files !! file with
           | Some (Pdf pages) => Z.of_nat (length pages) + acc
           | _ => acc
           end) 0 inputs.

Definition merge_events (files : gmap string File) (inputs : list string)
    : list Event :=
  inputs ≫= (λ file,
    match files !! file with
    | Some (Pdf pages) => ticks (length pages)
    | _ => [EPrint (MsgFileNotFound file)]
    end).

(** No listed file has a content that is not a PDF. *)
Definition all_pdf (files : gmap string File) (inputs : list string) : Prop :=
  Forall (λ file, ∀ size, files !! file ≠ Some (Blob size)) inputs.

(** The file of part [i] in the destination directory. *)
Definition part_path (output_dir base_name : string) (i : Z) : string :=
  OsPath.join output_dir (part_name base_name i).

(** The world after [split_pdf] copied and wrote part [i]. *)
Definition split_step (pages : list Page) (pages_per_part : Z)
    (output_dir base_name : string) (w : World) (i : Z) : World :=
  written (part_path output_dir base_name i)
    (part_pages pages pages_per_part i)
    (after (ticks (length (part_pages pages pages_per_part i))) w).

(** The destination directory [split_pdf] settles on. *)
Definition split_dir (input_pdf line : string) : string :=
  if bool_decide (PyStr.strip line = EmptyString)
  then OsPath.dirname input_pdf else PyStr.strip line.

Definition split_base (input_pdf : string) : string :=
  (OsPath.splitext (OsPath.basename input_pdf)).1.

(** [ceil(a / b)] for a positive [b]: the least [n] with [a ≤ n * b]. *)
Definition is_ceil_div (a b n : Z) : Prop := (n - 1) * b < a ≤ n * b.

(** The world after [input(prompt)] consumed a line, [rest] being left. *)
Definition answered (prompt : string) (rest : list string) (w : World)
    : World :=
  mkWorld (w_files w) (w_locked w) rest (w_trace w ++ [EPrompt prompt]).

Definition split_prompt : string :=
  "Enter directory to save parts (leave empty for same directory): ".

(** ** Properties of computations *)

(** An expression raises nothing but instances of [Exception]. *)
Definition tame_pure {A} (r : outcome A) : Prop :=
  ∀ e, r = Raise e → isinstance e Exception = true.

(** A computation only appends to the trace, and raises nothing but
    instances of [Exception]. *)
Definition tame {A} (m : M A) : Prop :=
  ∀ w, (∃ evs, w_trace (m w).2 = w_trace w ++ evs)
       ∧ tame_pure (m w).1.

(** A tame computation which, when it returns, has just printed a success
    message. *)
Definition finishing {A} (m : M A) : Prop :=
  ∀ w, ∃ evs, w_trace (m w).2 = w_trace w ++ evs ∧
    match (m w).1 with
    | Ok _ => ∃ evs' msg, evs = evs' ++ [EPrint msg] ∧ is_success msg = true
    | Raise e => isinstance e Exception = true
    end.

(** An operation returns normally whatever happens, and the last thing it
    shows is a message of success or of failure. *)
Definition reports (m : M unit) : Prop :=
  ∀ w, (m w).1 = Ok tt ∧
    ∃ evs msg, w_trace (m w).2 = w_trace w ++ evs ++ [EPrint msg] ∧
      (is_success msg || is_failure msg = true).

(** The ranges cover every page number of a document of [n] pages. *)
Definition covers (rs : list (Z * Z)) (n : Z) : Prop :=
  ∀ p, 1 ≤ p ≤ n → in_ranges rs (p - 1) = true.

(** ** Running computations *)

Lemma bind_ok {A B} (m : M A) (f : A → M B) w a w1 res :
  m w = (Ok a, w1) → f a w1 = res → (m ≫= f) w = res.
Proof. intros Hm Hf. unfold mbind, M_bind. by rewrite Hm. Qed.

Lemma bind_raise {A B} (m : M A) (f : A → M B) w e w1 :
  m w = (Raise e, w1) → (m ≫= f) w = (Raise e, w1).
Proof. intros Hm. unfold mbind, M_bind. by rewrite Hm. Qed.

Lemma try_ok {A} (body : M A) handlers w a w1 :
  body w = (Ok a, w1) → try_except body handlers w = (Ok a, w1).
Proof. intros Hb. unfold try_except. by rewrite Hb. Qed.

Lemma try_raise {A} (body : M A) handlers w e w1 res :
  body w = (Raise e, w1) → handle handlers e w1 = res →
  try_except body handlers w = res.
Proof. intros Hb Hh. unfold try_except. by rewrite Hb. Qed.

Lemma after_nil w : after [] w = w.
Proof. destruct w. unfold after. simpl. by rewrite app_nil_r. Qed.

Lemma after_after evs1 evs2 w :
  after evs2 (after evs1 w) = after (evs1 ++ evs2) w.
Proof. unfold after. simpl. by rewrite app_assoc. Qed.

Lemma print_run m w : print m w = (Ok tt, after [EPrint m] w).
Proof. reflexivity. Qed.

Lemma pbar_update_run n w : pbar_update n w = (Ok tt, after [EUpdate n] w).
Proof. reflexivity. Qed.

Lemma tqdm_run total desc w :
  tqdm total desc w = (Ok tt, after [EBar total desc] w).
Proof. reflexivity. Qed.

Lemma PdfReader_run path pages w :
  w_files w !! path = Some (Pdf pages) → PdfReader path w = (Ok pages, w).
Proof. intros H. unfold PdfReader. by rewrite H. Qed.

Lemma write_pdf_run path writer w :
  path ≠ EmptyString → path ∉ w_locked w →
  write_pdf path writer w = (Ok tt, written path writer w).
Proof.
  intros Hne Hfree. unfold write_pdf.
  rewrite bool_decide_eq_false_2 by done.
  by rewrite bool_decide_eq_false_2 by done.
Qed.

(** ** Page lookups *)

Lemma pages_getitem_inside (pages : list Page) i :
  0 ≤ i < Z.of_nat (length pages) →
  ∃ page, pages !! Z.to_nat i = Some page ∧ pages_getitem pages i = Ok page.
Proof.
  intros Hi. unfold pages_getitem.
  destruct (lookup_lt_is_Some_2 pages (Z.to_nat i)) as [page Hpage]; [lia|].
  exists page. split; [done|].
  rewrite (proj2 (Z.ltb_ge i 0)) by lia.
  rewrite (proj2 (Z.ltb_ge i 0)) by lia.
  rewrite (proj2 (Z.leb_gt _ _)) by lia.
  simpl. by rewrite Hpage.
Qed.

Lemma page_number_succ (pages : list Page) i :
  0 ≤ i → page_number pages (i + 1) = pages !! Z.to_nat i.
Proof.
  intros Hi. unfold page_number.
  rewrite (proj2 (Z.leb_le _ _)) by lia.
  by replace (i + 1 - 1) with i by lia.
Qed.

(** ** The loops of [extract_pages] *)

Local Abbreviation copy_page reader :=
  (λ (writer : list Page) (page_num : Z),
     if page_num <? Z.of_nat (length reader) then
       page ← lift (pages_getitem reader page_num);
       pbar_update 1;;
       mret (writer ++ [page])
     else
       print (MsgNoSuchPage (page_num + 1));;
       mret writer).

Local Abbreviation copy_range reader :=
  (λ (writer : list Page) (page_range : string),
     '(start, end_) ← lift (range_of_token int_max_str_digits page_range);
     for_each (py_range (start - 1) end_) (copy_page reader) writer).

Lemma copy_page_loop (reader : list Page) l writer w :
  Forall (λ i, 0 ≤ i) l →
  for_each l (copy_page reader) writer w
  = (Ok (writer ++ omap (λ i, page_number reader (i + 1)) l),
     after (copy_events (Z.of_nat (length reader)) l) w).
Proof.
  intros Hl. revert writer w.
  induction Hl as [|i l Hi _ IH]; intros writer w.
  - simpl. by rewrite app_nil_r, after_nil.
  - simpl for_each. unfold copy_events. rewrite fmap_cons.
    fold (copy_events (Z.of_nat (length reader)) l).
    change (omap ?f (i :: l)) with
      (match f i with Some p => p :: omap f l | None => omap f l end).
    cbv beta. rewrite page_number_succ by done.
    destruct (i <? Z.of_nat (length reader)) eqn:Hlt.
    + apply Z.ltb_lt in Hlt.
      destruct (pages_getitem_inside reader i) as (page & Hpage & Hget); [lia|].
      rewrite Hpage.
      eapply bind_ok.
      { eapply bind_ok; [unfold lift; by rewrite Hget|].
        eapply bind_ok; [apply pbar_update_run|]. reflexivity. }
      rewrite IH, after_after. by rewrite <- app_assoc.
    + apply Z.ltb_ge in Hlt.
      rewrite (lookup_ge_None_2 reader (Z.to_nat i)) by lia.
      eapply bind_ok.
      { eapply bind_ok; [apply print_run|]. reflexivity. }
      by rewrite IH, after_after.
Qed.

Lemma omap_fmap_compose {A B C} (f : B → option C) (g : A → B) (l : list A) :
  omap f (g <$> l) = omap (λ x, f (g x)) l.
Proof.
  induction l as [|x l IH]; [done|].
  csimpl. by rewrite IH.
Qed.

Lemma pages_of_range_shift (pages : list Page) start end_ :
  omap (λ i, page_number pages (i + 1)) (py_range (start - 1) end_)
  = pages_of_range pages (start, end_).
Proof.
  unfold pages_of_range, py_range. simpl.
  replace (seqZ start (end_ - start + 1))
    with (Z.add 1 <$> seqZ (start - 1) (end_ - (start - 1))).
  - rewrite omap_fmap_compose. apply list_omap_ext, Forall2_same_length_lookup.
    split; [done|]. intros i x y Hx Hy. simplify_eq. f_equal. lia.
  - rewrite fmap_add_seqZ. f_equal; lia.
Qed.

Lemma py_range_from (a b : Z) : Forall (λ i, a ≤ i) (py_range a b).
Proof.
  unfold py_range. apply Forall_seqZ. intros i Hi. lia.
Qed.

Lemma copy_range_loop (reader : list Page) tokens rs writer w :
  denote tokens rs → Forall (λ r, 1 ≤ r.1) rs →
  for_each tokens (copy_range reader) writer w
  = (Ok (writer ++ extract_spec reader rs),
     after (extract_events (Z.of_nat (length reader)) rs) w).
Proof.
  intros Hden. revert writer w.
  induction Hden as [|token [start end_] tokens rs Htoken _ IH];
    intros writer w Hstart.
  - simpl. by rewrite app_nil_r, after_nil.
  - apply Forall_cons in Hstart as [Hs Hstart]. simpl in Hs.
    simpl for_each. eapply bind_ok.
    { eapply bind_ok; [unfold lift; by rewrite Htoken|].
      cbv beta iota. apply copy_page_loop.
      eapply Forall_impl; [apply py_range_from|]. simpl. intros i Hi. lia. }
    rewrite IH by done. rewrite after_after, pages_of_range_shift.
    unfold extract_spec, extract_events. rewrite !bind_cons.
    by rewrite <- app_assoc.
Qed.

Lemma sum_range_sizes_from tokens rs total :
  denote tokens rs →
  for_pure tokens
    (λ total r,
       '(start, end_) ← range_of_token int_max_str_digits r;
       mret (total + (end_ - start + 1)))
    total
  = Ok (total + ranges_total rs).
Proof.
  intros Hden. revert total.
  induction Hden as [|token [start end_] tokens rs Htoken _ IH]; intros total.
  - simpl. f_equal. lia.
  - simpl. rewrite Htoken. simpl. rewrite IH. f_equal. lia.
Qed.

(** ** Converting tokens *)

Lemma py_int_raise n text e :
  py_int n text = Raise e → e = mkExn ValueError text.
Proof.
  unfold py_int. intros H.
  repeat (match type of H with
          | context [match ?x with _ => _ end] => destruct x
          end; try congruence).
Qed.

Lemma unpack_pair_raise n parts e :
  unpack_pair n parts = Raise e → exn_class e = ValueError.
Proof.
  unfold unpack_pair. intros H.
  destruct parts as [|a [|b [|c parts]]]; simpl in H.
  - by inversion H.
  - destruct (py_int n a) eqn:Ha; simpl in H; inversion H; subst; [done|].
    by rewrite (py_int_raise _ _ _ Ha).
  - destruct (py_int n a) eqn:Ha; simpl in H;
      [|inversion H; subst; by rewrite (py_int_raise _ _ _ Ha)].
    destruct (py_int n b) eqn:Hb; simpl in H; [done|].
    inversion H; subst. by rewrite (py_int_raise _ _ _ Hb).
  - destruct (py_int n a) eqn:Ha; simpl in H;
      [|inversion H; subst; by rewrite (py_int_raise _ _ _ Ha)].
    destruct (py_int n b) eqn:Hb; simpl in H;
      [|inversion H; subst; by rewrite (py_int_raise _ _ _ Hb)].
    destruct (py_int n c) eqn:Hc; simpl in H; inversion H; subst; [done|].
    by rewrite (py_int_raise _ _ _ Hc).
Qed.

Lemma range_of_token_raise token e :
  range_of_token int_max_str_digits token = Raise e →
  exn_class e = ValueError.
Proof. apply unpack_pair_raise. Qed.

Lemma range_of_token_ok token :
  two_integer_parts token
  ↔ ∃ r, range_of_token int_max_str_digits token = Ok r.
Proof.
  unfold two_integer_parts, range_of_token, unpack_pair. split.
  - intros (a & b & x & y & -> & Ha & Hb). exists (x, y).
    rewrite Ha. simpl. by rewrite Hb.
  - intros [r Hr].
    destruct (PyStr.split "-" token) as [|a [|b [|c parts]]]; [done|..].
    + destruct (py_int int_max_str_digits a); done.
    + destruct (py_int int_max_str_digits a) as [x|] eqn:Ha; [|done].
      destruct (py_int int_max_str_digits b) as [y|] eqn:Hb; [|done].
      by exists a, b, x, y.
    + destruct (py_int int_max_str_digits a); [|done].
      destruct (py_int int_max_str_digits b); [|done].
      destruct (py_int int_max_str_digits c); done.
Qed.

Lemma range_of_token_cases token :
  (∃ r, range_of_token int_max_str_digits token = Ok r)
  ∨ (∃ e, range_of_token int_max_str_digits token = Raise e
          ∧ exn_class e = ValueError).
Proof.
  destruct (range_of_token int_max_str_digits token) as [r|e] eqn:H.
  - left. by exists r.
  - right. exists e. split; [done|]. by eapply range_of_token_raise.
Qed.

(** The parts of a token contain no dash, so both numbers of a range are
    natural numbers. *)
Lemma split_parts_free sep s :
  Forall (λ part, PyStr.all_chars (λ c, negb (Ascii.eqb c sep)) part = true)
         (PyStr.split sep s).
Proof.
  induction s as [|c s IH]; simpl.
  - by constructor.
  - destruct (Ascii.eqb c sep) eqn:Hc.
    + by constructor.
    + destruct (PyStr.split sep s) as [|part parts].
      * constructor; [|done]. simpl. by rewrite Hc.
      * apply Forall_cons in IH as [Hpart Hparts].
        constructor; [|done]. simpl. by rewrite Hc.
Qed.

Lemma skip_space_free p s :
  PyStr.all_chars p s = true → PyStr.all_chars p (skip_space s) = true.
Proof.
  induction s as [|c s IH]; simpl; [done|].
  intros [Hc Hs]%andb_true_iff.
  destruct (PyStr.c_isspace c); [by apply IH|].
  simpl. by rewrite Hc, Hs.
Qed.

Lemma digit_value_nonneg c d : digit_value c = Some d → 0 ≤ d.
Proof.
  unfold digit_value. destruct (_ && _); [|done]. intros [= <-]. lia.
Qed.

Lemma scan_digits_nonneg after_underscore acc count s value count' rest :
  scan_digits after_underscore acc count s = Some (value, count', rest) →
  0 ≤ acc → 0 ≤ value.
Proof.
  revert after_underscore acc count.
  induction s as [|c s IH]; intros after_underscore acc count; simpl.
  - destruct after_underscore; [done|]. by intros [= <- _ _].
  - destruct (Ascii.eqb c "_").
    + destruct after_underscore; [done|]. apply IH.
    + destruct (digit_value c) as [d|] eqn:Hd.
      * intros Hscan Hacc. apply IH in Hscan; [done|].
        apply digit_value_nonneg in Hd. lia.
      * destruct after_underscore; [done|]. by intros [= <- _ _].
Qed.

Lemma py_int_nonneg n text value :
  PyStr.all_chars (λ c, negb (Ascii.eqb c "-")) text = true →
  py_int n text = Ok value → 0 ≤ value.
Proof.
  intros Hfree%skip_space_free. unfold py_int.
  destruct (skip_space text) as [|c s].
  - simpl. done.
  - simpl in Hfree. apply andb_true_iff in Hfree as [Hc _].
    apply negb_true_iff in Hc. rewrite Hc.
    intros Hint.
    assert (∃ s', match scan_digits false 0 0 s' with
                  | Some (v, _, _) => v = value
                  | None => False
                  end) as [s' Hs'].
    { destruct (Ascii.eqb c "+"); [exists s|exists (String c s)];
        (destruct (PyStr.startswith "_" _); [done|];
         destruct (scan_digits false 0 0 _) as [[[v count] rest]|]; [|done];
         destruct (count =? 0)%nat; [done|];
         destruct (_ && _); [done|];
         destruct (PyStr.all_chars PyStr.c_isspace rest); [|done];
         by injection Hint). }
    destruct (scan_digits false 0 0 s') as [[[v count] rest]|] eqn:Hscan;
      [|done].
    subst. by apply scan_digits_nonneg in Hscan.
Qed.

Lemma range_of_token_nonneg token start end_ :
  range_of_token int_max_str_digits token = Ok (start, end_) →
  0 ≤ start ∧ 0 ≤ end_.
Proof.
  unfold range_of_token, unpack_pair. intros Hrange.
  pose proof (split_parts_free "-" token) as Hfree.
  destruct (PyStr.split "-" token) as [|a [|b [|c parts]]]; [done|..].
  - destruct (py_int int_max_str_digits a); done.
  - apply Forall_cons in Hfree as [Ha Hfree].
    apply Forall_cons in Hfree as [Hb _].
    destruct (py_int int_max_str_digits a) as [x|] eqn:Hx; [|done].
    destruct (py_int int_max_str_digits b) as [y|] eqn:Hy; [|done].
    simpl in Hrange. inversion Hrange; subst.
    split; [by apply (py_int_nonneg int_max_str_digits a)
           |by apply (py_int_nonneg int_max_str_digits b)].
  - destruct (py_int int_max_str_digits a); [|done].
    destruct (py_int int_max_str_digits b); [|done].
    destruct (py_int int_max_str_digits c); done.
Qed.

Lemma denote_all tokens :
  Forall two_integer_parts tokens → ∃ rs, denote tokens rs.
Proof.
  induction 1 as [|token tokens Htoken _ [rs IH]].
  - exists []. constructor.
  - apply range_of_token_ok in Htoken as [r Hr].
    exists (r :: rs). by constructor.
Qed.

(** A loop that converts every token stops at the first one that does not
    split into two integer parts, with a [ValueError]. *)
Lemma for_pure_tokens_raise {S} (k : S → Z * Z → outcome S) tokens (s : S) :
  (∀ s r, ∃ s', k s r = Ok s') →
  Exists (λ token, ¬ two_integer_parts token) tokens →
  ∃ e, exn_class e = ValueError ∧
    for_pure tokens
      (λ s token, r ← range_of_token int_max_str_digits token; k s r) s
    = Raise e.
Proof.
  intros Hk Hbad. revert s.
  induction tokens as [|token tokens IH]; intros s.
  - by apply Exists_nil in Hbad.
  - simpl. destruct (range_of_token_cases token) as [[r Hr]|(e & He & Hcls)].
    + rewrite Hr. simpl. destruct (Hk s r) as [s' ->]. apply IH.
      apply Exists_cons in Hbad as [Hbad|Hbad]; [|done].
      destruct Hbad. apply range_of_token_ok. by exists r.
    + rewrite He. simpl. by exists e.
Qed.

Lemma sum_range_sizes_raise tokens :
  Exists (λ token, ¬ two_integer_parts token) tokens →
  ∃ e, exn_class e = ValueError ∧ sum_range_sizes tokens = Raise e.
Proof.
  intros Hbad. unfold sum_range_sizes.
  apply (for_pure_tokens_raise
           (λ total r, let '(start, end_) := r in
                       mret (total + (end_ - start + 1)))); [|done].
  intros total [start end_]. by eexists.
Qed.

(** ** [extract_pages] run to the end *)

Lemma handle_Exception {A} (h : Exn → M A) e w :
  isinstance e Exception = true → handle [(Exception, h)] e w = h e w.
Proof. intros H. simpl. by rewrite H. Qed.

Lemma extract_pages_run input_pdf output_pdf tokens rs pages w :
  w_files w !! input_pdf = Some (Pdf pages) →
  denote tokens rs → Forall (λ r, 1 ≤ r.1) rs →
  output_pdf ≠ EmptyString → output_pdf ∉ w_locked w →
  extract_pages input_pdf output_pdf tokens w
  = (Ok tt,
     after [EPrint (MsgExtracted output_pdf)]
       (written output_pdf (extract_spec pages rs)
          (after (EBar (ranges_total rs) "Extracting pages"
                  :: extract_events (Z.of_nat (length pages)) rs) w))).
Proof.
  intros Hfile Hden Hstart Hne Hfree.
  unfold extract_pages. apply try_ok.
  eapply bind_ok; [by apply PdfReader_run|].
  eapply bind_ok.
  { unfold lift, sum_range_sizes. by rewrite (sum_range_sizes_from _ rs). }
  eapply bind_ok; [apply tqdm_run|].
  eapply bind_ok; [by apply copy_range_loop|].
  eapply bind_ok; [by apply write_pdf_run|].
  rewrite print_run, after_after. simpl. by rewrite Z.add_0_l.
Qed.

Lemma extract_pages_malformed input_pdf output_pdf tokens pages w :
  w_files w !! input_pdf = Some (Pdf pages) →
  Exists (λ token, ¬ two_integer_parts token) tokens →
  ∃ e, exn_class e = ValueError ∧
    extract_pages input_pdf output_pdf tokens w
    = (Ok tt, after [EPrint (MsgError e)] w).
Proof.
  intros Hfile Hbad.
  destruct (sum_range_sizes_raise tokens Hbad) as (e & Hcls & He).
  exists e. split; [done|].
  unfold extract_pages. eapply try_raise.
  - eapply bind_ok; [by apply PdfReader_run|].
    apply bind_raise. unfold lift. by rewrite He.
  - rewrite handle_Exception; [done|].
    unfold isinstance. by rewrite Hcls.
Qed.

(** ** The loops of [delete_pages] *)

Local Abbreviation exclude_range :=
  (λ (pages_to_exclude : gset Z) (page_range : string),
     '(start, end_) ← range_of_token int_max_str_digits page_range;
     mret (pages_to_exclude ∪ list_to_set (py_range (start - 1) end_))).

Local Abbreviation keep_page reader pages_to_exclude :=
  (λ (writer : list Page) (page_num : Z),
     if bool_decide (page_num ∉ pages_to_exclude) then
       page ← lift (pages_getitem reader page_num);
       pbar_update 1;;
       mret (writer ++ [page])
     else mret writer).

Lemma exclude_range_loop tokens rs (s : gset Z) :
  denote tokens rs →
  for_pure tokens exclude_range s
  = Ok (foldl (λ s r, s ∪ list_to_set (py_range (r.1 - 1) r.2)) s rs).
Proof.
  intros Hden. revert s.
  induction Hden as [|token [start end_] tokens rs Hr _ IH]; intros s; [done|].
  simpl. rewrite Hr. simpl. apply IH.
Qed.

Lemma exclude_range_raise tokens (s : gset Z) :
  Exists (λ token, ¬ two_integer_parts token) tokens →
  ∃ e, exn_class e = ValueError ∧ for_pure tokens exclude_range s = Raise e.
Proof.
  intros Hbad.
  apply (for_pure_tokens_raise
           (λ (s : gset Z) r, let '(start, end_) := r in
              mret (s ∪ list_to_set (py_range (start - 1) end_)))); [|done].
  intros s' [start end_]. by eexists.
Qed.

Lemma elem_of_py_range i a b : i ∈ py_range a b ↔ a ≤ i < b.
Proof. unfold py_range. rewrite elem_of_seqZ. lia. Qed.

Lemma elem_of_excluded_from rs (s : gset Z) i :
  i ∈ foldl (λ s r, s ∪ list_to_set (py_range (r.1 - 1) r.2)) s rs
  ↔ i ∈ s ∨ in_ranges rs i = true.
Proof.
  revert s. induction rs as [|r rs IH]; intros s; simpl.
  - split; [by left|]. by intros [?|?].
  - rewrite IH, elem_of_union, elem_of_list_to_set, elem_of_py_range.
    rewrite orb_true_iff, andb_true_iff, Z.leb_le, Z.ltb_lt. tauto.
Qed.

Lemma elem_of_excluded rs i : i ∈ excluded rs ↔ in_ranges rs i = true.
Proof.
  unfold excluded. rewrite elem_of_excluded_from.
  split; [|by right]. intros [H0|?]; [|done]. by apply not_elem_of_empty in H0.
Qed.

Lemma keep_page_loop (reader : list Page) (excl : gset Z) l writer w :
  Forall (λ i, 0 ≤ i < Z.of_nat (length reader)) l →
  for_each l (keep_page reader excl) writer w
  = (Ok (writer ++ kept_pages excl reader l),
     after (ticks (length (kept_pages excl reader l))) w).
Proof.
  intros Hl. revert writer w.
  induction Hl as [|i l Hi _ IH]; intros writer w.
  - simpl. by rewrite app_nil_r, after_nil.
  - simpl for_each. unfold kept_pages. rewrite bind_cons.
    fold (kept_pages excl reader l).
    destruct (pages_getitem_inside reader i) as (page & Hpage & Hget); [done|].
    destruct (bool_decide (i ∉ excl)).
    + rewrite Hpage. simpl option_list.
      eapply bind_ok.
      { eapply bind_ok; [unfold lift; by rewrite Hget|].
        eapply bind_ok; [apply pbar_update_run|]. reflexivity. }
      rewrite IH, after_after. simpl. by rewrite <- app_assoc.
    + eapply bind_ok; [reflexivity|]. by rewrite IH.
Qed.

Lemma kept_pages_suffix rs (before rest : list Page) :
  kept_pages (excluded rs) (before ++ rest)
    (seqZ (Z.of_nat (length before)) (Z.of_nat (length rest)))
  = keep_from (Z.of_nat (length before)) rs rest.
Proof.
  revert before. induction rest as [|page rest IH]; intros before; [done|].
  rewrite seqZ_cons by (simpl; lia).
  unfold kept_pages in *. rewrite bind_cons.
  specialize (IH (before ++ [page])).
  rewrite <- app_assoc, length_app in IH. simpl in IH.
  replace (Z.succ (Z.of_nat (length before)))
    with (Z.of_nat (length before + 1)) by lia.
  replace (Z.pred (Z.of_nat (length (page :: rest))))
    with (Z.of_nat (length rest)) by (simpl; lia).
  rewrite IH. simpl keep_from.
  rewrite Nat2Z.id, lookup_app_r, Nat.sub_diag by lia. simpl.
  replace (Z.of_nat (length before) + 1)
    with (Z.of_nat (length before + 1)) by lia.
  destruct (in_ranges rs (Z.of_nat (length before))) eqn:Hin.
  - rewrite bool_decide_eq_false_2; [done|].
    intros Hnot. apply Hnot. by apply elem_of_excluded.
  - rewrite bool_decide_eq_true_2; [done|].
    rewrite elem_of_excluded. by rewrite Hin.
Qed.

Lemma kept_pages_all rs (pages : list Page) :
  kept_pages (excluded rs) pages (py_range 0 (Z.of_nat (length pages)))
  = delete_spec pages rs.
Proof.
  unfold py_range, delete_spec. rewrite Z.sub_0_r.
  apply (kept_pages_suffix rs []).
Qed.

(** ** [delete_pages] run to the end *)

Lemma py_range_inside n : Forall (λ i, 0 ≤ i < n) (py_range 0 n).
Proof. unfold py_range. apply Forall_seqZ. intros i Hi. lia. Qed.

Lemma delete_pages_run input_pdf output_pdf tokens rs pages w :
  w_files w !! input_pdf = Some (Pdf pages) →
  denote tokens rs →
  output_pdf ≠ EmptyString → output_pdf ∉ w_locked w →
  delete_pages input_pdf output_pdf tokens w
  = (Ok tt,
     after [EPrint (MsgDeleted output_pdf)]
       (written output_pdf (delete_spec pages rs)
          (after (EBar (Z.of_nat (length pages)
                        - Z.of_nat (size (excluded rs))) "Deleting pages"
                  :: ticks (length (delete_spec pages rs))) w))).
Proof.
  intros Hfile Hden Hne Hfree.
  unfold delete_pages. apply try_ok.
  eapply bind_ok; [by apply PdfReader_run|].
  cbv zeta.
  eapply bind_ok.
  { unfold lift. by rewrite (exclude_range_loop _ rs). }
  fold (excluded rs).
  eapply bind_ok; [apply tqdm_run|].
  eapply bind_ok; [apply keep_page_loop, py_range_inside|].
  rewrite kept_pages_all.
  eapply bind_ok; [by apply write_pdf_run|].
  rewrite print_run, after_after. by simpl.
Qed.

Lemma delete_pages_malformed input_pdf output_pdf tokens pages w :
  w_files w !! input_pdf = Some (Pdf pages) →
  Exists (λ token, ¬ two_integer_parts token) tokens →
  ∃ e, exn_class e = ValueError ∧
    delete_pages input_pdf output_pdf tokens w
    = (Ok tt, after [EPrint (MsgError e)] w).
Proof.
  intros Hfile Hbad.
  destruct (exclude_range_raise tokens ∅ Hbad) as (e & Hcls & He).
  exists e. split; [done|].
  unfold delete_pages. eapply try_raise.
  - eapply bind_ok; [by apply PdfReader_run|].
    cbv zeta. apply bind_raise. unfold lift. by rewrite He.
  - rewrite handle_Exception; [done|].
    unfold isinstance. by rewrite Hcls.
Qed.

(** ** The loops of [merge_pdfs] *)

Local Abbreviation count_file :=
  (λ (total_pages : Z) (file : string),
     found ← os_path_exists file;
     if (found : bool) then
       reader ← PdfReader file;
       mret (total_pages + Z.of_nat (length reader))
     else mret total_pages).

Local Abbreviation append_page :=
  (λ (writer : list Page) (page : Page),
     pbar_update 1;; mret (writer ++ [page])).

Local Abbreviation append_file :=
  (λ (writer : list Page) (file : string),
     found ← os_path_exists file;
     if negb found then
       print (MsgFileNotFound file);;
       mret writer
     else
       reader ← PdfReader file;
       for_each reader append_page writer).

Lemma os_path_exists_run path w :
  os_path_exists path w = (Ok (bool_decide (is_Some (w_files w !! path))), w).
Proof. reflexivity. Qed.

Lemma count_file_loop inputs total w :
  all_pdf (w_files w) inputs →
  for_each inputs count_file total w
  = (Ok (total + merge_total (w_files w) inputs), w).
Proof.
  intros Hpdf. revert total.
  induction Hpdf as [|file inputs Hfile _ IH]; intros total.
  - simpl. by rewrite Z.add_0_r.
  - simpl for_each. simpl merge_total.
    destruct (w_files w !! file) as [[pages|size]|] eqn:Hlookup.
    + eapply bind_ok.
      { eapply bind_ok; [apply os_path_exists_run|].
        rewrite Hlookup, bool_decide_eq_true_2 by done.
        eapply bind_ok; [by apply PdfReader_run|]. reflexivity. }
      rewrite IH. do 2 f_equal. lia.
    + by destruct (Hfile size).
    + eapply bind_ok.
      { eapply bind_ok; [apply os_path_exists_run|].
        rewrite Hlookup, bool_decide_eq_false_2 by (by intros [? ?]).
        reflexivity. }
      by rewrite IH.
Qed.

Lemma append_page_loop (reader writer : list Page) w :
  for_each reader append_page writer w
  = (Ok (writer ++ reader), after (ticks (length reader)) w).
Proof.
  revert writer w. induction reader as [|page reader IH]; intros writer w.
  - simpl. by rewrite app_nil_r, after_nil.
  - simpl for_each. eapply bind_ok.
    { eapply bind_ok; [apply pbar_update_run|]. reflexivity. }
    rewrite IH, after_after. simpl. by rewrite <- app_assoc.
Qed.

Lemma append_file_loop inputs writer w :
  all_pdf (w_files w) inputs →
  for_each inputs append_file writer w
  = (Ok (writer ++ merge_spec (w_files w) inputs),
     after (merge_events (w_files w) inputs) w).
Proof.
  intros Hpdf. revert writer w Hpdf.
  induction inputs as [|file inputs IH]; intros writer w Hpdf.
  - simpl. by rewrite app_nil_r, after_nil.
  - apply Forall_cons in Hpdf as [Hfile Hpdf].
    simpl for_each. unfold merge_spec, merge_events. rewrite !bind_cons.
    fold (merge_spec (w_files w) inputs). fold (merge_events (w_files w) inputs).
    destruct (w_files w !! file) as [[pages|size]|] eqn:Hlookup.
    + eapply bind_ok.
      { eapply bind_ok; [apply os_path_exists_run|].
        rewrite Hlookup, bool_decide_eq_true_2 by done. simpl negb. cbv iota.
        eapply bind_ok; [by apply PdfReader_run|].
        apply append_page_loop. }
      rewrite IH by done. rewrite after_after. simpl w_files.
      by rewrite <- app_assoc.
    + by destruct (Hfile size).
    + eapply bind_ok.
      { eapply bind_ok; [apply os_path_exists_run|].
        rewrite Hlookup, bool_decide_eq_false_2 by (by intros [? ?]).
        simpl negb. cbv iota.
        eapply bind_ok; [apply print_run|]. reflexivity. }
      rewrite IH by done. by rewrite after_after.
Qed.

Lemma merge_pdfs_run inputs output_pdf w :
  all_pdf (w_files w) inputs →
  output_pdf ≠ EmptyString → output_pdf ∉ w_locked w →
  merge_pdfs inputs output_pdf w
  = (Ok tt,
     after [EPrint (MsgMerged output_pdf)]
       (written output_pdf (merge_spec (w_files w) inputs)
          (after (EBar (merge_total (w_files w) inputs) "Merging PDFs"
                  :: merge_events (w_files w) inputs) w))).
Proof.
  intros Hpdf Hne Hfree.
  unfold merge_pdfs. apply try_ok.
  eapply bind_ok; [by apply count_file_loop|].
  eapply bind_ok; [apply tqdm_run|].
  eapply bind_ok; [by apply append_file_loop|].
  eapply bind_ok; [by apply write_pdf_run|].
  rewrite print_run, after_after. by simpl.
Qed.

(** ** The loops of [split_pdf] *)

Local Abbreviation take_page reader :=
  (λ (writer : list Page) (page_num : Z),
     page ← lift (pages_getitem reader page_num);
     pbar_update 1;;
     mret (writer ++ [page])).

Local Abbreviation write_part reader pages_per_part output_dir base_name :=
  (λ (_ : unit) (part_num : Z),
     let start_page := part_num * pages_per_part in
     let end_page :=
       Z.min ((part_num + 1) * pages_per_part) (Z.of_nat (length reader)) in
     writer ← for_each (py_range start_page end_page) (take_page reader) [];
     let output_pdf :=
       OsPath.join output_dir
         (base_name +:+ "_part" +:+ PyStr.of_Z (part_num + 1) +:+ ".pdf") in
     write_pdf output_pdf writer).

Lemma take_page_loop (reader : list Page) l writer w :
  Forall (λ i, 0 ≤ i < Z.of_nat (length reader)) l →
  for_each l (take_page reader) writer w
  = (Ok (writer ++ omap (λ i, reader !! Z.to_nat i) l),
     after (ticks (length l)) w).
Proof.
  intros Hl. revert writer w.
  induction Hl as [|i l Hi _ IH]; intros writer w.
  - simpl. by rewrite app_nil_r, after_nil.
  - simpl for_each.
    destruct (pages_getitem_inside reader i) as (page & Hpage & Hget); [done|].
    eapply bind_ok.
    { eapply bind_ok; [unfold lift; by rewrite Hget|].
      eapply bind_ok; [apply pbar_update_run|]. reflexivity. }
    rewrite IH, after_after. csimpl. rewrite Hpage.
    by rewrite <- app_assoc.
Qed.

Lemma omap_lookup_seq (pages : list Page) (a n : nat) :
  omap (λ i, pages !! Z.to_nat i) (seqZ (Z.of_nat a) (Z.of_nat n))
  = take n (drop a pages).
Proof.
  revert a. induction n as [|n IH]; intros a.
  - by rewrite take_0.
  - rewrite seqZ_cons by lia. csimpl.
    replace (Z.succ (Z.of_nat a)) with (Z.of_nat (S a)) by lia.
    replace (Z.pred (Z.of_nat (S n))) with (Z.of_nat n) by lia.
    rewrite IH, Nat2Z.id.
    destruct (pages !! a) as [page|] eqn:Hpage.
    + by rewrite (drop_S _ _ _ Hpage).
    + apply lookup_ge_None in Hpage.
      rewrite (drop_ge pages a), (drop_ge pages (S a)) by lia.
      by rewrite !take_nil.
Qed.

Lemma omap_lookup_range (pages : list Page) (a b : Z) :
  0 ≤ a →
  omap (λ i, pages !! Z.to_nat i) (py_range a b)
  = take (Z.to_nat (b - a)) (drop (Z.to_nat a) pages).
Proof.
  intros Ha. unfold py_range.
  destruct (decide (b - a ≤ 0)) as [Hle|Hgt].
  - rewrite seqZ_nil by done. by replace (Z.to_nat (b - a)) with 0%nat by lia.
  - rewrite <- omap_lookup_seq. by rewrite !Z2Nat.id by lia.
Qed.

Lemma join_nonempty a b : a ≠ EmptyString → OsPath.join a b ≠ EmptyString.
Proof.
  intros Ha. unfold OsPath.join.
  destruct (PyStr.startswith "/" b) eqn:Hb; [by destruct b|].
  destruct a; [done|]. by destruct (_ || _).
Qed.

Lemma write_part_loop (reader : list Page) pages_per_part output_dir base_name
    l w :
  0 < pages_per_part → output_dir ≠ EmptyString →
  Forall (λ i, 0 ≤ i ∧ part_path output_dir base_name i ∉ w_locked w) l →
  for_each l (write_part reader pages_per_part output_dir base_name) tt w
  = (Ok tt, foldl (split_step reader pages_per_part output_dir base_name) w l).
Proof.
  intros Hppp Hdir Hl. revert w Hl.
  induction l as [|i l IH]; intros w Hl; [done|].
  apply Forall_cons in Hl as [[Hi Hfree] Hl].
  simpl for_each. eapply bind_ok.
  { cbv zeta. eapply bind_ok.
    { apply take_page_loop. unfold py_range. apply Forall_seqZ.
      intros k Hk. nia. }
    apply write_pdf_run; [by apply join_nonempty|exact Hfree]. }
  simpl foldl. rewrite <- IH by done.
  unfold split_step, part_pages, part_path, part_name.
  rewrite omap_lookup_range by nia. cbv zeta.
  do 3 f_equal. unfold py_range.
  rewrite length_seqZ, length_take, length_drop. f_equal.
  assert (0 ≤ i * pages_per_part) by nia. lia.
Qed.

(** ** [split_pdf] run to the end *)

Lemma input_run prompt line rest w :
  w_stdin w = line :: rest →
  input prompt w = (Ok line, answered prompt rest w).
Proof. intros H. unfold input. simpl. by rewrite H. Qed.

Lemma os_makedirs_run dir w :
  dir ≠ EmptyString → w_files w !! dir = None → dir ∉ w_locked w →
  os_makedirs dir w = (Ok tt, after [EMakedirs dir] w).
Proof.
  intros Hne Hfile Hfree. unfold os_makedirs.
  rewrite bool_decide_eq_false_2 by done.
  rewrite Hfile, bool_decide_eq_false_2 by (by intros [? ?]).
  by rewrite bool_decide_eq_false_2 by done.
Qed.

Lemma floordiv_run a b : b ≠ 0 → floordiv a b = Ok (a / b).
Proof. intros Hb. unfold floordiv. by rewrite (proj2 (Z.eqb_neq b 0)). Qed.

Lemma split_pdf_run input_pdf pages_per_part pages line rest w :
  let output_dir := split_dir input_pdf line in
  let base_name := split_base input_pdf in
  let total_pages := Z.of_nat (length pages) in
  let num_parts := (total_pages + pages_per_part - 1) / pages_per_part in
  w_files w !! input_pdf = Some (Pdf pages) →
  0 < pages_per_part →
  w_stdin w = line :: rest →
  output_dir ≠ EmptyString → w_files w !! output_dir = None →
  output_dir ∉ w_locked w →
  (∀ i, 0 ≤ i < num_parts → part_path output_dir base_name i ∉ w_locked w) →
  split_pdf input_pdf pages_per_part w
  = (Ok tt,
     after [EPrint (MsgSplit num_parts); EPrint (MsgSavedIn output_dir);
            EPrint (MsgNaming base_name)]
       (foldl (split_step pages pages_per_part output_dir base_name)
          (after [EMakedirs output_dir; EBar total_pages "Splitting PDF"]
             (answered split_prompt rest w))
          (py_range 0 num_parts))).
Proof.
  intros output_dir base_name total_pages num_parts
    Hfile Hppp Hstdin Hne Hnofile Hfree Hparts.
  unfold split_pdf. apply try_ok.
  eapply bind_ok; [by apply PdfReader_run|].
  cbv zeta.
  eapply bind_ok; [unfold lift; rewrite floordiv_run by lia; reflexivity|].
  eapply bind_ok; [by apply input_run|].
  fold (split_dir input_pdf line). fold output_dir.
  eapply bind_ok; [by apply os_makedirs_run|].
  eapply bind_ok; [apply tqdm_run|].
  rewrite after_after.
  eapply bind_ok.
  { apply write_part_loop; [done..|].
    unfold py_range. apply Forall_seqZ. intros i Hi. split; [lia|].
    apply Hparts. unfold num_parts, total_pages. lia. }
  eapply bind_ok; [apply print_run|].
  eapply bind_ok; [apply print_run|].
  rewrite print_run, !after_after. reflexivity.
Qed.

(** ** What computations can raise *)

Lemma tame_ret {A} (a : A) : tame (mret a).
Proof. intros w. split; [exists []; simpl; by rewrite app_nil_r|done]. Qed.

Lemma tame_lift {A} (r : outcome A) : tame_pure r → tame (lift r).
Proof. intros Hr w. split; [exists []; simpl; by rewrite app_nil_r|done]. Qed.

Lemma tame_raise {A} e : isinstance e Exception = true → tame (@raise A e).
Proof.
  intros He w. split; [exists []; simpl; by rewrite app_nil_r|].
  intros e' [= <-]. done.
Qed.

Lemma tame_bind {A B} (m : M A) (f : A → M B) :
  tame m → (∀ a, tame (f a)) → tame (m ≫= f).
Proof.
  intros Hm Hf w. unfold mbind, M_bind.
  destruct (Hm w) as [[evs Hevs] Hraise].
  destruct (m w) as [[a|e] w1]; simpl in *.
  - destruct (Hf a w1) as [[evs' Hevs'] Hraise'].
    split; [|done]. exists (evs ++ evs'). by rewrite Hevs', Hevs, app_assoc.
  - split; [by exists evs|]. intros e' [= <-]. by apply Hraise.
Qed.

Lemma tame_for_each {A S} (l : list A) (body : S → A → M S) s :
  (∀ s x, tame (body s x)) → tame (for_each l body s).
Proof.
  intros Hbody. revert s. induction l as [|x l IH]; intros s; simpl.
  - apply tame_ret.
  - apply tame_bind; [apply Hbody|apply IH].
Qed.

Lemma tame_emit {A} (a : A) ev : tame (λ w, (Ok a, emit ev w)).
Proof. intros w. split; [by exists [ev]|done]. Qed.

Lemma tame_print m : tame (print m).
Proof. apply tame_emit. Qed.

Lemma tame_tqdm total desc : tame (tqdm total desc).
Proof. apply tame_emit. Qed.

Lemma tame_pbar_update n : tame (pbar_update n).
Proof. apply tame_emit. Qed.

Lemma tame_os_path_exists path : tame (os_path_exists path).
Proof. intros w. split; [exists []; simpl; by rewrite app_nil_r|done]. Qed.

Lemma tame_os_path_getsize path : tame (os_path_getsize path).
Proof.
  intros w. unfold os_path_getsize.
  split; [exists []; rewrite app_nil_r;
          by destruct (w_files w !! path) as [[?|?]|]|].
  destruct (w_files w !! path) as [[?|?]|]; simpl; try done.
  by intros e [= <-].
Qed.

Lemma tame_PdfReader path : tame (PdfReader path).
Proof.
  intros w. unfold PdfReader.
  split; [exists []; rewrite app_nil_r;
          by destruct (w_files w !! path) as [[?|?]|]|].
  destruct (w_files w !! path) as [[?|?]|]; simpl; try done;
    by intros e [= <-].
Qed.

Lemma tame_write_pdf path writer : tame (write_pdf path writer).
Proof.
  intros w. unfold write_pdf.
  repeat case_bool_decide; simpl;
    (split; [first [by exists [EWrite path writer]
                   |exists []; by rewrite app_nil_r]
            |first [done|by intros e [= <-]]]).
Qed.

Lemma tame_input prompt : tame (input prompt).
Proof.
  intros w. unfold input. simpl.
  destruct (w_stdin w); simpl;
    (split; [by exists [EPrompt prompt]|first [done|by intros e [= <-]]]).
Qed.

Lemma tame_os_makedirs dir : tame (os_makedirs dir).
Proof.
  intros w. unfold os_makedirs.
  repeat case_bool_decide; simpl;
    (split; [first [by exists [EMakedirs dir]
                   |exists []; by rewrite app_nil_r]
            |first [done|by intros e [= <-]]]).
Qed.

Lemma tame_Popen_wait cmd : tame (Popen_wait cmd).
Proof.
  intros w. unfold Popen_wait. simpl.
  destruct (gs cmd (w_files w)); simpl;
    (split; [by exists [EPopen cmd]|]); [done|].
  intros e [= <-]. by destruct (gs_failure cmd).
Qed.

Lemma tame_range_of_token token :
  tame_pure (range_of_token int_max_str_digits token).
Proof.
  intros e He. apply range_of_token_raise in He.
  unfold isinstance. by rewrite He.
Qed.

Lemma tame_pages_getitem (pages : list Page) i :
  tame_pure (pages_getitem pages i).
Proof.
  intros e. unfold pages_getitem.
  destruct (_ || _); [by intros [= <-]|].
  destruct (pages !! _); [done|by intros [= <-]].
Qed.

Lemma tame_floordiv a b : tame_pure (floordiv a b).
Proof.
  intros e. unfold floordiv. destruct (b =? 0); [by intros [= <-]|done].
Qed.

Lemma tame_for_pure {A S} (l : list A) (body : S → A → outcome S) s :
  (∀ s x, tame_pure (body s x)) → tame_pure (for_pure l body s).
Proof.
  intros Hbody. revert s. induction l as [|x l IH]; intros s; simpl; [done|].
  intros e. destruct (body s x) as [s'|e'] eqn:Hx; simpl.
  - apply IH.
  - intros [= <-]. by apply (Hbody s x).
Qed.

Lemma tame_pure_bind {A B} (r : outcome A) (f : A → outcome B) :
  tame_pure r → (∀ a, tame_pure (f a)) → tame_pure (r ≫= f).
Proof.
  intros Hr Hf e. destruct r as [a|e']; simpl; [apply Hf|].
  intros [= <-]. by apply Hr.
Qed.

(** ** What operations report *)

Lemma finishing_print msg : is_success msg = true → finishing (print msg).
Proof.
  intros Hmsg w. exists [EPrint msg]. split; [done|].
  simpl. by exists [], msg.
Qed.

Lemma finishing_raise {A} e :
  isinstance e Exception = true → finishing (@raise A e).
Proof. intros He w. exists []. simpl. by rewrite app_nil_r. Qed.

Lemma finishing_bind {A B} (m : M A) (f : A → M B) :
  tame m → (∀ a, finishing (f a)) → finishing (m ≫= f).
Proof.
  intros Hm Hf w. unfold mbind, M_bind.
  destruct (Hm w) as [[evs Hevs] Hraise].
  destruct (m w) as [[a|e] w1]; simpl in *.
  - destruct (Hf a w1) as (evs' & Hevs' & Hend).
    exists (evs ++ evs'). split; [by rewrite Hevs', Hevs, app_assoc|].
    destruct ((f a w1).1); [|done].
    destruct Hend as (evs'' & msg & -> & Hmsg).
    exists (evs ++ evs''), msg. by rewrite app_assoc.
  - exists evs. split; [done|]. by apply Hraise.
Qed.

Lemma reports_handled (body : M unit) handlers :
  finishing body →
  (∀ e w, isinstance e Exception = true →
     ∃ msg, is_failure msg = true ∧
       handle handlers e w = (Ok tt, after [EPrint msg] w)) →
  reports (try_except body handlers).
Proof.
  intros Hbody Hhandle w. unfold try_except.
  destruct (Hbody w) as (evs & Hevs & Hend).
  destruct (body w) as [[[]|e] w1]; simpl in *.
  - destruct Hend as (evs' & msg & -> & Hmsg).
    split; [done|]. exists evs', msg. by rewrite Hevs, Hmsg.
  - destruct (Hhandle e w1 Hend) as (msg & Hmsg & ->). simpl.
    split; [done|]. exists evs, msg.
    rewrite Hevs, Hmsg, app_assoc. by rewrite orb_true_r.
Qed.

Lemma reports_try (body : M unit) :
  finishing body →
  reports (try_except body [(Exception, λ e, print (MsgError e))]).
Proof.
  intros Hbody. apply reports_handled; [done|].
  intros e w He. exists (MsgError e). split; [done|].
  by rewrite handle_Exception.
Qed.

Lemma reports_try_compress (body : M unit) :
  finishing body →
  reports (try_except body
    [ (CalledProcessError, λ e, print (MsgCompressionFailed e));
      (FileNotFoundError, λ e, print (MsgExn e));
      (Exception, λ e, print (MsgUnexpected e)) ]).
Proof.
  intros Hbody. apply reports_handled; [done|].
  intros e w He. simpl.
  destruct (isinstance e CalledProcessError);
    [by exists (MsgCompressionFailed e)|].
  destruct (isinstance e FileNotFoundError); [by exists (MsgExn e)|].
  rewrite He. by exists (MsgUnexpected e).
Qed.

Lemma reports_prefix {A} (P : A → Prop) (m : M A) (f : A → M unit) :
  (∀ w, ∃ a evs, m w = (Ok a, after evs w) ∧ P a) →
  (∀ a, P a → reports (f a)) →
  reports (m ≫= f).
Proof.
  intros Hm Hf w. destruct (Hm w) as (a & evs & Hrun & Ha).
  unfold mbind, M_bind. rewrite Hrun.
  destruct (Hf a Ha (after evs w)) as (Hok & evs' & msg & Htrace & Hmsg).
  split; [done|]. exists (evs ++ evs'), msg.
  rewrite Htrace. simpl. by rewrite !app_assoc.
Qed.

Ltac tame_step :=
  match goal with
  | |- ∀ _, _ => intros
  | |- tame (let '(_, _) := ?x in _) => destruct x
  | |- tame_pure (let '(_, _) := ?x in _) => destruct x
  | |- tame (if ?c then _ else _) => destruct c
  | |- tame (mret _) => apply tame_ret
  | |- tame (_ ≫= _) => apply tame_bind
  | |- tame (lift _) => apply tame_lift
  | |- tame (raise _) => by apply tame_raise
  | |- tame (for_each _ _ _) => apply tame_for_each
  | |- tame (print _) => apply tame_print
  | |- tame (tqdm _ _) => apply tame_tqdm
  | |- tame (pbar_update _) => apply tame_pbar_update
  | |- tame (os_path_exists _) => apply tame_os_path_exists
  | |- tame (os_path_getsize _) => apply tame_os_path_getsize
  | |- tame (PdfReader _) => apply tame_PdfReader
  | |- tame (write_pdf _ _) => apply tame_write_pdf
  | |- tame (input _) => apply tame_input
  | |- tame (os_makedirs _) => apply tame_os_makedirs
  | |- tame (Popen_wait _) => apply tame_Popen_wait
  | |- tame_pure (for_pure _ _ _) => apply tame_for_pure
  | |- tame_pure (_ ≫= _) => apply tame_pure_bind
  | |- tame_pure (range_of_token _ _) => apply tame_range_of_token
  | |- tame_pure (pages_getitem _ _) => apply tame_pages_getitem
  | |- tame_pure (floordiv _ _) => apply tame_floordiv
  | |- tame_pure (mret _) => done
  | |- tame_pure (Ok _) => done
  end.

Ltac finishing_step :=
  match goal with
  | |- ∀ _, _ => intros
  | |- finishing (if ?c then _ else _) => destruct c
  | |- finishing (_ ≫= _) => apply finishing_bind; [repeat tame_step|]
  | |- finishing (print _) => by apply finishing_print
  | |- finishing (raise _) => by apply finishing_raise
  end.

Lemma extract_pages_reports input_pdf output_pdf page_ranges :
  reports (extract_pages input_pdf output_pdf page_ranges).
Proof.
  unfold extract_pages, sum_range_sizes. apply reports_try.
  repeat finishing_step.
Qed.

Lemma merge_pdfs_reports input_files output_pdf :
  reports (merge_pdfs input_files output_pdf).
Proof.
  unfold merge_pdfs. apply reports_try. repeat finishing_step.
Qed.

Lemma delete_pages_reports input_pdf output_pdf page_ranges :
  reports (delete_pages input_pdf output_pdf page_ranges).
Proof.
  unfold delete_pages. apply reports_try. cbv zeta. repeat finishing_step.
Qed.

Lemma split_pdf_reports input_pdf pages_per_part :
  reports (split_pdf input_pdf pages_per_part).
Proof.
  unfold split_pdf. apply reports_try. cbv zeta. repeat finishing_step.
Qed.

(** ** [compress_pdf] *)

Lemma quality_map_lookup power :
  quality_map !! power
  = if valid_level power then Some ("/" +:+ preset_of_level power) else None.
Proof.
  unfold quality_map, valid_level.
  destruct (decide (power = 1)) as [->|?]; [done|].
  destruct (decide (power = 2)) as [->|?]; [done|].
  destruct (decide (power = 3)) as [->|?]; [done|].
  destruct (decide (power = 4)) as [->|?]; [done|].
  destruct (decide (power = 5)) as [->|?]; [done|].
  rewrite !lookup_insert_ne, lookup_singleton_ne by done.
  destruct (1 <=? power) eqn:H1; [|done].
  destruct (power <=? 5) eqn:H5; [|done].
  apply Z.leb_le in H1, H5. lia.
Qed.

(** The level [compress_pdf] goes on with. *)
Lemma compress_level_run power w :
  (if bool_decide (quality_map !! power = None)
   then print MsgInvalidLevel;; mret 3
   else mret power) w
  = (Ok (if valid_level power then power else 3),
     after (if valid_level power then [] else [EPrint MsgInvalidLevel]) w).
Proof.
  rewrite quality_map_lookup. destruct (valid_level power).
  - rewrite bool_decide_eq_false_2 by done. simpl. by rewrite after_nil.
  - by rewrite bool_decide_eq_true_2 by done.
Qed.

Lemma dict_getitem_quality power :
  valid_level power = true →
  dict_getitem quality_map power = Ok ("/" +:+ preset_of_level power).
Proof.
  intros Hvalid. unfold dict_getitem.
  by rewrite quality_map_lookup, Hvalid.
Qed.

Lemma valid_level_fallback power :
  valid_level (if valid_level power then power else 3) = true.
Proof. by destruct (valid_level power) eqn:H. Qed.

Lemma gs_cmd_spec level input_pdf output_pdf :
  gs_cmd ("/" +:+ preset_of_level level) level input_pdf output_pdf
  = command_line_spec level input_pdf output_pdf.
Proof.
  unfold gs_cmd, command_line_spec. by destruct (level =? 5).
Qed.

Lemma compress_pdf_reports input_pdf output_pdf power :
  reports (compress_pdf input_pdf output_pdf power).
Proof.
  unfold compress_pdf.
  apply (reports_prefix (λ level, valid_level level = true)).
  { intros w. eexists _, _. split; [apply compress_level_run|].
    apply valid_level_fallback. }
  intros level Hvalid.
  apply (reports_prefix (λ _, True)).
  { intros w. eexists _, []. unfold lift.
    rewrite dict_getitem_quality, after_nil by done. done. }
  intros quality _. apply reports_try_compress.
  repeat finishing_step.
Qed.

Lemma Popen_wait_then_trace {A} cmd (k : M A) w :
  tame k →
  ∃ evs, w_trace ((Popen_wait cmd;; k) w).2 = w_trace w ++ EPopen cmd :: evs.
Proof.
  intros Hk. unfold mbind, M_bind, Popen_wait. simpl.
  destruct (gs cmd (w_files w)) as [files|].
  - match goal with |- context [k ?w1] => destruct (Hk w1) as [[evs Hevs] _] end.
    exists evs. rewrite Hevs. simpl. by rewrite <- app_assoc.
  - exists []. by simpl.
Qed.

Lemma handle_compress_trace e w :
  ∃ evs,
    w_trace (handle
      [ (CalledProcessError, λ e, print (MsgCompressionFailed e));
        (FileNotFoundError, λ e, print (MsgExn e));
        (Exception, λ e, print (MsgUnexpected e)) ] e w).2
    = w_trace w ++ evs.
Proof.
  simpl. destruct (isinstance e CalledProcessError); [by eexists|].
  destruct (isinstance e FileNotFoundError); [by eexists|].
  destruct (isinstance e Exception); [by eexists|].
  exists []. simpl. by rewrite app_nil_r.
Qed.

Lemma compress_pdf_trace input_pdf output_pdf power w f :
  w_files w !! input_pdf = Some f →
  ∃ evs,
    w_trace (compress_pdf input_pdf output_pdf power w).2
    = w_trace w
      ++ (if valid_level power then [] else [EPrint MsgInvalidLevel])
      ++ [EPrint MsgCompressing;
          EPopen (command_line_spec (if valid_level power then power else 3)
                    input_pdf output_pdf)]
      ++ evs.
Proof.
  intros Hfile. unfold compress_pdf.
  set (level := if valid_level power then power else 3).
  set (warning := if valid_level power then [] else [EPrint MsgInvalidLevel]).
  erewrite bind_ok; [|apply compress_level_run|reflexivity].
  fold level warning.
  erewrite bind_ok;
    [|unfold lift; rewrite dict_getitem_quality by apply valid_level_fallback;
      reflexivity|reflexivity].
  rewrite gs_cmd_spec.
  set (cmd := command_line_spec level input_pdf output_pdf).
  unfold try_except.
  erewrite bind_ok; [|apply os_path_exists_run|reflexivity].
  simpl w_files. rewrite Hfile, bool_decide_eq_true_2 by done. simpl negb.
  cbv iota.
  erewrite bind_ok; [|reflexivity|reflexivity].
  erewrite bind_ok; [|apply print_run|reflexivity].
  rewrite after_after.
  match goal with
  | |- context [(Popen_wait cmd ≫= ?k) ?w1] =>
      destruct (Popen_wait_then_trace cmd (k tt) w1) as [evs Hevs];
      [|change ((Popen_wait cmd ≫= k) w1) with ((Popen_wait cmd;; k tt) w1);
        destruct ((Popen_wait cmd;; k tt) w1) as [[[]|e] w2]]
  end.
  - repeat tame_step.
  - exists evs. simpl in *. rewrite Hevs. by rewrite <- !app_assoc.
  - destruct (handle_compress_trace e w2) as [evs' Hevs'].
    exists (evs ++ evs'). rewrite Hevs'. simpl in Hevs. rewrite Hevs.
    by rewrite <- !app_assoc.
Qed.

(** ** What the traces show *)

Lemma writes_of_app evs1 evs2 :
  writes_of (evs1 ++ evs2) = writes_of evs1 ++ writes_of evs2.
Proof. apply omap_app. Qed.

Lemma messages_of_app evs1 evs2 :
  messages_of (evs1 ++ evs2) = messages_of evs1 ++ messages_of evs2.
Proof. apply omap_app. Qed.

Lemma writes_of_ticks n : writes_of (ticks n) = [].
Proof. induction n as [|n IH]; [done|]. apply IH. Qed.

Lemma messages_of_ticks n : messages_of (ticks n) = [].
Proof. induction n as [|n IH]; [done|]. apply IH. Qed.

Lemma writes_of_copy_events n l : writes_of (copy_events n l) = [].
Proof.
  induction l as [|i l IH]; [done|].
  unfold copy_events. rewrite fmap_cons. unfold writes_of. csimpl.
  by destruct (i <? n).
Qed.

Lemma messages_of_copy_events n l :
  Forall (λ m, is_warning m = true) (messages_of (copy_events n l)).
Proof.
  induction l as [|i l IH]; [constructor|].
  unfold copy_events. rewrite fmap_cons. unfold messages_of. csimpl.
  destruct (i <? n); [done|]. by constructor.
Qed.

Lemma writes_of_extract_events n rs : writes_of (extract_events n rs) = [].
Proof.
  induction rs as [|r rs IH]; [done|].
  unfold extract_events. rewrite bind_cons, writes_of_app.
  by rewrite writes_of_copy_events.
Qed.

Lemma messages_of_extract_events n rs :
  Forall (λ m, is_warning m = true) (messages_of (extract_events n rs)).
Proof.
  induction rs as [|r rs IH]; [constructor|].
  unfold extract_events. rewrite bind_cons, messages_of_app.
  apply Forall_app. split; [apply messages_of_copy_events|done].
Qed.

Lemma writes_of_merge_events files inputs :
  writes_of (merge_events files inputs) = [].
Proof.
  induction inputs as [|file inputs IH]; [done|].
  unfold merge_events. rewrite bind_cons, writes_of_app.
  fold (merge_events files inputs). rewrite IH, app_nil_r.
  destruct (files !! file) as [[pages|size]|]; [apply writes_of_ticks|done..].
Qed.

Lemma messages_of_merge_events files inputs :
  all_pdf files inputs →
  messages_of (merge_events files inputs)
  = MsgFileNotFound <$> filter (λ file, files !! file = None) inputs.
Proof.
  induction 1 as [|file inputs Hfile _ IH]; [done|].
  unfold merge_events. rewrite bind_cons, messages_of_app.
  fold (merge_events files inputs). rewrite IH, filter_cons.
  destruct (files !! file) as [[pages|size]|] eqn:Hlookup.
  - rewrite messages_of_ticks. by rewrite decide_False.
  - by destruct (Hfile size).
  - by rewrite decide_True.
Qed.

(** ** Ranges *)

Lemma pages_of_range_inverted (pages : list Page) start end_ :
  end_ < start → pages_of_range pages (start, end_) = [].
Proof.
  intros H. unfold pages_of_range. simpl. by rewrite seqZ_nil by lia.
Qed.

Lemma extract_spec_app (pages : list Page) rs1 rs2 :
  extract_spec pages (rs1 ++ rs2)
  = extract_spec pages rs1 ++ extract_spec pages rs2.
Proof. apply bind_app. Qed.

Lemma extract_spec_inverted (pages : list Page) rs1 rs2 start end_ :
  end_ < start →
  extract_spec pages (rs1 ++ (start, end_) :: rs2)
  = extract_spec pages (rs1 ++ rs2).
Proof.
  intros H. rewrite !extract_spec_app. f_equal.
  unfold extract_spec. rewrite bind_cons.
  by rewrite pages_of_range_inverted.
Qed.

Lemma in_ranges_inverted rs1 rs2 start end_ i :
  end_ < start →
  in_ranges (rs1 ++ (start, end_) :: rs2) i = in_ranges (rs1 ++ rs2) i.
Proof.
  intros H. unfold in_ranges. rewrite !existsb_app. simpl.
  replace ((start - 1 <=? i) && (i <? end_)) with false; [done|].
  symmetry. apply andb_false_iff.
  destruct (Z.leb_spec (start - 1) i); [right; apply Z.ltb_ge; lia|by left].
Qed.

Lemma delete_spec_inverted (pages : list Page) rs1 rs2 start end_ :
  end_ < start →
  delete_spec pages (rs1 ++ (start, end_) :: rs2)
  = delete_spec pages (rs1 ++ rs2).
Proof.
  intros H. unfold delete_spec. generalize 0.
  induction pages as [|page pages IH]; intros i; [done|].
  simpl. by rewrite in_ranges_inverted, IH.
Qed.

Lemma tiles_le from rs upto : tiles from rs upto → from ≤ upto.
Proof.
  revert from. induction rs as [|r rs IH]; intros from; simpl.
  - lia.
  - intros (_ & Hle & Hrest). apply IH in Hrest. lia.
Qed.

Lemma tiles_starts from rs upto :
  1 ≤ from → tiles from rs upto → Forall (λ r, 1 ≤ r.1) rs.
Proof.
  revert from. induction rs as [|r rs IH]; intros from Hfrom; simpl.
  - constructor.
  - intros (Hstart & Hle & Hrest). constructor; [lia|].
    apply (IH (r.2 + 1)); [lia|done].
Qed.

Lemma tiles_extract_spec (pages : list Page) from rs upto :
  tiles from rs upto →
  extract_spec pages rs = omap (page_number pages) (seqZ from (upto - from)).
Proof.
  revert from. induction rs as [|[start end_] rs IH]; intros from; cbn [tiles].
  - intros ->. by rewrite Z.sub_diag.
  - simpl fst. simpl snd. intros (<- & Hle & Hrest).
    pose proof (tiles_le _ _ _ Hrest) as Hupto.
    unfold extract_spec. rewrite bind_cons.
    fold (extract_spec pages rs). rewrite (IH _ Hrest).
    unfold pages_of_range. simpl. rewrite <- omap_app. f_equal.
    replace (upto - start) with ((end_ - start + 1) + (upto - (end_ + 1)))
      by lia.
    rewrite (seqZ_app start (end_ - start + 1) (upto - (end_ + 1))) by lia.
    do 2 f_equal; lia.
Qed.

Lemma omap_page_number_all (pages : list Page) n :
  Z.of_nat (length pages) ≤ n →
  omap (page_number pages) (seqZ 1 n) = pages.
Proof.
  intros Hn.
  replace (seqZ 1 n) with (Z.add 1 <$> seqZ 0 n)
    by (by rewrite fmap_add_seqZ).
  rewrite omap_fmap_compose.
  rewrite (list_omap_ext _ (λ i, pages !! Z.to_nat i) _ (seqZ 0 n)).
  - pose proof (omap_lookup_seq pages 0 (Z.to_nat n)) as Hseq.
    rewrite Z2Nat.id in Hseq by lia. change (Z.of_nat 0) with 0 in Hseq.
    rewrite Hseq, drop_0. apply take_ge. lia.
  - apply Forall2_same_length_lookup. split; [done|].
    intros k x y Hx Hy. rewrite Hx in Hy. injection Hy as <-.
    apply lookup_seqZ in Hx as [-> _].
    rewrite Z.add_comm. apply page_number_succ. lia.
Qed.

Lemma extract_spec_tiles (pages : list Page) rs upto :
  tiles 1 rs upto → Z.of_nat (length pages) < upto →
  extract_spec pages rs = pages.
Proof.
  intros Htiles Hupto. rewrite (tiles_extract_spec _ _ _ _ Htiles).
  apply omap_page_number_all. lia.
Qed.

Lemma denote_app tokens1 tokens2 rs1 rs2 :
  denote tokens1 rs1 → denote tokens2 rs2 →
  denote (tokens1 ++ tokens2) (rs1 ++ rs2).
Proof. apply Forall2_app. Qed.

(** ** The world an operation leaves *)

Lemma finished_world output_pdf pages msg evs0 w :
  let w' := after [EPrint msg] (written output_pdf pages (after evs0 w)) in
  w_files w' = <[output_pdf := Pdf pages]> (w_files w)
  ∧ ∃ evs, w_trace w' = w_trace w ++ evs
      ∧ writes_of evs = writes_of evs0 ++ [(output_pdf, pages)]
      ∧ messages_of evs = messages_of evs0 ++ [msg].
Proof.
  simpl. split; [done|].
  exists (evs0 ++ [EWrite output_pdf pages; EPrint msg]).
  split; [by rewrite <- !app_assoc|].
  by rewrite writes_of_app, messages_of_app.
Qed.

Lemma split_step_trace pages pages_per_part output_dir base_name w l :
  w_trace (foldl (split_step pages pages_per_part output_dir base_name) w l)
  = w_trace w
    ++ (l ≫= λ i,
          ticks (length (part_pages pages pages_per_part i))
          ++ [EWrite (part_path output_dir base_name i)
                (part_pages pages pages_per_part i)]).
Proof.
  revert w. induction l as [|i l IH]; intros w.
  - simpl. by rewrite app_nil_r.
  - simpl foldl. rewrite IH, bind_cons. simpl. by rewrite <- !app_assoc.
Qed.

Lemma writes_of_parts pages pages_per_part output_dir base_name l :
  writes_of
    (l ≫= λ i,
       ticks (length (part_pages pages pages_per_part i))
       ++ [EWrite (part_path output_dir base_name i)
             (part_pages pages pages_per_part i)])
  = (λ i, (part_path output_dir base_name i,
           part_pages pages pages_per_part i)) <$> l.
Proof.
  induction l as [|i l IH]; [done|].
  rewrite bind_cons, fmap_cons, !writes_of_app, writes_of_ticks, IH.
  done.
Qed.

Lemma ceil_div_floordiv a b :
  0 < b → is_ceil_div a b ((a + b - 1) / b).
Proof.
  intros Hb. unfold is_ceil_div.
  pose proof (Z.div_mod (a + b - 1) b) as Hdiv.
  pose proof (Z.mod_pos_bound (a + b - 1) b Hb) as Hmod.
  nia.
Qed.

(** ** Splitting at a separator and joining again *)

(** No character of the text is [c]. *)
Definition free_of (c : ascii) (s : string) : bool :=
  PyStr.all_chars (λ d, negb (Ascii.eqb d c)) s.

Lemma split_nonempty sep s : PyStr.split sep s ≠ [].
Proof.
  destruct s as [|c s]; simpl; [done|].
  destruct (Ascii.eqb c sep); [done|]. by destruct (PyStr.split sep s).
Qed.

Lemma concat_split sep s :
  String.concat (String sep EmptyString) (PyStr.split sep s) = s.
Proof.
  induction s as [|c s IH]; [done|]. simpl PyStr.split.
  pose proof (split_nonempty sep s) as Hne.
  destruct (Ascii.eqb c sep) eqn:Hc.
  - apply Ascii.eqb_eq in Hc as ->.
    destruct (PyStr.split sep s) as [|part parts]; [done|].
    rewrite <- IH. reflexivity.
  - destruct (PyStr.split sep s) as [|part parts]; [done|].
    rewrite <- IH. by destruct parts.
Qed.

(** * The claims *)

(** C1, as amended: [parse_page_ranges] never fails and returns, unchecked,
    the parts of the text between its commas, trimmed. A token that cannot
    be split into exactly two integer parts is met only when
    [extract_pages] or [delete_pages] converts it: the operation then
    writes nothing and reports a [ValueError]. When every token splits
    into two integer parts, the tokens denote ranges, [delete_pages]
    writes its output once and ends on its success message, and so does
    [extract_pages], after its warnings, when no range starts below
    page 1. *)
Theorem parse_page_ranges_defers_validation
    input_str input_pdf output_pdf pages w :
  w_files w !! input_pdf = Some (Pdf pages) →
  output_pdf ≠ EmptyString → output_pdf ∉ w_locked w →
  let tokens := parse_page_ranges input_str in
  (∃ part parts,
     input_str = String.concat "," (part :: parts)
     ∧ Forall (λ part, free_of "," part = true) (part :: parts)
     ∧ tokens = PyStr.strip <$> part :: parts)
  ∧ (Exists (λ token, ¬ two_integer_parts token) tokens →
     ∃ e1 e2, exn_class e1 = ValueError ∧ exn_class e2 = ValueError
       ∧ extract_pages input_pdf output_pdf tokens w
         = (Ok tt, after [EPrint (MsgError e1)] w)
       ∧ delete_pages input_pdf output_pdf tokens w
         = (Ok tt, after [EPrint (MsgError e2)] w))
  ∧ (Forall two_integer_parts tokens →
     ∃ rs, denote tokens rs
       ∧ (let result := delete_pages input_pdf output_pdf tokens w in
          result.1 = Ok tt
          ∧ w_files result.2
            = <[output_pdf := Pdf (delete_spec pages rs)]> (w_files w)
          ∧ ∃ evs, w_trace result.2 = w_trace w ++ evs
              ∧ writes_of evs = [(output_pdf, delete_spec pages rs)]
              ∧ messages_of evs = [MsgDeleted output_pdf])
       ∧ (Forall (λ r, 1 ≤ r.1) rs →
          let result := extract_pages input_pdf output_pdf tokens w in
          result.1 = Ok tt
          ∧ w_files result.2
            = <[output_pdf := Pdf (extract_spec pages rs)]> (w_files w)
          ∧ ∃ evs warnings, w_trace result.2 = w_trace w ++ evs
              ∧ writes_of evs = [(output_pdf, extract_spec pages rs)]
              ∧ messages_of evs = warnings ++ [MsgExtracted output_pdf]
              ∧ Forall (λ m, is_warning m = true) warnings)).
Proof.
  intros Hfile Hne Hfree tokens. split; [|split].
  - pose proof (split_nonempty "," input_str) as Hparts.
    pose proof (split_parts_free "," input_str) as Hcommas.
    pose proof (concat_split "," input_str) as Hjoin.
    unfold tokens, parse_page_ranges.
    destruct (PyStr.split "," input_str) as [|part parts]; [done|].
    by exists part, parts.
  - intros Hbad.
    destruct (extract_pages_malformed input_pdf output_pdf tokens pages w
                Hfile Hbad) as (e1 & Hcls1 & Hrun1).
    destruct (delete_pages_malformed input_pdf output_pdf tokens pages w
                Hfile Hbad) as (e2 & Hcls2 & Hrun2).
    by exists e1, e2.
  - intros Hgood. destruct (denote_all tokens Hgood) as [rs Hden].
    exists rs. split; [done|]. split.
    + cbv zeta. rewrite (delete_pages_run _ _ _ rs pages) by done.
      split; [done|].
      match goal with
      | |- context [after [EPrint ?msg] (written ?o ?p (after ?evs0 w))] =>
          destruct (finished_world o p msg evs0 w)
            as (Hfiles & evs & Htrace & Hwrites & Hmsgs)
      end.
      split; [done|]. exists evs. split; [done|].
      rewrite Hwrites, Hmsgs. simpl.
      by rewrite writes_of_ticks, messages_of_ticks.
    + intros Hstart. cbv zeta.
      rewrite (extract_pages_run _ _ _ rs pages) by done.
      split; [done|].
      match goal with
      | |- context [after [EPrint ?msg] (written ?o ?p (after ?evs0 w))] =>
          destruct (finished_world o p msg evs0 w)
            as (Hfiles & evs & Htrace & Hwrites & Hmsgs)
      end.
      split; [done|].
      exists evs,
        (messages_of (extract_events (Z.of_nat (length pages)) rs)).
      split; [done|]. rewrite Hwrites, Hmsgs. simpl.
      rewrite writes_of_extract_events.
      split; [done|]. split; [done|]. apply messages_of_extract_events.
Qed.

(** C3: for a source that is a PDF and tokens that denote the ranges [rs],
    [delete_pages] writes, once, exactly the source pages whose 0-indexed
    number is in no range, in their original order, and reports success;
    ranges that overlap or leave the document raise nothing. *)
Theorem delete_pages_keeps_uncovered
    input_pdf output_pdf tokens rs pages w :
  w_files w !! input_pdf = Some (Pdf pages) →
  denote tokens rs →
  output_pdf ≠ EmptyString → output_pdf ∉ w_locked w →
  let result := delete_pages input_pdf output_pdf tokens w in
  result.1 = Ok tt
  ∧ w_files result.2 = <[output_pdf := Pdf (delete_spec pages rs)]> (w_files w)
  ∧ ∃ evs, w_trace result.2 = w_trace w ++ evs
      ∧ writes_of evs = [(output_pdf, delete_spec pages rs)]
      ∧ messages_of evs = [MsgDeleted output_pdf].
Proof.
  intros Hfile Hden Hne Hfree result. unfold result.
  rewrite (delete_pages_run _ _ _ rs pages) by done.
  split; [done|].
  match goal with
  | |- context [after [EPrint ?msg] (written ?o ?p (after ?evs0 w))] =>
      destruct (finished_world o p msg evs0 w)
        as (Hfiles & evs & Htrace & Hwrites & Hmsgs)
  end.
  split; [done|]. exists evs. split; [done|].
  rewrite Hwrites, Hmsgs. simpl.
  by rewrite writes_of_ticks, messages_of_ticks.
Qed.

(** C4: when every listed file that exists is a PDF, [merge_pdfs] writes
    once, at the end, the pages of the files that exist, file after file in
    the given order and each file's pages in their order; a path that does
    not exist gives a warning and nothing else; success is reported. *)
Theorem merge_pdfs_concatenates input_files output_pdf w :
  all_pdf (w_files w) input_files →
  output_pdf ≠ EmptyString → output_pdf ∉ w_locked w →
  let result := merge_pdfs input_files output_pdf w in
  let merged := merge_spec (w_files w) input_files in
  result.1 = Ok tt
  ∧ w_files result.2 = <[output_pdf := Pdf merged]> (w_files w)
  ∧ ∃ evs, w_trace result.2
           = w_trace w ++ evs
             ++ [EWrite output_pdf merged; EPrint (MsgMerged output_pdf)]
      ∧ writes_of evs = []
      ∧ messages_of evs
        = MsgFileNotFound
          <$> filter (λ file, w_files w !! file = None) input_files.
Proof.
  intros Hpdf Hne Hfree result merged. unfold result, merged.
  rewrite merge_pdfs_run by done. simpl.
  split; [done|]. split; [done|].
  eexists (EBar _ _ :: merge_events (w_files w) input_files).
  split; [by rewrite <- !app_assoc|].
  split.
  - apply writes_of_merge_events.
  - by apply messages_of_merge_events.
Qed.


(** C6: when the input exists, [compress_pdf] starts the external tool
    with the command line of the level: the preset [prepress], [printer],
    [ebook], [screen], [ebook] of levels 1 to 5, the duplicate-detection
    and 150-DPI downsampling flags of level 5 before the preset flag; a
    level outside 1..5 gets a warning and the command line of level 3, and
    the operation returns normally. *)
Theorem compress_pdf_command_line input_pdf output_pdf power w f :
  w_files w !! input_pdf = Some f →
  let result := compress_pdf input_pdf output_pdf power w in
  let level := if valid_level power then power else 3 in
  result.1 = Ok tt
  ∧ ∃ evs,
      w_trace result.2
      = w_trace w
        ++ (if valid_level power then [] else [EPrint MsgInvalidLevel])
        ++ [EPrint MsgCompressing;
            EPopen
              ([ "gs"; "-sDEVICE=pdfwrite"; "-dCompatibilityLevel=1.5" ]
               ++ (if level =? 5 then custom_flags else [])
               ++ [ "-dPDFSETTINGS=/" +:+ preset_of_level level;
                    "-dNOPAUSE"; "-dQUIET"; "-dBATCH";
                    "-dAutoRotatePages=/None";
                    "-sOutputFile=" +:+ output_pdf; input_pdf ])]
        ++ evs.
Proof.
  intros Hfile result level. split.
  - apply compress_pdf_reports.
  - apply (compress_pdf_trace input_pdf output_pdf power w f Hfile).
Qed.

(** C7: every operation returns normally in every world and for every
    argument: an exception raised inside is an instance of [Exception] and
    is handled at the operation's own [try], and the last thing the
    operation shows is a message of success or of failure. *)
Theorem operations_report
    input_pdf output_pdf page_ranges input_files pages_per_part power :
  reports (extract_pages input_pdf output_pdf page_ranges)
  ∧ reports (merge_pdfs input_files output_pdf)
  ∧ reports (delete_pages input_pdf output_pdf page_ranges)
  ∧ reports (split_pdf input_pdf pages_per_part)
  ∧ reports (compress_pdf input_pdf output_pdf power).
Proof.
  split; [apply extract_pages_reports|].
  split; [apply merge_pdfs_reports|].
  split; [apply delete_pages_reports|].
  split; [apply split_pdf_reports|apply compress_pdf_reports].
Qed.

(** C8, as amended: when the ranges tile the page numbers from 1 up to the
    last page or beyond, in ascending order without gap or overlap (the
    single range from 1 to the number of pages is such a tiling),
    [extract_pages] writes exactly the source's pages, in the same order
    and number, and reports success. *)
Theorem extract_pages_round_trip
    input_pdf output_pdf tokens rs upto pages w :
  w_files w !! input_pdf = Some (Pdf pages) →
  denote tokens rs →
  tiles 1 rs upto → Z.of_nat (length pages) < upto →
  output_pdf ≠ EmptyString → output_pdf ∉ w_locked w →
  let result := extract_pages input_pdf output_pdf tokens w in
  result.1 = Ok tt
  ∧ w_files result.2 = <[output_pdf := Pdf pages]> (w_files w)
  ∧ ∃ evs warnings, w_trace result.2 = w_trace w ++ evs
      ∧ writes_of evs = [(output_pdf, pages)]
      ∧ messages_of evs = warnings ++ [MsgExtracted output_pdf]
      ∧ Forall (λ m, is_warning m = true) warnings.
Proof.
  intros Hfile Hden Htiles Hupto Hne Hfree result. unfold result.
  rewrite (extract_pages_run _ _ _ rs pages);
    [|done|done|by apply (tiles_starts 1 rs upto)|done|done].
  rewrite (extract_spec_tiles pages rs upto) by done.
  split; [done|].
  match goal with
  | |- context [after [EPrint ?msg] (written ?o ?p (after ?evs0 w))] =>
      destruct (finished_world o p msg evs0 w)
        as (Hfiles & evs & Htrace & Hwrites & Hmsgs)
  end.
  split; [done|].
  exists evs, (messages_of (extract_events (Z.of_nat (length pages)) rs)).
  split; [done|]. rewrite Hwrites, Hmsgs. simpl.
  rewrite writes_of_extract_events.
  split; [done|]. split; [done|]. apply messages_of_extract_events.
Qed.

(** C9: a token whose start exceeds its end denotes an empty interval:
    among tokens that denote ranges (none starting below page 1 for
    [extract_pages]), it makes [extract_pages] copy nothing and
    [delete_pages] exclude nothing, the output being what it is without the
    token, and both operations return normally and report success. *)
Theorem inverted_range_is_empty
    token start end_ tokens1 tokens2 rs1 rs2 input_pdf output_pdf pages w :
  range_of_token int_max_str_digits token = Ok (start, end_) →
  end_ < start →
  denote tokens1 rs1 → denote tokens2 rs2 →
  Forall (λ r, 1 ≤ r.1) (rs1 ++ rs2) →
  w_files w !! input_pdf = Some (Pdf pages) →
  output_pdf ≠ EmptyString → output_pdf ∉ w_locked w →
  let tokens := tokens1 ++ token :: tokens2 in
  let extracted := extract_pages input_pdf output_pdf tokens w in
  let deleted := delete_pages input_pdf output_pdf tokens w in
  py_range (start - 1) end_ = []
  ∧ extracted.1 = Ok tt
  ∧ w_files extracted.2
    = <[output_pdf := Pdf (extract_spec pages (rs1 ++ rs2))]> (w_files w)
  ∧ last (w_trace extracted.2) = Some (EPrint (MsgExtracted output_pdf))
  ∧ deleted.1 = Ok tt
  ∧ w_files deleted.2
    = <[output_pdf := Pdf (delete_spec pages (rs1 ++ rs2))]> (w_files w)
  ∧ last (w_trace deleted.2) = Some (EPrint (MsgDeleted output_pdf)).
Proof.
  intros Htoken Hinv Hden1 Hden2 Hstart Hfile Hne Hfree
    tokens extracted deleted.
  assert (denote tokens (rs1 ++ (start, end_) :: rs2)) as Hden.
  { apply denote_app; [done|]. by constructor. }
  assert (Forall (λ r, 1 ≤ r.1) (rs1 ++ (start, end_) :: rs2)) as Hstart'.
  { apply Forall_app in Hstart as [H1 H2].
    apply Forall_app. split; [done|]. constructor; [|done].
    simpl. pose proof (range_of_token_nonneg _ _ _ Htoken). lia. }
  split; [unfold py_range; apply seqZ_nil; lia|].
  unfold extracted, deleted.
  rewrite (extract_pages_run _ _ _ _ pages w Hfile Hden Hstart' Hne Hfree).
  rewrite (delete_pages_run _ _ _ _ pages w Hfile Hden Hne Hfree).
  rewrite extract_spec_inverted, delete_spec_inverted by done.
  simpl. by rewrite !last_snoc.
Qed.

(** C10: when no listed file exists, the empty list included,
    [merge_pdfs] still writes a document of zero pages to the destination
    and reports success. *)
Theorem merge_pdfs_nothing_found input_files output_pdf w :
  Forall (λ file, w_files w !! file = None) input_files →
  output_pdf ≠ EmptyString → output_pdf ∉ w_locked w →
  let result := merge_pdfs input_files output_pdf w in
  result.1 = Ok tt
  ∧ w_files result.2 = <[output_pdf := Pdf []]> (w_files w)
  ∧ writes_of (w_trace result.2) = writes_of (w_trace w) ++ [(output_pdf, [])]
  ∧ last (w_trace result.2) = Some (EPrint (MsgMerged output_pdf)).
Proof.
  intros Hnone Hne Hfree result. unfold result.
  assert (all_pdf (w_files w) input_files) as Hpdf.
  { eapply Forall_impl; [exact Hnone|]. intros file Hfile size.
    simpl in Hfile. by rewrite Hfile. }
  assert (merge_spec (w_files w) input_files = []) as Hspec.
  { clear Hpdf. induction Hnone as [|file inputs Hfile _ IH]; [done|].
    unfold merge_spec. rewrite bind_cons, Hfile. apply IH. }
  rewrite merge_pdfs_run by done. rewrite Hspec. simpl.
  split; [done|]. split; [done|]. split.
  - rewrite !writes_of_app. simpl.
    by rewrite writes_of_merge_events, !app_nil_r.
  - by rewrite last_snoc.
Qed.

(** * Further properties *)

(** ** [parse_page_ranges] *)

(** The number of occurrences of a character. *)
Fixpoint count_char (c : ascii) (s : string) : nat :=
  match s with
  | EmptyString => 0
  | String d s' => (if Ascii.eqb d c then 1 else 0) + count_char c s'
  end.

(** The text begins, or ends, with white space. *)
Definition begins_blank (s : string) : bool :=
  match s with
  | String c _ => PyStr.isspace c
  | EmptyString => false
  end.

Fixpoint ends_blank (s : string) : bool :=
  match s with
  | EmptyString => false
  | String c EmptyString => PyStr.isspace c
  | String _ s' => ends_blank s'
  end.

Lemma split_free sep s : free_of sep s = true → PyStr.split sep s = [s].
Proof.
  induction s as [|c s IH]; simpl; [done|].
  intros [Hc Hs]%andb_true_iff. apply negb_true_iff in Hc.
  rewrite Hc, IH by done. done.
Qed.

Lemma split_app_sep sep a rest :
  free_of sep a = true →
  PyStr.split sep (a +:+ String sep rest) = a :: PyStr.split sep rest.
Proof.
  induction a as [|c a IH]; simpl.
  - intros _. by rewrite Ascii.eqb_refl.
  - intros [Hc Ha]%andb_true_iff. apply negb_true_iff in Hc.
    rewrite Hc, IH by done. done.
Qed.

Lemma split_concat sep token tokens :
  Forall (λ t, free_of sep t = true) (token :: tokens) →
  PyStr.split sep (String.concat (String sep EmptyString) (token :: tokens))
  = token :: tokens.
Proof.
  revert token. induction tokens as [|next tokens IH]; intros token Hfree.
  - apply Forall_cons in Hfree as [Htoken _]. by apply split_free.
  - apply Forall_cons in Hfree as [Htoken Hfree].
    change (String.concat (String sep "") (token :: next :: tokens))
      with (token +:+ String sep
              (String.concat (String sep "") (next :: tokens))).
    rewrite split_app_sep by done. by rewrite IH.
Qed.

Lemma length_split sep s :
  length (PyStr.split sep s) = S (count_char sep s).
Proof.
  induction s as [|c s IH]; simpl; [done|].
  destruct (Ascii.eqb c sep); simpl; [by rewrite IH|].
  destruct (PyStr.split sep s); simpl in *; lia.
Qed.

Lemma lstrip_free p s :
  PyStr.all_chars p s = true → PyStr.all_chars p (PyStr.lstrip s) = true.
Proof.
  induction s as [|c s IH]; simpl; [done|].
  intros [Hc Hs]%andb_true_iff.
  destruct (PyStr.isspace c); [by apply IH|]. simpl. by rewrite Hc, Hs.
Qed.

Lemma rstrip_free p s :
  PyStr.all_chars p s = true → PyStr.all_chars p (PyStr.rstrip s) = true.
Proof.
  induction s as [|c s IH]; simpl; [done|].
  intros [Hc Hs]%andb_true_iff. specialize (IH Hs).
  destruct (PyStr.rstrip s) as [|d r].
  - destruct (PyStr.isspace c); [done|]. simpl. by rewrite Hc.
  - simpl in *. by rewrite Hc, IH.
Qed.

Lemma lstrip_begins s : begins_blank (PyStr.lstrip s) = false.
Proof.
  induction s as [|c s IH]; simpl; [done|].
  destruct (PyStr.isspace c) eqn:Hc; [done|]. simpl. done.
Qed.

Lemma rstrip_ends s : ends_blank (PyStr.rstrip s) = false.
Proof.
  induction s as [|c s IH]; simpl; [done|].
  destruct (PyStr.rstrip s) as [|d r].
  - by destruct (PyStr.isspace c) eqn:Hc.
  - done.
Qed.

Lemma rstrip_begins s :
  begins_blank s = false → begins_blank (PyStr.rstrip s) = false.
Proof.
  destruct s as [|c s]; simpl; [done|]. intros Hc.
  destruct (PyStr.rstrip s); [by rewrite Hc|done].
Qed.

Lemma lstrip_blank s :
  PyStr.all_chars PyStr.isspace s = true → PyStr.lstrip s = EmptyString.
Proof.
  induction s as [|c s IH]; simpl; [done|].
  intros [Hc Hs]%andb_true_iff. rewrite Hc. by apply IH.
Qed.

Lemma blank_free_of_comma s :
  PyStr.all_chars PyStr.isspace s = true → free_of "," s = true.
Proof.
  unfold free_of. induction s as [|c s IH]; simpl; [done|].
  intros [Hc Hs]%andb_true_iff. rewrite IH by done.
  destruct (Ascii.eqb c ",") eqn:Hcomma; [|done].
  apply Ascii.eqb_eq in Hcomma. by subst.
Qed.

(** X1: the tokens of a text come back in their order, trimmed: parsing
    the tokens joined by commas gives each token stripped, for tokens
    without comma. *)
Theorem parse_page_ranges_of_joined token tokens :
  Forall (λ t, free_of "," t = true) (token :: tokens) →
  parse_page_ranges (String.concat "," (token :: tokens))
  = PyStr.strip <$> token :: tokens.
Proof.
  intros Hfree. unfold parse_page_ranges.
  by rewrite (split_concat "," token tokens Hfree).
Qed.

(** X2: [parse_page_ranges] returns one token more than the text has
    commas, never an empty list, and no token holds a comma or begins or
    ends with white space. *)
Theorem parse_page_ranges_tokens input_str :
  length (parse_page_ranges input_str) = S (count_char "," input_str)
  ∧ Forall (λ token, free_of "," token = true
                     ∧ begins_blank token = false
                     ∧ ends_blank token = false)
           (parse_page_ranges input_str).
Proof.
  unfold parse_page_ranges. split.
  - by rewrite length_fmap, length_split.
  - apply Forall_fmap.
    eapply Forall_impl; [apply (split_parts_free "," input_str)|].
    intros part Hpart. simpl. unfold PyStr.strip, free_of.
    split; [by apply rstrip_free, lstrip_free|].
    split; [apply rstrip_begins, lstrip_begins|apply rstrip_ends].
Qed.

(** X3: a text that is empty or holds only white space is parsed into the
    single empty token, which [extract_pages] and [delete_pages] reject:
    each reports a [ValueError] and writes nothing. *)
Theorem blank_page_ranges_rejected input_str input_pdf output_pdf pages w :
  PyStr.all_chars PyStr.isspace input_str = true →
  w_files w !! input_pdf = Some (Pdf pages) →
  parse_page_ranges input_str = [EmptyString]
  ∧ ∃ e1 e2, exn_class e1 = ValueError ∧ exn_class e2 = ValueError
      ∧ extract_pages input_pdf output_pdf (parse_page_ranges input_str) w
        = (Ok tt, after [EPrint (MsgError e1)] w)
      ∧ delete_pages input_pdf output_pdf (parse_page_ranges input_str) w
        = (Ok tt, after [EPrint (MsgError e2)] w).
Proof.
  intros Hblank Hfile.
  assert (parse_page_ranges input_str = [EmptyString]) as Hparse.
  { unfold parse_page_ranges.
    rewrite split_free by (by apply blank_free_of_comma).
    simpl. unfold PyStr.strip. by rewrite lstrip_blank. }
  split; [done|]. rewrite Hparse.
  assert (Exists (λ token, ¬ two_integer_parts token) [EmptyString]) as Hbad.
  { constructor. intros (a & b & x & y & Hsplit & _). done. }
  destruct (extract_pages_malformed input_pdf output_pdf _ pages w Hfile Hbad)
    as (e1 & Hcls1 & Hrun1).
  destruct (delete_pages_malformed input_pdf output_pdf _ pages w Hfile Hbad)
    as (e2 & Hcls2 & Hrun2).
  by exists e1, e2.
Qed.

(** ** [extract_pages] on any ranges *)

(** The page numbers of a range that a document of [n] pages lacks. *)
Definition missing_pages (n : Z) (r : Z * Z) : list Z :=
  filter (λ p, n < p) (seqZ r.1 (r.2 - r.1 + 1)).

(** The page the copy loop reaches at index [i]: the last one below 0. *)
Definition page_reached (pages : list Page) (i : Z) : option Page :=
  if i <? 0 then last pages else pages !! Z.to_nat i.

(** What [extract_pages] copies for a range of natural numbers from a
    document that has pages: a range from 0 gives the last page first. *)
Definition copied_of_range (pages : list Page) (r : Z * Z) : list Page :=
  (if r.1 =? 0 then option_list (last pages) else [])
  ++ pages_of_range pages r.

Lemma messages_of_copy_events_missing n l :
  messages_of (copy_events n l)
  = MsgNoSuchPage <$> filter (λ p, n < p) ((λ i, i + 1) <$> l).
Proof.
  induction l as [|i l IH]; [done|].
  unfold copy_events. rewrite !fmap_cons, filter_cons.
  fold (copy_events n l). unfold messages_of in *. csimpl.
  destruct (Z.ltb_spec i n).
  - rewrite decide_False by lia. apply IH.
  - rewrite decide_True by lia. rewrite fmap_cons. by rewrite <- IH.
Qed.

Lemma succ_py_range start end_ :
  (λ i, i + 1) <$> py_range (start - 1) end_
  = seqZ start (end_ - start + 1).
Proof.
  unfold py_range.
  transitivity (Z.add 1 <$> seqZ (start - 1) (end_ - (start - 1))).
  - apply Forall_fmap_ext_1, Forall_forall. intros i _. lia.
  - rewrite fmap_add_seqZ. f_equal; lia.
Qed.

Lemma messages_of_extract_events_missing n rs :
  messages_of (extract_events n rs)
  = MsgNoSuchPage <$> (rs ≫= missing_pages n).
Proof.
  induction rs as [|r rs IH]; [done|].
  unfold extract_events. rewrite !bind_cons, messages_of_app, fmap_app.
  fold (extract_events n rs). rewrite IH. f_equal.
  rewrite messages_of_copy_events_missing. unfold missing_pages.
  by rewrite succ_py_range.
Qed.

Lemma pages_getitem_last (pages : list Page) :
  pages ≠ [] →
  ∃ page, last pages = Some page ∧ pages_getitem pages (-1) = Ok page.
Proof.
  intros Hne. destruct (last pages) as [page|] eqn:Hlast.
  - exists page. split; [done|]. unfold pages_getitem.
    rewrite last_lookup in Hlast.
    assert (0 < length pages)%nat by (destruct pages; [done|simpl; lia]).
    change (-1 <? 0) with true. cbv iota.
    rewrite (proj2 (Z.ltb_ge _ 0)) by lia.
    rewrite (proj2 (Z.leb_gt _ _)) by lia. simpl.
    replace (Z.to_nat (Z.of_nat (length pages) + -1))
      with (pred (length pages)) by lia.
    by rewrite Hlast.
  - by apply last_None in Hlast.
Qed.

Lemma copy_page_loop_last (reader : list Page) l writer w :
  reader ≠ [] → Forall (λ i, -1 ≤ i) l →
  for_each l (copy_page reader) writer w
  = (Ok (writer ++ omap (page_reached reader) l),
     after (copy_events (Z.of_nat (length reader)) l) w).
Proof.
  intros Hne Hl. revert writer w.
  induction Hl as [|i l Hi _ IH]; intros writer w.
  - simpl. by rewrite app_nil_r, after_nil.
  - simpl for_each. unfold copy_events. rewrite fmap_cons.
    fold (copy_events (Z.of_nat (length reader)) l).
    change (omap ?f (i :: l)) with
      (match f i with Some p => p :: omap f l | None => omap f l end).
    unfold page_reached at 1.
    destruct (i <? Z.of_nat (length reader)) eqn:Hlt.
    + apply Z.ltb_lt in Hlt.
      assert (∃ page, (if i <? 0 then last reader
                       else reader !! Z.to_nat i) = Some page
                      ∧ pages_getitem reader i = Ok page)
        as (page & Hpage & Hget).
      { destruct (Z.ltb_spec i 0).
        - replace i with (-1) by lia. by apply pages_getitem_last.
        - by apply pages_getitem_inside. }
      rewrite Hpage.
      eapply bind_ok.
      { eapply bind_ok; [unfold lift; by rewrite Hget|].
        eapply bind_ok; [apply pbar_update_run|]. reflexivity. }
      rewrite IH, after_after. by rewrite <- app_assoc.
    + apply Z.ltb_ge in Hlt.
      rewrite (proj2 (Z.ltb_ge i 0)) by lia.
      rewrite (lookup_ge_None_2 reader (Z.to_nat i)) by lia.
      eapply bind_ok.
      { eapply bind_ok; [apply print_run|]. reflexivity. }
      by rewrite IH, after_after.
Qed.

Lemma pages_of_range_zero (pages : list Page) end_ :
  0 ≤ end_ → pages_of_range pages (0, end_) = pages_of_range pages (1, end_).
Proof.
  intros Hend. unfold pages_of_range. simpl.
  rewrite (seqZ_cons 0) by lia. csimpl.
  do 2 f_equal; lia.
Qed.

Lemma page_reached_range (pages : list Page) start end_ :
  0 ≤ start → 0 ≤ end_ →
  omap (page_reached pages) (py_range (start - 1) end_)
  = copied_of_range pages (start, end_).
Proof.
  intros Hstart Hend. unfold copied_of_range. simpl.
  destruct (Z.eqb_spec start 0) as [->|Hpos].
  - unfold py_range. rewrite seqZ_cons by lia. csimpl.
    rewrite pages_of_range_zero by done.
    rewrite <- pages_of_range_shift. unfold py_range.
    replace (Z.succ (0 - 1)) with (1 - 1) by lia.
    replace (Z.pred (end_ - (0 - 1))) with (end_ - (1 - 1)) by lia.
    assert (omap (page_reached pages) (seqZ (1 - 1) (end_ - (1 - 1)))
            = omap (λ i, page_number pages (i + 1))
                (seqZ (1 - 1) (end_ - (1 - 1)))) as ->.
    { apply list_omap_ext, Forall2_same_length_lookup. split; [done|].
      intros k x y Hx Hy. rewrite Hx in Hy. injection Hy as <-.
      apply lookup_seqZ in Hx as [-> _]. unfold page_reached.
      rewrite (proj2 (Z.ltb_ge _ 0)) by lia.
      symmetry. apply page_number_succ. lia. }
    change (page_reached pages (0 - 1)) with (last pages).
    by destruct (last pages).
  - rewrite <- pages_of_range_shift. simpl.
    apply list_omap_ext, Forall2_same_length_lookup. split; [done|].
    intros k x y Hx Hy. rewrite Hx in Hy. injection Hy as <-.
    apply lookup_seqZ in Hx as [-> _]. unfold page_reached.
    rewrite (proj2 (Z.ltb_ge _ 0)) by lia.
    symmetry. apply page_number_succ. lia.
Qed.

Lemma copy_range_loop_last (reader : list Page) tokens rs writer w :
  reader ≠ [] → denote tokens rs →
  for_each tokens (copy_range reader) writer w
  = (Ok (writer ++ (rs ≫= copied_of_range reader)),
     after (extract_events (Z.of_nat (length reader)) rs) w).
Proof.
  intros Hne Hden. revert writer w.
  induction Hden as [|token [start end_] tokens rs Htoken _ IH];
    intros writer w.
  - simpl. by rewrite app_nil_r, after_nil.
  - destruct (range_of_token_nonneg _ _ _ Htoken) as [Hstart Hend].
    simpl for_each. eapply bind_ok.
    { eapply bind_ok; [unfold lift; by rewrite Htoken|].
      cbv beta iota. apply copy_page_loop_last; [done|].
      eapply Forall_impl; [apply py_range_from|]. simpl. intros i Hi. lia. }
    rewrite IH. rewrite after_after, page_reached_range by done.
    unfold extract_events. rewrite !bind_cons.
    by rewrite <- app_assoc.
Qed.

Lemma extract_pages_run_last input_pdf output_pdf tokens rs pages w :
  w_files w !! input_pdf = Some (Pdf pages) →
  pages ≠ [] → denote tokens rs →
  output_pdf ≠ EmptyString → output_pdf ∉ w_locked w →
  extract_pages input_pdf output_pdf tokens w
  = (Ok tt,
     after [EPrint (MsgExtracted output_pdf)]
       (written output_pdf (rs ≫= copied_of_range pages)
          (after (EBar (ranges_total rs) "Extracting pages"
                  :: extract_events (Z.of_nat (length pages)) rs) w))).
Proof.
  intros Hfile Hpages Hden Hne Hfree.
  unfold extract_pages. apply try_ok.
  eapply bind_ok; [by apply PdfReader_run|].
  eapply bind_ok.
  { unfold lift, sum_range_sizes. by rewrite (sum_range_sizes_from _ rs). }
  eapply bind_ok; [apply tqdm_run|].
  eapply bind_ok; [by apply copy_range_loop_last|].
  eapply bind_ok; [by apply write_pdf_run|].
  rewrite print_run, after_after. simpl. by rewrite Z.add_0_l.
Qed.

(** X4: for ranges that start at page 1 or later, [extract_pages] writes,
    range after range in the order given, the pages of each range that the
    document has; it prints one warning for each page number beyond the
    last page, in the order met, then its success message. *)
Theorem extract_pages_from_page_one
    input_pdf output_pdf tokens rs pages w :
  w_files w !! input_pdf = Some (Pdf pages) →
  denote tokens rs → Forall (λ r, 1 ≤ r.1) rs →
  output_pdf ≠ EmptyString → output_pdf ∉ w_locked w →
  let result := extract_pages input_pdf output_pdf tokens w in
  result.1 = Ok tt
  ∧ w_files result.2 = <[output_pdf := Pdf (extract_spec pages rs)]> (w_files w)
  ∧ ∃ evs, w_trace result.2 = w_trace w ++ evs
      ∧ writes_of evs = [(output_pdf, extract_spec pages rs)]
      ∧ messages_of evs
        = (MsgNoSuchPage
           <$> (rs ≫= missing_pages (Z.of_nat (length pages))))
          ++ [MsgExtracted output_pdf].
Proof.
  intros Hfile Hden Hstart Hne Hfree result. unfold result.
  rewrite (extract_pages_run _ _ _ rs pages) by done.
  split; [done|].
  match goal with
  | |- context [after [EPrint ?msg] (written ?o ?p (after ?evs0 w))] =>
      destruct (finished_world o p msg evs0 w)
        as (Hfiles & evs & Htrace & Hwrites & Hmsgs)
  end.
  split; [done|]. exists evs. split; [done|].
  rewrite Hwrites, Hmsgs. simpl.
  by rewrite writes_of_extract_events, messages_of_extract_events_missing.
Qed.

(** X5: on a document that has pages, [extract_pages] accepts every list
    of tokens that convert: a range that starts at 0 puts the last page of
    the document before the pages of the range, without a warning. *)
Theorem extract_pages_page_zero_is_last
    input_pdf output_pdf tokens rs pages w :
  w_files w !! input_pdf = Some (Pdf pages) →
  pages ≠ [] → denote tokens rs →
  output_pdf ≠ EmptyString → output_pdf ∉ w_locked w →
  let result := extract_pages input_pdf output_pdf tokens w in
  result.1 = Ok tt
  ∧ w_files result.2
    = <[output_pdf := Pdf (rs ≫= copied_of_range pages)]> (w_files w)
  ∧ ∃ evs, w_trace result.2 = w_trace w ++ evs
      ∧ messages_of evs
        = (MsgNoSuchPage
           <$> (rs ≫= missing_pages (Z.of_nat (length pages))))
          ++ [MsgExtracted output_pdf].
Proof.
  intros Hfile Hpages Hden Hne Hfree result. unfold result.
  rewrite (extract_pages_run_last _ _ _ rs pages) by done.
  split; [done|].
  match goal with
  | |- context [after [EPrint ?msg] (written ?o ?p (after ?evs0 w))] =>
      destruct (finished_world o p msg evs0 w)
        as (Hfiles & evs & Htrace & Hwrites & Hmsgs)
  end.
  split; [done|]. exists evs. split; [done|].
  rewrite Hmsgs. simpl.
  by rewrite messages_of_extract_events_missing.
Qed.

Lemma copy_range_loop_empty tokens rs (writer : list Page) w :
  denote tokens rs → Exists (λ r, r.1 = 0) rs →
  ∃ evs,
    for_each tokens (copy_range (@nil Page)) writer w
    = (Raise (mkExn IndexError "sequence index out of range"), after evs w)
    ∧ writes_of evs = []
    ∧ Forall (λ m, is_warning m = true) (messages_of evs).
Proof.
  intros Hden. revert writer w.
  induction Hden as [|token [start end_] tokens rs Htoken _ IH];
    intros writer w Hzero.
  - by apply Exists_nil in Hzero.
  - destruct (range_of_token_nonneg _ _ _ Htoken) as [Hstart Hend].
    simpl for_each.
    destruct (decide (start = 0)) as [->|Hpos].
    + exists []. rewrite after_nil. split; [|by split].
      apply bind_raise.
      eapply bind_ok; [unfold lift; by rewrite Htoken|].
      cbv beta iota. unfold py_range. rewrite seqZ_cons by lia.
      simpl for_each. apply bind_raise.
      change (0 - 1 <? Z.of_nat (length (@nil Page))) with true. cbv iota.
      by apply bind_raise.
    + apply Exists_cons in Hzero as [Hzero|Hzero]; [done|].
      destruct (IH (writer ++ pages_of_range [] (start, end_))
                  (after (copy_events 0 (py_range (start - 1) end_)) w)
                  Hzero) as (evs & Hrun & Hwrites & Hmsgs).
      exists (copy_events 0 (py_range (start - 1) end_) ++ evs).
      split; [|split].
      * eapply bind_ok.
        { eapply bind_ok; [unfold lift; by rewrite Htoken|].
          cbv beta iota.
          apply (copy_page_loop (@nil Page) (py_range (start - 1) end_)).
          eapply Forall_impl; [apply py_range_from|].
          simpl. intros i Hi. lia. }
        rewrite pages_of_range_shift, <- after_after. exact Hrun.
      * by rewrite writes_of_app, writes_of_copy_events.
      * rewrite messages_of_app. apply Forall_app.
        split; [apply messages_of_copy_events|done].
Qed.

(** X6: on a document of zero pages, a range that starts at 0 makes
    [extract_pages] fail: index -1 passes the page test and has no page, so
    an [IndexError] is reported after the warnings of the ranges before,
    and nothing is written. *)
Theorem extract_pages_page_zero_of_empty
    input_pdf output_pdf tokens rs w :
  w_files w !! input_pdf = Some (Pdf []) →
  denote tokens rs → Exists (λ r, r.1 = 0) rs →
  let result := extract_pages input_pdf output_pdf tokens w in
  result.1 = Ok tt
  ∧ w_files result.2 = w_files w
  ∧ ∃ evs warnings, w_trace result.2 = w_trace w ++ evs
      ∧ writes_of evs = []
      ∧ messages_of evs
        = warnings
          ++ [MsgError (mkExn IndexError "sequence index out of range")]
      ∧ Forall (λ m, is_warning m = true) warnings.
Proof.
  intros Hfile Hden Hzero result. unfold result.
  destruct (copy_range_loop_empty tokens rs []
              (after [EBar (ranges_total rs) "Extracting pages"] w)
              Hden Hzero) as (evs & Hrun & Hwrites & Hmsgs).
  unfold extract_pages. erewrite try_raise; cycle 1.
  - eapply bind_ok; [by apply PdfReader_run|].
    eapply bind_ok.
    { unfold lift, sum_range_sizes. by rewrite (sum_range_sizes_from _ rs). }
    eapply bind_ok; [apply tqdm_run|].
    apply bind_raise. rewrite Z.add_0_l. exact Hrun.
  - rewrite handle_Exception by done. apply print_run.
  - simpl. split; [done|]. split; [done|].
    exists (EBar (ranges_total rs) "Extracting pages" :: evs
            ++ [EPrint (MsgError
                          (mkExn IndexError "sequence index out of range"))]),
      (messages_of evs).
    split; [by rewrite <- !app_assoc|].
    split.
    + change (EBar ?t ?d :: ?l) with ([EBar t d] ++ l).
      rewrite !writes_of_app, Hwrites. done.
    + split; [|done].
      change (EBar ?t ?d :: ?l) with ([EBar t d] ++ l).
      by rewrite !messages_of_app.
Qed.

(** ** [delete_pages] and the ranges *)

Lemma keep_from_single (pages : list Page) i start end_ :
  start - 1 ≤ end_ →
  keep_from i [(start, end_)] pages
  = take (Z.to_nat (start - 1 - i)) pages ++ drop (Z.to_nat (end_ - i)) pages.
Proof.
  intros Hle. revert i. induction pages as [|page pages IH]; intros i.
  - by rewrite take_nil, drop_nil.
  - simpl keep_from. unfold in_ranges. simpl. rewrite orb_false_r, IH.
    destruct (Z.leb_spec (start - 1) i) as [Hlow|Hlow]; simpl.
    + replace (Z.to_nat (start - 1 - (i + 1))) with 0%nat by lia.
      replace (Z.to_nat (start - 1 - i)) with 0%nat by lia.
      destruct (Z.ltb_spec i end_) as [Hup|Hup]; simpl.
      * replace (Z.to_nat (end_ - i)) with (S (Z.to_nat (end_ - (i + 1))))
          by lia.
        done.
      * replace (Z.to_nat (end_ - (i + 1))) with 0%nat by lia.
        replace (Z.to_nat (end_ - i)) with 0%nat by lia.
        done.
    + replace (Z.to_nat (start - 1 - i))
        with (S (Z.to_nat (start - 1 - (i + 1)))) by lia.
      replace (Z.to_nat (end_ - i)) with (S (Z.to_nat (end_ - (i + 1))))
        by lia.
      done.
Qed.

Lemma in_ranges_true rs i :
  in_ranges rs i = true ↔ ∃ r, r ∈ rs ∧ r.1 - 1 ≤ i < r.2.
Proof.
  unfold in_ranges. rewrite existsb_exists. split.
  - intros (r & Hr & Hin). exists r. split; [by apply list_elem_of_In|].
    apply andb_true_iff in Hin as [H1 H2].
    apply Z.leb_le in H1. apply Z.ltb_lt in H2. lia.
  - intros (r & Hr & Hin). exists r. split; [by apply list_elem_of_In|].
    apply andb_true_iff. split; [apply Z.leb_le|apply Z.ltb_lt]; lia.
Qed.

Lemma in_ranges_same rs rs' i :
  (∀ r, r ∈ rs ↔ r ∈ rs') → in_ranges rs i = in_ranges rs' i.
Proof.
  intros Hsame.
  destruct (in_ranges rs i) eqn:H1, (in_ranges rs' i) eqn:H2; try done.
  - apply in_ranges_true in H1 as (r & Hr & Hin).
    assert (in_ranges rs' i = true) as H3
      by (apply in_ranges_true; exists r; split; [by apply Hsame|done]).
    congruence.
  - apply in_ranges_true in H2 as (r & Hr & Hin).
    assert (in_ranges rs i = true) as H3
      by (apply in_ranges_true; exists r; split; [by apply Hsame|done]).
    congruence.
Qed.

Lemma delete_spec_same (pages : list Page) rs rs' :
  (∀ r, r ∈ rs ↔ r ∈ rs') → delete_spec pages rs = delete_spec pages rs'.
Proof.
  intros Hsame. unfold delete_spec. generalize 0.
  induction pages as [|page pages IH]; intros i; [done|].
  simpl. by rewrite (in_ranges_same rs rs' i Hsame), IH.
Qed.

Lemma extract_spec_single (pages : list Page) start end_ :
  1 ≤ start →
  extract_spec pages [(start, end_)]
  = take (Z.to_nat (end_ - (start - 1))) (drop (Z.to_nat (start - 1)) pages).
Proof.
  intros Hstart. unfold extract_spec. rewrite bind_cons.
  change ([] ≫= pages_of_range pages) with (@nil Page). rewrite app_nil_r.
  rewrite <- pages_of_range_shift, <- omap_lookup_range by lia.
  apply list_omap_ext, Forall2_same_length_lookup. split; [done|].
  intros k x y Hx Hy. rewrite Hx in Hy. injection Hy as <-.
  apply lookup_seqZ in Hx as [-> _]. apply page_number_succ. lia.
Qed.

(** X7: deleting one range [start-end] with [start ≤ end + 1] leaves the
    pages before [start] followed by the pages after [end]. *)
Theorem delete_pages_one_range
    input_pdf output_pdf token start end_ pages w :
  w_files w !! input_pdf = Some (Pdf pages) →
  range_of_token int_max_str_digits token = Ok (start, end_) →
  start ≤ end_ + 1 →
  output_pdf ≠ EmptyString → output_pdf ∉ w_locked w →
  let result := delete_pages input_pdf output_pdf [token] w in
  result.1 = Ok tt
  ∧ w_files result.2
    = <[output_pdf := Pdf (take (Z.to_nat (start - 1)) pages
                           ++ drop (Z.to_nat end_) pages)]> (w_files w).
Proof.
  intros Hfile Htoken Hle Hne Hfree result. unfold result.
  rewrite (delete_pages_run _ _ _ [(start, end_)] pages);
    [|done|by repeat constructor|done|done].
  split; [done|]. simpl. unfold delete_spec.
  rewrite keep_from_single by lia.
  by rewrite !Z.sub_0_r.
Qed.

(** X8: what [delete_pages] writes depends on the ranges as a set only:
    tokens that denote the same ranges in another order, or some of them
    several times, give the same output. *)
Theorem delete_pages_order_free
    input_pdf output_pdf tokens tokens' rs rs' pages w :
  w_files w !! input_pdf = Some (Pdf pages) →
  denote tokens rs → denote tokens' rs' →
  (∀ r, r ∈ rs ↔ r ∈ rs') →
  output_pdf ≠ EmptyString → output_pdf ∉ w_locked w →
  w_files (delete_pages input_pdf output_pdf tokens w).2
  = w_files (delete_pages input_pdf output_pdf tokens' w).2.
Proof.
  intros Hfile Hden Hden' Hsame Hne Hfree.
  rewrite (delete_pages_run _ _ _ rs pages) by done.
  rewrite (delete_pages_run _ _ _ rs' pages) by done.
  simpl. by rewrite (delete_spec_same pages rs rs' Hsame).
Qed.

(** X9: extracting and deleting the same range [start-end], with
    [1 ≤ start ≤ end + 1] and [end] within the document, split the
    document: the pages kept, with the pages copied put back after the
    first [start - 1] of them, are the source. *)
Theorem extract_and_delete_complement
    input_pdf output_pdf token start end_ pages w :
  w_files w !! input_pdf = Some (Pdf pages) →
  range_of_token int_max_str_digits token = Ok (start, end_) →
  1 ≤ start ≤ end_ + 1 → end_ ≤ Z.of_nat (length pages) →
  output_pdf ≠ EmptyString → output_pdf ∉ w_locked w →
  ∃ copied kept,
    w_files (extract_pages input_pdf output_pdf [token] w).2 !! output_pdf
    = Some (Pdf copied)
    ∧ w_files (delete_pages input_pdf output_pdf [token] w).2 !! output_pdf
      = Some (Pdf kept)
    ∧ length copied = Z.to_nat (end_ - start + 1)
    ∧ take (Z.to_nat (start - 1)) kept ++ copied
      ++ drop (Z.to_nat (start - 1)) kept = pages.
Proof.
  intros Hfile Htoken Hrange Hend Hne Hfree.
  assert (denote [token] [(start, end_)]) as Hden by (by repeat constructor).
  exists (extract_spec pages [(start, end_)]),
    (delete_spec pages [(start, end_)]).
  rewrite (extract_pages_run _ _ _ [(start, end_)] pages);
    [|done|done|repeat constructor; simpl; lia|done|done].
  rewrite (delete_pages_run _ _ _ [(start, end_)] pages) by done.
  rewrite extract_spec_single by lia. unfold delete_spec.
  rewrite keep_from_single by lia. rewrite !Z.sub_0_r.
  cbn [snd w_files after written]. rewrite !lookup_insert_eq.
  split; [done|]. split; [done|].
  set (n1 := Z.to_nat (start - 1)). set (n2 := Z.to_nat end_).
  replace (Z.to_nat (end_ - (start - 1))) with (n2 - n1)%nat by lia.
  assert (n1 ≤ n2 ≤ length pages)%nat as Hn by lia.
  split.
  - rewrite length_take, length_drop. lia.
  - rewrite take_app_length' by (rewrite length_take; lia).
    rewrite drop_app_length' by (rewrite length_take; lia).
    rewrite app_assoc, take_take_drop.
    replace (n1 + (n2 - n1))%nat with n2 by lia.
    apply take_drop.
Qed.

(** ** [split_pdf]: the parts, and the values it does not guard *)

(** The world after [split_pdf] wrote an empty part [i]. *)
Definition empty_step (output_dir base_name : string) (w : World) (i : Z)
    : World :=
  written (part_path output_dir base_name i) [] w.

Lemma part_pages_length (pages : list Page) pages_per_part i :
  0 < pages_per_part → 0 ≤ i →
  Z.of_nat (length (part_pages pages pages_per_part i))
  = Z.max 0 (Z.min ((i + 1) * pages_per_part) (Z.of_nat (length pages))
             - i * pages_per_part).
Proof.
  intros Hppp Hi. unfold part_pages. rewrite length_take, length_drop.
  assert (0 ≤ i * pages_per_part) by nia. nia.
Qed.

Lemma parts_concat (pages : list Page) pages_per_part (k : nat) :
  0 < pages_per_part →
  concat (part_pages pages pages_per_part <$> seqZ 0 (Z.of_nat k))
  = take (Z.to_nat (Z.of_nat k * pages_per_part)) pages.
Proof.
  intros Hppp. induction k as [|k IH].
  - done.
  - rewrite seqZ_S, fmap_app, concat_app, IH. simpl.
    rewrite app_nil_r, Z.add_0_l. unfold part_pages.
    rewrite take_take_drop.
    set (len := Z.of_nat (length pages)).
    assert (0 ≤ Z.of_nat k * pages_per_part) by nia.
    destruct (Z.le_gt_cases ((Z.of_nat k + 1) * pages_per_part) len).
    + f_equal. lia.
    + rewrite (take_ge pages (Z.to_nat (Z.of_nat (S k) * pages_per_part)))
        by (unfold len in *; nia).
      apply take_ge. unfold len in *. nia.
Qed.

Lemma parts_concat_all (pages : list Page) pages_per_part :
  0 < pages_per_part →
  concat (part_pages pages pages_per_part
          <$> py_range 0 ((Z.of_nat (length pages) + pages_per_part - 1)
                          / pages_per_part))
  = pages.
Proof.
  intros Hppp.
  pose proof (ceil_div_floordiv (Z.of_nat (length pages)) pages_per_part
                Hppp) as [Hlow Hup].
  set (n := (Z.of_nat (length pages) + pages_per_part - 1) / pages_per_part)
    in *.
  assert (0 ≤ n) by nia.
  unfold py_range. rewrite Z.sub_0_r.
  replace n with (Z.of_nat (Z.to_nat n)) at 1 by lia.
  rewrite parts_concat by done. apply take_ge. nia.
Qed.

Lemma split_pdf_written input_pdf pages_per_part pages line rest w :
  let output_dir := split_dir input_pdf line in
  let base_name := split_base input_pdf in
  let num_parts :=
    (Z.of_nat (length pages) + pages_per_part - 1) / pages_per_part in
  w_files w !! input_pdf = Some (Pdf pages) →
  0 < pages_per_part →
  w_stdin w = line :: rest →
  output_dir ≠ EmptyString → w_files w !! output_dir = None →
  output_dir ∉ w_locked w →
  (∀ i, 0 ≤ i < num_parts → part_path output_dir base_name i ∉ w_locked w) →
  ∃ evs,
    w_trace (split_pdf input_pdf pages_per_part w).2 = w_trace w ++ evs
    ∧ writes_of evs
      = (λ i, (part_path output_dir base_name i,
               part_pages pages pages_per_part i))
        <$> py_range 0 num_parts.
Proof.
  intros output_dir base_name num_parts
    Hfile Hppp Hstdin Hne Hnofile Hfree Hparts.
  rewrite (split_pdf_run _ _ pages line rest) by done.
  fold output_dir base_name num_parts.
  eexists. split.
  { simpl. rewrite split_step_trace. simpl.
    rewrite <- !app_assoc. reflexivity. }
  match goal with
  | |- context [writes_of ([?a] ++ [?b; ?c] ++ ?parts ++ ?tail)] =>
      change ([a] ++ [b; c] ++ parts ++ tail)
        with ([a; b; c] ++ parts ++ tail)
  end.
  rewrite !writes_of_app, writes_of_parts. simpl. by rewrite app_nil_r.
Qed.

(** X10: the parts [split_pdf] writes, put one after the other in the
    order written, are the source: no page is lost, repeated or moved. *)
Theorem split_pdf_parts_concat input_pdf pages_per_part pages line rest w :
  let output_dir := split_dir input_pdf line in
  let base_name := split_base input_pdf in
  let num_parts :=
    (Z.of_nat (length pages) + pages_per_part - 1) / pages_per_part in
  w_files w !! input_pdf = Some (Pdf pages) →
  0 < pages_per_part →
  w_stdin w = line :: rest →
  output_dir ≠ EmptyString → w_files w !! output_dir = None →
  output_dir ∉ w_locked w →
  (∀ i, 0 ≤ i < num_parts → part_path output_dir base_name i ∉ w_locked w) →
  ∃ evs,
    w_trace (split_pdf input_pdf pages_per_part w).2 = w_trace w ++ evs
    ∧ concat ((writes_of evs).*2) = pages.
Proof.
  intros output_dir base_name num_parts
    Hfile Hppp Hstdin Hne Hnofile Hfree Hparts.
  destruct (split_pdf_written input_pdf pages_per_part pages line rest w
              Hfile Hppp Hstdin Hne Hnofile Hfree Hparts)
    as (evs & Htrace & Hwrites).
  exists evs. split; [done|]. rewrite Hwrites.
  rewrite <- list_fmap_compose.
  rewrite <- (parts_concat_all pages pages_per_part Hppp) at 2.
  done.
Qed.

(** X11: [split_pdf] writes no empty part: every part holds at least one
    page and at most [pages_per_part], and every part but the last holds
    exactly [pages_per_part]. *)
Theorem split_pdf_part_sizes input_pdf pages_per_part pages line rest w :
  let output_dir := split_dir input_pdf line in
  let base_name := split_base input_pdf in
  let num_parts :=
    (Z.of_nat (length pages) + pages_per_part - 1) / pages_per_part in
  w_files w !! input_pdf = Some (Pdf pages) →
  0 < pages_per_part →
  w_stdin w = line :: rest →
  output_dir ≠ EmptyString → w_files w !! output_dir = None →
  output_dir ∉ w_locked w →
  (∀ i, 0 ≤ i < num_parts → part_path output_dir base_name i ∉ w_locked w) →
  ∃ evs,
    w_trace (split_pdf input_pdf pages_per_part w).2 = w_trace w ++ evs
    ∧ ∀ (k : nat) path part,
        writes_of evs !! k = Some (path, part) →
        0 < Z.of_nat (length part) ≤ pages_per_part
        ∧ (Z.of_nat k + 1 < num_parts →
           Z.of_nat (length part) = pages_per_part).
Proof.
  intros output_dir base_name num_parts
    Hfile Hppp Hstdin Hne Hnofile Hfree Hparts.
  destruct (split_pdf_written input_pdf pages_per_part pages line rest w
              Hfile Hppp Hstdin Hne Hnofile Hfree Hparts)
    as (evs & Htrace & Hwrites).
  exists evs. split; [done|]. intros k path part Hk.
  rewrite Hwrites, list_lookup_fmap in Hk.
  unfold py_range in Hk.
  destruct (seqZ 0 (_ - 0) !! k) as [i|] eqn:Hi; [|done].
  apply lookup_seqZ in Hi as [-> Hlt]. simpl in Hk.
  injection Hk as _ <-.
  pose proof (ceil_div_floordiv (Z.of_nat (length pages)) pages_per_part
                Hppp) as [Hlow Hup].
  fold num_parts in Hlow, Hup, Hlt.
  rewrite part_pages_length by lia.
  split; [nia|]. intros Hlast. nia.
Qed.

(** X12: with [pages_per_part = 0], [split_pdf] reports the division by
    zero before it asks for a directory: no prompt, no line read, nothing
    written. *)
Theorem split_pdf_zero_pages_per_part input_pdf pages w :
  w_files w !! input_pdf = Some (Pdf pages) →
  split_pdf input_pdf 0 w
  = (Ok tt,
     after [EPrint (MsgError (mkExn ZeroDivisionError
                                "integer division or modulo by zero"))] w).
Proof.
  intros Hfile. unfold split_pdf. eapply try_raise.
  - eapply bind_ok; [by apply PdfReader_run|].
    cbv zeta. by apply bind_raise.
  - by rewrite handle_Exception.
Qed.

Lemma write_part_loop_negative (reader : list Page) pages_per_part
    output_dir base_name l w :
  pages_per_part < 0 → output_dir ≠ EmptyString →
  Forall (λ i, 0 ≤ i ∧ part_path output_dir base_name i ∉ w_locked w) l →
  for_each l (write_part reader pages_per_part output_dir base_name) tt w
  = (Ok tt, foldl (empty_step output_dir base_name) w l).
Proof.
  intros Hppp Hdir Hl. revert w Hl.
  induction l as [|i l IH]; intros w Hl; [done|].
  apply Forall_cons in Hl as [[Hi Hfree] Hl].
  simpl for_each. eapply bind_ok.
  { cbv zeta. eapply bind_ok.
    { unfold py_range. rewrite seqZ_nil by nia. reflexivity. }
    apply write_pdf_run; [by apply join_nonempty|exact Hfree]. }
  simpl foldl. by rewrite <- IH.
Qed.

Lemma empty_step_trace output_dir base_name w l :
  w_trace (foldl (empty_step output_dir base_name) w l)
  = w_trace w ++ ((λ i, EWrite (part_path output_dir base_name i) []) <$> l).
Proof.
  revert w. induction l as [|i l IH]; intros w.
  - simpl. by rewrite app_nil_r.
  - simpl foldl. rewrite IH, fmap_cons. simpl. by rewrite <- app_assoc.
Qed.

Lemma writes_of_empty_parts output_dir base_name (l : list Z) :
  writes_of ((λ i, EWrite (part_path output_dir base_name i) []) <$> l)
  = (λ i, (part_path output_dir base_name i, @nil Page)) <$> l.
Proof.
  induction l as [|i l IH]; [done|].
  rewrite !fmap_cons. unfold writes_of in *. csimpl. by rewrite IH.
Qed.

(** X13: a negative [pages_per_part] is not refused: [split_pdf] copies no
    page, every file it writes holds zero pages, and it reports success. *)
Theorem split_pdf_negative_pages_per_part
    input_pdf pages_per_part pages line rest w :
  let output_dir := split_dir input_pdf line in
  let base_name := split_base input_pdf in
  let num_parts :=
    (Z.of_nat (length pages) + pages_per_part - 1) / pages_per_part in
  w_files w !! input_pdf = Some (Pdf pages) →
  pages_per_part < 0 →
  w_stdin w = line :: rest →
  output_dir ≠ EmptyString → w_files w !! output_dir = None →
  output_dir ∉ w_locked w →
  (∀ i, 0 ≤ i < num_parts → part_path output_dir base_name i ∉ w_locked w) →
  let result := split_pdf input_pdf pages_per_part w in
  result.1 = Ok tt
  ∧ ∃ evs, w_trace result.2 = w_trace w ++ evs
      ∧ writes_of evs
        = (λ i, (part_path output_dir base_name i, [])) <$> py_range 0 num_parts
      ∧ messages_of evs
        = [MsgSplit num_parts; MsgSavedIn output_dir; MsgNaming base_name].
Proof.
  intros output_dir base_name num_parts
    Hfile Hppp Hstdin Hne Hnofile Hfree Hparts result.
  assert (split_pdf input_pdf pages_per_part w
          = (Ok tt,
             after [EPrint (MsgSplit num_parts); EPrint (MsgSavedIn output_dir);
                    EPrint (MsgNaming base_name)]
               (foldl (empty_step output_dir base_name)
                  (after [EMakedirs output_dir;
                          EBar (Z.of_nat (length pages)) "Splitting PDF"]
                     (answered split_prompt rest w))
                  (py_range 0 num_parts)))) as Hrun.
  { unfold split_pdf. apply try_ok.
    eapply bind_ok; [by apply PdfReader_run|].
    cbv zeta.
    eapply bind_ok; [unfold lift; rewrite floordiv_run by lia; reflexivity|].
    eapply bind_ok; [by apply input_run|].
    fold (split_dir input_pdf line). fold output_dir.
    eapply bind_ok; [by apply os_makedirs_run|].
    eapply bind_ok; [apply tqdm_run|].
    rewrite after_after.
    eapply bind_ok.
    { apply write_part_loop_negative; [done..|].
      unfold py_range. apply Forall_seqZ. intros i Hi. split; [lia|].
      apply Hparts. unfold num_parts. lia. }
    eapply bind_ok; [apply print_run|].
    eapply bind_ok; [apply print_run|].
    rewrite print_run, !after_after. reflexivity. }
  unfold result. rewrite Hrun. split; [done|].
  eexists. split.
  { simpl. rewrite empty_step_trace. simpl.
    rewrite <- !app_assoc. reflexivity. }
  match goal with
  | |- context [writes_of ([?a] ++ [?b; ?c] ++ ?parts ++ ?tail)] =>
      change ([a] ++ [b; c] ++ parts ++ tail)
        with ([a; b; c] ++ parts ++ tail)
  end.
  rewrite !writes_of_app, !messages_of_app, writes_of_empty_parts.
  split; [simpl; by rewrite app_nil_r|].
  assert (∀ l : list Z,
            messages_of ((λ i, EWrite (part_path output_dir base_name i) [])
                         <$> l) = []) as ->.
  { induction l as [|i l IH]; [done|]. apply IH. }
  done.
Qed.

Lemma rpartition_free c s :
  free_of c s = true → PyStr.rpartition c s = None.
Proof.
  induction s as [|d s IH]; simpl; [done|].
  intros [Hd Hs]%andb_true_iff. apply negb_true_iff in Hd.
  by rewrite IH, Hd.
Qed.

(** X14: "leave empty for same directory" fails for a source given
    without a directory part: the directory is then the empty path, which
    [os.makedirs] refuses; after the prompt a [FileNotFoundError] is
    reported and nothing is written. *)
Theorem split_pdf_same_directory_of_bare_name
    input_pdf pages_per_part pages line rest w :
  w_files w !! input_pdf = Some (Pdf pages) →
  pages_per_part ≠ 0 →
  free_of "/" input_pdf = true →
  w_stdin w = line :: rest →
  PyStr.all_chars PyStr.isspace line = true →
  split_pdf input_pdf pages_per_part w
  = (Ok tt,
     after [EPrint (MsgError (mkExn FileNotFoundError EmptyString))]
       (answered split_prompt rest w)).
Proof.
  intros Hfile Hppp Hbare Hstdin Hblank.
  unfold split_pdf. eapply try_raise.
  - eapply bind_ok; [by apply PdfReader_run|].
    cbv zeta.
    eapply bind_ok; [unfold lift; rewrite floordiv_run by lia; reflexivity|].
    eapply bind_ok; [by apply input_run|].
    unfold PyStr.strip. rewrite lstrip_blank by done. simpl PyStr.rstrip.
    rewrite bool_decide_eq_true_2 by done.
    unfold OsPath.dirname. rewrite rpartition_free by done.
    by apply bind_raise.
  - by rewrite handle_Exception.
Qed.

(** ** [compress_pdf]: what it reports *)

(** [os.path.getsize] of a file. *)
Definition file_size (f : File) : N :=
  match f with
  | Pdf pages => Npos (pdf_size pages)
  | Blob size => size
  end.

(** The last message of [compress_pdf] once the backend has run and left
    the files [files]. *)
Definition compress_report (files : gmap string File)
    (input_pdf output_pdf : string) : Message :=
  match files !! output_pdf with
  | None =>
      MsgExn (mkExn FileNotFoundError "Error: Output file was not created")
  | Some out =>
      match files !! input_pdf with
      | None => MsgExn (mkExn FileNotFoundError input_pdf)
      | Some inp =>
          if (file_size inp =? 0)%N
          then MsgUnexpected (mkExn ZeroDivisionError "float division by zero")
          else MsgCompressed (file_size inp) (file_size out)
      end
  end.

(** The last message of [compress_pdf] when the backend could not be
    started: only a missing executable is printed by the handler of
    [FileNotFoundError]. *)
Definition start_report (failure : StartFailure) : Message :=
  match failure with
  | NoSuchFile => MsgExn (mkExn FileNotFoundError "gs")
  | NotExecutable => MsgUnexpected (mkExn PermissionError "gs")
  | OtherOSError => MsgUnexpected (mkExn OSError "gs")
  end.

(** The world [compress_pdf] leaves. *)
Definition compress_outcome (input_pdf output_pdf : string) (power : Z)
    (w : World) : World :=
  let level := if valid_level power then power else 3 in
  let warning := if valid_level power then [] else [EPrint MsgInvalidLevel] in
  let cmd := command_line_spec level input_pdf output_pdf in
  match w_files w !! input_pdf with
  | None =>
      after (warning
             ++ [EPrint (MsgExn (mkExn FileNotFoundError input_pdf))]) w
  | Some _ =>
      match gs cmd (w_files w) with
      | None =>
          after (warning
                 ++ [EPrint MsgCompressing; EPopen cmd;
                     EPrint (start_report (gs_failure cmd))]) w
      | Some files =>
          mkWorld files (w_locked w) (w_stdin w)
            (w_trace w ++ warning
             ++ [EPrint MsgCompressing; EPopen cmd;
                 EPrint (compress_report files input_pdf output_pdf)])
      end
  end.

Lemma os_path_getsize_run path f w :
  w_files w !! path = Some f →
  os_path_getsize path w = (Ok (file_size f), w).
Proof. intros H. unfold os_path_getsize. rewrite H. by destruct f. Qed.

Lemma handle_compress_not_found (e : Exn) w :
  exn_class e = FileNotFoundError →
  handle
    [ (CalledProcessError, λ e, print (MsgCompressionFailed e));
      (FileNotFoundError, λ e, print (MsgExn e));
      (Exception, λ e, print (MsgUnexpected e)) ] e w
  = (Ok tt, after [EPrint (MsgExn e)] w).
Proof. intros He. simpl. unfold isinstance. by rewrite He. Qed.

Lemma handle_compress_unexpected (e : Exn) w :
  isinstance e CalledProcessError = false →
  isinstance e FileNotFoundError = false →
  isinstance e Exception = true →
  handle
    [ (CalledProcessError, λ e, print (MsgCompressionFailed e));
      (FileNotFoundError, λ e, print (MsgExn e));
      (Exception, λ e, print (MsgUnexpected e)) ] e w
  = (Ok tt, after [EPrint (MsgUnexpected e)] w).
Proof. intros H1 H2 H3. simpl. by rewrite H1, H2, H3. Qed.

Lemma compress_pdf_run input_pdf output_pdf power w :
  compress_pdf input_pdf output_pdf power w
  = (Ok tt, compress_outcome input_pdf output_pdf power w).
Proof.
  unfold compress_pdf, compress_outcome.
  set (level := if valid_level power then power else 3).
  set (warning := if valid_level power then [] else [EPrint MsgInvalidLevel]).
  eapply bind_ok; [apply compress_level_run|]. fold level warning.
  eapply bind_ok.
  { unfold lift. rewrite dict_getitem_quality by apply valid_level_fallback.
    reflexivity. }
  rewrite gs_cmd_spec.
  set (cmd := command_line_spec level input_pdf output_pdf).
  destruct (w_files w !! input_pdf) as [f|] eqn:Hfile.
  - destruct (gs cmd (w_files w)) as [files|] eqn:Hgs.
    + set (w2 := mkWorld files (w_locked w) (w_stdin w)
                   (w_trace w ++ warning ++ [EPrint MsgCompressing; EPopen cmd])).
      assert (Popen_wait cmd (after [EPrint MsgCompressing] (after warning w))
              = (Ok tt, w2)) as Hpopen.
      { unfold Popen_wait. simpl. rewrite Hgs. unfold w2.
        by rewrite <- !app_assoc. }
      unfold compress_report.
      destruct (files !! output_pdf) as [out|] eqn:Hout.
      * destruct (files !! input_pdf) as [inp|] eqn:Hinp.
        -- destruct (file_size inp =? 0)%N eqn:Hsize.
           ++ eapply try_raise.
              { eapply bind_ok; [apply os_path_exists_run|].
                simpl w_files. rewrite Hfile, bool_decide_eq_true_2 by done.
                eapply bind_ok; [reflexivity|].
                eapply bind_ok; [apply print_run|].
                eapply bind_ok; [exact Hpopen|].
                eapply bind_ok; [apply os_path_exists_run|].
                change (w_files w2) with files. rewrite Hout, bool_decide_eq_true_2 by done.
                eapply bind_ok; [by apply os_path_getsize_run|].
                eapply bind_ok; [by apply os_path_getsize_run|].
                rewrite Hsize. by apply bind_raise. }
              simpl. rewrite print_run. unfold w2, after. simpl.
              by rewrite <- !app_assoc.
           ++ apply try_ok.
              eapply bind_ok; [apply os_path_exists_run|].
              simpl w_files. rewrite Hfile, bool_decide_eq_true_2 by done.
              eapply bind_ok; [reflexivity|].
              eapply bind_ok; [apply print_run|].
              eapply bind_ok; [exact Hpopen|].
              eapply bind_ok; [apply os_path_exists_run|].
              change (w_files w2) with files. rewrite Hout, bool_decide_eq_true_2 by done.
              eapply bind_ok; [by apply os_path_getsize_run|].
              eapply bind_ok; [by apply os_path_getsize_run|].
              rewrite Hsize.
              eapply bind_ok; [reflexivity|].
              rewrite print_run. unfold w2, after. simpl.
              by rewrite <- !app_assoc.
        -- eapply try_raise.
           { eapply bind_ok; [apply os_path_exists_run|].
             simpl w_files. rewrite Hfile, bool_decide_eq_true_2 by done.
             eapply bind_ok; [reflexivity|].
             eapply bind_ok; [apply print_run|].
             eapply bind_ok; [exact Hpopen|].
             eapply bind_ok; [apply os_path_exists_run|].
             change (w_files w2) with files. rewrite Hout, bool_decide_eq_true_2 by done.
             apply bind_raise. unfold os_path_getsize. simpl.
             by rewrite Hinp. }
           rewrite handle_compress_not_found by done.
           unfold w2, after. simpl. by rewrite <- !app_assoc.
      * eapply try_raise.
        { eapply bind_ok; [apply os_path_exists_run|].
          simpl w_files. rewrite Hfile, bool_decide_eq_true_2 by done.
          eapply bind_ok; [reflexivity|].
          eapply bind_ok; [apply print_run|].
          eapply bind_ok; [exact Hpopen|].
          eapply bind_ok; [apply os_path_exists_run|].
          change (w_files w2) with files.
          rewrite Hout, bool_decide_eq_false_2 by (by intros [? ?]).
          reflexivity. }
        rewrite handle_compress_not_found by done.
        unfold w2, after. simpl. by rewrite <- !app_assoc.
    + eapply try_raise.
      { eapply bind_ok; [apply os_path_exists_run|].
        simpl w_files. rewrite Hfile, bool_decide_eq_true_2 by done.
        eapply bind_ok; [reflexivity|].
        eapply bind_ok; [apply print_run|].
        apply bind_raise. unfold Popen_wait. simpl. rewrite Hgs.
        reflexivity. }
      unfold start_report.
      destruct (gs_failure cmd); simpl start_error;
        [rewrite handle_compress_not_found by done
        |rewrite handle_compress_unexpected by done..];
        unfold after, emit; simpl; by rewrite <- !app_assoc.
  - eapply try_raise.
    { eapply bind_ok; [apply os_path_exists_run|].
      simpl w_files.
      rewrite Hfile, bool_decide_eq_false_2 by (by intros [? ?]).
      apply bind_raise. reflexivity. }
    rewrite handle_compress_not_found by done.
    by rewrite after_after.
Qed.

(** X15: when the input file does not exist, [compress_pdf] does not start
    the external tool: it prints the [FileNotFoundError] (after the warning
    for an invalid level, if any) and changes no file. *)
Theorem compress_pdf_missing_input input_pdf output_pdf power w :
  w_files w !! input_pdf = None →
  compress_pdf input_pdf output_pdf power w
  = (Ok tt,
     after ((if valid_level power then [] else [EPrint MsgInvalidLevel])
            ++ [EPrint (MsgExn (mkExn FileNotFoundError input_pdf))]) w).
Proof.
  intros Hfile. rewrite compress_pdf_run. unfold compress_outcome.
  by rewrite Hfile.
Qed.

(** X16: [compress_pdf] judges the run by the output file alone: whatever
    the external tool did and however it ended, if the output path exists
    afterwards and the input still has a size that is not zero, success is
    reported with the two sizes; an output file left from an earlier run
    is enough. *)
Theorem compress_pdf_success_by_output
    input_pdf output_pdf power w f files inp out :
  w_files w !! input_pdf = Some f →
  gs (command_line_spec (if valid_level power then power else 3)
        input_pdf output_pdf) (w_files w) = Some files →
  files !! input_pdf = Some inp → file_size inp ≠ 0%N →
  files !! output_pdf = Some out →
  let result := compress_pdf input_pdf output_pdf power w in
  result.1 = Ok tt
  ∧ w_files result.2 = files
  ∧ last (w_trace result.2)
    = Some (EPrint (MsgCompressed (file_size inp) (file_size out))).
Proof.
  intros Hfile Hgs Hinp Hsize Hout result. unfold result.
  rewrite compress_pdf_run. unfold compress_outcome, compress_report.
  rewrite Hfile, Hgs, Hout, Hinp.
  apply N.eqb_neq in Hsize. rewrite Hsize. simpl.
  split; [done|]. split; [done|].
  rewrite !app_assoc.
  change [EPrint MsgCompressing; EPopen ?c; ?m]
    with ([EPrint MsgCompressing; EPopen c] ++ [m]).
  by rewrite app_assoc, last_snoc.
Qed.

(** X17: for an input file of zero bytes, [compress_pdf] divides by zero
    when it computes the reduction: although the external tool ran and the
    output file exists, it reports an unexpected error. *)
Theorem compress_pdf_empty_input
    input_pdf output_pdf power w f files inp out :
  w_files w !! input_pdf = Some f →
  gs (command_line_spec (if valid_level power then power else 3)
        input_pdf output_pdf) (w_files w) = Some files →
  files !! input_pdf = Some inp → file_size inp = 0%N →
  files !! output_pdf = Some out →
  let result := compress_pdf input_pdf output_pdf power w in
  result.1 = Ok tt
  ∧ w_files result.2 !! output_pdf = Some out
  ∧ last (w_trace result.2)
    = Some (EPrint (MsgUnexpected
                      (mkExn ZeroDivisionError "float division by zero"))).
Proof.
  intros Hfile Hgs Hinp Hsize Hout result. unfold result.
  rewrite compress_pdf_run. unfold compress_outcome, compress_report.
  rewrite Hfile, Hgs, Hout, Hinp, Hsize. simpl.
  split; [done|]. split; [done|].
  rewrite !app_assoc.
  change [EPrint MsgCompressing; EPopen ?c; ?m]
    with ([EPrint MsgCompressing; EPopen c] ++ [m]).
  by rewrite app_assoc, last_snoc.
Qed.

(** X18: the handler of [subprocess.CalledProcessError] is never entered:
    in no world, for no argument and whatever keeps the tool from
    starting, does [compress_pdf] print the message "Compression
    failed". *)
Theorem compress_pdf_never_compression_failed
    input_pdf output_pdf power w :
  ∃ evs,
    w_trace (compress_pdf input_pdf output_pdf power w).2 = w_trace w ++ evs
    ∧ ∀ e, MsgCompressionFailed e ∉ messages_of evs.
Proof.
  rewrite compress_pdf_run. unfold compress_outcome.
  set (warning := if valid_level power then [] else [EPrint MsgInvalidLevel]).
  assert (∀ e, MsgCompressionFailed e ∉ messages_of warning) as Hwarning.
  { intros e. unfold warning.
    destruct (valid_level power); simpl; [apply not_elem_of_nil|].
    intros Hin. apply list_elem_of_singleton in Hin. done. }
  destruct (w_files w !! input_pdf) as [f|].
  - destruct (gs _ (w_files w)) as [files|].
    + eexists. split; [reflexivity|]. intros e.
      rewrite messages_of_app. intros [Hin|Hin]%elem_of_app;
        [by apply (Hwarning e)|].
      simpl in Hin. apply elem_of_cons in Hin as [Hin|Hin]; [done|].
      apply list_elem_of_singleton in Hin. unfold compress_report in Hin.
      destruct (files !! output_pdf); [|done].
      destruct (files !! input_pdf); [|done].
      by destruct (file_size _ =? 0)%N.
    + eexists. split; [reflexivity|]. intros e.
      rewrite messages_of_app. intros [Hin|Hin]%elem_of_app;
        [by apply (Hwarning e)|].
      simpl in Hin. apply elem_of_cons in Hin as [Hin|Hin]; [done|].
      apply list_elem_of_singleton in Hin.
      by destruct (gs_failure _).
  - eexists. split; [reflexivity|]. intros e.
    rewrite messages_of_app. intros [Hin|Hin]%elem_of_app;
      [by apply (Hwarning e)|].
    simpl in Hin. by apply list_elem_of_singleton in Hin.
Qed.

(** X26: when the input exists and the tool cannot be started,
    [compress_pdf] changes no file and ends on the report of the start
    failure: a missing executable is printed by the handler of
    [FileNotFoundError], like a missing input; an executable that may not
    be run, or any other [OSError], is printed as "Unexpected error". *)
Theorem compress_pdf_tool_not_started input_pdf output_pdf power w f :
  let level := if valid_level power then power else 3 in
  let cmd := command_line_spec level input_pdf output_pdf in
  w_files w !! input_pdf = Some f →
  gs cmd (w_files w) = None →
  compress_pdf input_pdf output_pdf power w
  = (Ok tt,
     after ((if valid_level power then [] else [EPrint MsgInvalidLevel])
            ++ [EPrint MsgCompressing; EPopen cmd;
                EPrint (match gs_failure cmd with
                        | NoSuchFile =>
                            MsgExn (mkExn FileNotFoundError "gs")
                        | NotExecutable =>
                            MsgUnexpected (mkExn PermissionError "gs")
                        | OtherOSError =>
                            MsgUnexpected (mkExn OSError "gs")
                        end)]) w).
Proof.
  intros level cmd Hfile Hgs. rewrite compress_pdf_run.
  unfold compress_outcome. fold level. fold cmd.
  by rewrite Hfile, Hgs.
Qed.

(** ** [merge_pdfs]: progress *)

(** The totals of the progress bars opened, and the progress made. *)
Definition bars_of (trace : list Event) : list Z :=
  omap (λ ev, match ev with EBar total _ => Some total | _ => None end) trace.

Definition progress_of (trace : list Event) : Z :=
  foldr (λ ev acc, match ev with EUpdate n => n + acc | _ => acc end) 0 trace.

Lemma bars_of_app evs1 evs2 : bars_of (evs1 ++ evs2) = bars_of evs1 ++ bars_of evs2.
Proof. apply omap_app. Qed.

Lemma progress_of_app evs1 evs2 :
  progress_of (evs1 ++ evs2) = progress_of evs1 + progress_of evs2.
Proof.
  induction evs1 as [|ev evs1 IH]; [done|].
  simpl. destruct ev; rewrite ?IH; lia.
Qed.

Lemma bars_of_ticks n : bars_of (ticks n) = [].
Proof. induction n as [|n IH]; [done|]. apply IH. Qed.

Lemma progress_of_ticks n : progress_of (ticks n) = Z.of_nat n.
Proof.
  unfold ticks. induction n as [|n IH]; [done|].
  change (progress_of (replicate (S n) (EUpdate 1)))
    with (1 + progress_of (replicate n (EUpdate 1))).
  rewrite IH. lia.
Qed.

Lemma merge_events_progress files inputs :
  bars_of (merge_events files inputs) = []
  ∧ progress_of (merge_events files inputs)
    = Z.of_nat (length (merge_spec files inputs))
  ∧ merge_total files inputs = Z.of_nat (length (merge_spec files inputs)).
Proof.
  induction inputs as [|file inputs (IH1 & IH2 & IH3)]; [done|].
  unfold merge_events, merge_spec. rewrite !bind_cons.
  fold (merge_events files inputs). fold (merge_spec files inputs).
  rewrite bars_of_app, progress_of_app, length_app, IH1, IH2.
  simpl merge_total. rewrite IH3.
  destruct (files !! file) as [[pages|size]|];
    rewrite ?bars_of_ticks, ?progress_of_ticks; simpl; repeat split; lia.
Qed.

(** X20: the two passes of [merge_pdfs] agree: the total it gives the
    progress bar, counted in the first pass, is the number of pages the
    second pass appends, and the bar is advanced once for each of them. *)
Theorem merge_pdfs_progress input_files output_pdf w :
  all_pdf (w_files w) input_files →
  output_pdf ≠ EmptyString → output_pdf ∉ w_locked w →
  ∃ evs written_pages,
    w_trace (merge_pdfs input_files output_pdf w).2 = w_trace w ++ evs
    ∧ writes_of evs = [(output_pdf, written_pages)]
    ∧ bars_of evs = [Z.of_nat (length written_pages)]
    ∧ progress_of evs = Z.of_nat (length written_pages).
Proof.
  intros Hpdf Hne Hfree. rewrite merge_pdfs_run by done.
  destruct (merge_events_progress (w_files w) input_files)
    as (Hbars & Hprogress & Htotal).
  exists ([EBar (merge_total (w_files w) input_files) "Merging PDFs"]
          ++ merge_events (w_files w) input_files
          ++ [EWrite output_pdf (merge_spec (w_files w) input_files)]
          ++ [EPrint (MsgMerged output_pdf)]),
    (merge_spec (w_files w) input_files).
  split.
  { simpl. rewrite <- !app_assoc. reflexivity. }
  rewrite !writes_of_app, !bars_of_app, !progress_of_app.
  rewrite writes_of_merge_events, Hbars, Hprogress, Htotal. simpl.
  repeat split; lia.
Qed.

(** ** The forms of [components/pdf_controls.py] *)

(** The text of a snack bar: a literal, or [f"Error: {ex}"]. *)
Inductive SnackText :=
  | Text (text : string)
  | ErrorText (ex : Exn).

(** [ft.SnackBar(ft.Text(text), duration=...)] and its [open] flag. *)
Record SnackBar := mkSnackBar {
  snack_content : SnackText;
  snack_duration : Z;
  snack_open : bool
}.

(** The application: the world the operations act on, the snack bar of
    the page and the number of calls of [page.update()]. *)
Record App := mkApp {
  app_world : World;
  snack_bar : option SnackBar;
  page_updates : nat
}.

Definition UI (A : Type) : Type := App → outcome A * App.

Definition ui_bind {A B} (m : UI A) (f : A → UI B) : UI B := λ app,
  match m app with
  | (Ok a, app') => f a app'
  | (Raise e, app') => (Raise e, app')
  end.

Definition ui_lift {A} (r : outcome A) : UI A := λ app, (r, app).

(** An operation of [utils/pdf_operations.py] called from a handler. *)
Definition in_world {A} (m : M A) : UI A := λ app,
  let '(r, w) := m (app_world app) in
  (r, mkApp w (snack_bar app) (page_updates app)).

(** [try: body except Exception as ex: handler] *)
Definition ui_try (body : UI unit) (handler : Exn → UI unit) : UI unit :=
  λ app,
  match body app with
  | (Ok a, app') => (Ok a, app')
  | (Raise e, app') =>
      if isinstance e Exception then handler e app' else (Raise e, app')
  end.

Definition show_snack (text : SnackText) : UI unit := λ app,
  (Ok tt, mkApp (app_world app) (Some (mkSnackBar text 3000 true))
                (S (page_updates app))).

Definition handle_extract (input_pdf output_pdf page_ranges : string)
    : UI unit :=
  ui_try
    (ui_bind
       (in_world (extract_pages input_pdf output_pdf
                    (parse_page_ranges page_ranges)))
       (λ _, show_snack (Text "Pages extracted successfully!")))
    (λ ex, show_snack (ErrorText ex)).

Definition handle_merge (input_files : list string) (output_pdf : string)
    : UI unit :=
  ui_try
    (ui_bind (in_world (merge_pdfs input_files output_pdf))
       (λ _, show_snack (Text "Files merged successfully!")))
    (λ ex, show_snack (ErrorText ex)).

Definition handle_split (input_pdf : string) (pages_per_part : Z)
    : UI unit :=
  ui_try
    (ui_bind (in_world (split_pdf input_pdf pages_per_part))
       (λ _, show_snack (Text "PDF split successfully!")))
    (λ ex, show_snack (ErrorText ex)).

Definition handle_delete (input_pdf output_pdf page_ranges : string)
    : UI unit :=
  ui_try
    (ui_bind
       (in_world (delete_pages input_pdf output_pdf
                    (parse_page_ranges page_ranges)))
       (λ _, show_snack (Text "Pages deleted successfully!")))
    (λ ex, show_snack (ErrorText ex)).

Definition handle_compress (input_pdf output_pdf : string) (power : Z)
    : UI unit :=
  ui_try
    (ui_bind (in_world (compress_pdf input_pdf output_pdf power))
       (λ _, show_snack (Text "PDF compressed successfully!")))
    (λ ex, show_snack (ErrorText ex)).

(** The [on_click] functions of the five submit buttons, applied to the
    values of the text fields. *)
Definition extract_on_click (input_pdf_value output_pdf_value
    page_ranges_value : string) : UI unit :=
  handle_extract input_pdf_value output_pdf_value page_ranges_value.

Definition merge_on_click (input_files_value output_pdf_value : string)
    : UI unit :=
  handle_merge (PyStr.split "," input_files_value) output_pdf_value.

Definition split_on_click (input_pdf_value pages_per_part_value : string)
    : UI unit :=
  ui_bind (ui_lift (py_int int_max_str_digits pages_per_part_value))
    (λ pages_per_part, handle_split input_pdf_value pages_per_part).

Definition delete_on_click (input_pdf_value output_pdf_value
    page_ranges_value : string) : UI unit :=
  handle_delete input_pdf_value output_pdf_value page_ranges_value.

Definition compress_on_click (input_pdf_value output_pdf_value
    compression_level_value : string) : UI unit :=
  ui_bind (ui_lift (py_int int_max_str_digits compression_level_value))
    (λ power, handle_compress input_pdf_value output_pdf_value power).

(** The application after [operation] has run and the snack bar shows
    [text]. *)
Definition shown (text : string) (operation : M unit) (app : App) : App :=
  mkApp (operation (app_world app)).2
        (Some (mkSnackBar (Text text) 3000 true))
        (S (page_updates app)).

(** A handler that shows [text] whatever [operation] did. *)
Definition always_shows (text : string) (operation : M unit)
    (handler : UI unit) : Prop :=
  ∀ app, handler app = (Ok tt, shown text operation app).

(** The last message printed. *)
Definition last_message (w : World) : option Message :=
  last (messages_of (w_trace w)).

Lemma reports_always_shows text (operation : M unit) :
  reports operation →
  always_shows text operation
    (ui_try (ui_bind (in_world operation) (λ _, show_snack (Text text)))
            (λ ex, show_snack (ErrorText ex))).
Proof.
  intros Hreports app. destruct (Hreports (app_world app)) as [Hok _].
  unfold ui_try, ui_bind, in_world, shown.
  destruct (operation (app_world app)) as [r w]. simpl in Hok. by subst r.
Qed.

(** X22: the handlers of the five forms show their success text after
    every run of the operation, failed or not: the operations catch and
    print their own errors and return normally, so no handler ever
    reaches its [except] branch. *)
Theorem handlers_always_show_success input_pdf output_pdf page_ranges
    input_files pages_per_part power :
  always_shows "Pages extracted successfully!"
    (extract_pages input_pdf output_pdf (parse_page_ranges page_ranges))
    (handle_extract input_pdf output_pdf page_ranges)
  ∧ always_shows "Files merged successfully!"
      (merge_pdfs input_files output_pdf)
      (handle_merge input_files output_pdf)
  ∧ always_shows "PDF split successfully!"
      (split_pdf input_pdf pages_per_part)
      (handle_split input_pdf pages_per_part)
  ∧ always_shows "Pages deleted successfully!"
      (delete_pages input_pdf output_pdf (parse_page_ranges page_ranges))
      (handle_delete input_pdf output_pdf page_ranges)
  ∧ always_shows "PDF compressed successfully!"
      (compress_pdf input_pdf output_pdf power)
      (handle_compress input_pdf output_pdf power).
Proof.
  repeat split; apply reports_always_shows.
  - apply extract_pages_reports.
  - apply merge_pdfs_reports.
  - apply split_pdf_reports.
  - apply delete_pages_reports.
  - apply compress_pdf_reports.
Qed.

Lemma PdfReader_missing path w :
  w_files w !! path = None →
  PdfReader path w = (Raise (mkExn FileNotFoundError path), w).
Proof. intros H. unfold PdfReader. by rewrite H. Qed.

Lemma missing_input_run {A} input_pdf (rest : list Page → M A) handler w :
  w_files w !! input_pdf = None →
  try_except (PdfReader input_pdf ≫= rest)
             [(Exception, λ e, handler e)] w
  = handler (mkExn FileNotFoundError input_pdf) w.
Proof.
  intros Hnone. eapply try_raise.
  - apply bind_raise. by apply PdfReader_missing.
  - by rewrite handle_Exception.
Qed.

Lemma last_message_print msg w :
  last_message (after [EPrint msg] w) = Some msg.
Proof.
  unfold last_message. simpl. rewrite messages_of_app. simpl.
  apply last_snoc.
Qed.

(** X23: a missing input file, through the forms: [handle_extract],
    [handle_delete] and [handle_split] leave every file as it was, the
    last message printed is the "Error: ..." of the [FileNotFoundError],
    and the snack bar still shows the success text. *)
Theorem handlers_missing_input input_pdf output_pdf page_ranges
    pages_per_part app :
  w_files (app_world app) !! input_pdf = None →
  let failed result text :=
    w_files (app_world result.2) = w_files (app_world app)
    ∧ last_message (app_world result.2)
      = Some (MsgError (mkExn FileNotFoundError input_pdf))
    ∧ snack_bar result.2 = Some (mkSnackBar (Text text) 3000 true) in
  failed (handle_extract input_pdf output_pdf page_ranges app)
         "Pages extracted successfully!"
  ∧ failed (handle_delete input_pdf output_pdf page_ranges app)
           "Pages deleted successfully!"
  ∧ failed (handle_split input_pdf pages_per_part app)
           "PDF split successfully!".
Proof.
  intros Hnone failed. unfold failed.
  unfold handle_extract, handle_delete, handle_split,
    ui_try, ui_bind, in_world.
  unfold extract_pages, delete_pages, split_pdf.
  rewrite !missing_input_run by done.
  rewrite print_run. simpl.
  by rewrite last_message_print.
Qed.

(** X24: the number fields are converted outside the handlers: when the
    text of the field is not an integer, the click on "Split" or on
    "Compress" raises the [ValueError] of [int], shows no snack bar and
    runs no operation. *)
Theorem number_fields_unguarded input_pdf_value output_pdf_value value e
    app :
  py_int int_max_str_digits value = Raise e →
  split_on_click input_pdf_value value app
  = (Raise (mkExn ValueError value), app)
  ∧ compress_on_click input_pdf_value output_pdf_value value app
    = (Raise (mkExn ValueError value), app).
Proof.
  intros Hint. pose proof (py_int_raise _ _ _ Hint) as ->.
  unfold split_on_click, compress_on_click, ui_bind, ui_lift.
  by rewrite Hint.
Qed.

(** X25: the "Merge" form takes the file names as typed between the
    commas, blanks included: for names without a comma that are PDFs
    where they exist, and an output that can be written, the click
    writes to the output the pages of the files so named, in order, and
    shows the success text. *)
Theorem merge_on_click_merges name names output_pdf app :
  Forall (λ file, free_of "," file = true) (name :: names) →
  all_pdf (w_files (app_world app)) (name :: names) →
  output_pdf ≠ EmptyString → output_pdf ∉ w_locked (app_world app) →
  let result :=
    merge_on_click (String.concat "," (name :: names)) output_pdf app in
  result.1 = Ok tt
  ∧ w_files (app_world result.2)
    = <[output_pdf := Pdf (merge_spec (w_files (app_world app))
                                      (name :: names))]>
        (w_files (app_world app))
  ∧ snack_bar result.2
    = Some (mkSnackBar (Text "Files merged successfully!") 3000 true).
Proof.
  intros Hfree Hpdf Hne Hfree_out result. unfold result, merge_on_click.
  rewrite split_concat by done.
  unfold handle_merge, ui_try, ui_bind, in_world.
  by rewrite merge_pdfs_run.
Qed.

End Toolkit.

(** * Concrete runs

    Pages are named by their 1-indexed number in their document. *)

Definition sample_files : gmap string (@File nat) :=
  {[ "/docs/a.pdf" := Pdf [1; 2; 3]%nat;
     "/docs/b.pdf" := Pdf [4; 5]%nat;
     "/docs/ten.pdf" := Pdf [1; 2; 3; 4; 5; 6; 7; 8; 9; 10]%nat;
     "/docs/empty.pdf" := Pdf [];
     "/docs/notes.txt" := Blob 12 ]}.

Definition sample_world : @World nat :=
  mkWorld sample_files ∅ ["/out"] [].

(** The output an operation left at [path], and the messages it printed. *)
Definition output_at (path : string) (result : outcome unit * @World nat)
    : option (@File nat) :=
  w_files result.2 !! path.

Definition printed (result : outcome unit * @World nat)
    : list (@Message) :=
  messages_of (w_trace result.2).

Example py_int_examples :
  py_int 4300 " +1_000 " = Ok 1000 ∧ py_int 4300 "12" = Ok 12 ∧
  py_int 4300 "1__0" = Raise (mkExn ValueError "1__0") ∧
  py_int 4300 "" = Raise (mkExn ValueError "") ∧
  py_int 4300 "3x" = Raise (mkExn ValueError "3x") ∧
  py_int 4300 "-7" = Ok (-7) ∧
  py_int 2 "123" = Raise (mkExn ValueError "123") ∧
  py_int 0 "123" = Ok 123.
Proof. repeat split. Qed.

Example range_of_token_examples :
  range_of_token 4300 "1-5" = Ok (1, 5) ∧
  range_of_token 4300 " 2 - 3 " = Ok (2, 3) ∧
  range_of_token 4300 "5" = Raise (mkExn ValueError "not enough values to unpack") ∧
  range_of_token 4300 "1-2-3" = Raise (mkExn ValueError "too many values to unpack") ∧
  range_of_token 4300 "-1-5" = Raise (mkExn ValueError "") ∧
  range_of_token 4300 "a-b" = Raise (mkExn ValueError "a").
Proof. repeat split. Qed.

Example os_path_examples :
  OsPath.basename "/tmp/in/doc.pdf" = "doc.pdf" ∧
  OsPath.dirname "/tmp/in/doc.pdf" = "/tmp/in" ∧
  OsPath.dirname "doc.pdf" = "" ∧
  OsPath.dirname "/doc.pdf" = "/" ∧
  OsPath.splitext "doc.v2.pdf" = ("doc.v2", ".pdf") ∧
  OsPath.splitext ".hidden" = (".hidden", "") ∧
  OsPath.join "/out" "a.pdf" = "/out/a.pdf" ∧
  PyStr.of_Z 12 = "12" ∧
  parse_page_ranges "1-5, 8-10" = ["1-5"; "8-10"] ∧
  parse_page_ranges "" = [""].
Proof. repeat split. Qed.

Example issubclass_examples :
  issubclass FileNotFoundError Exception = true ∧
  issubclass FileNotFoundError OSError = true ∧
  issubclass ValueError OSError = false ∧
  issubclass KeyboardInterrupt Exception = false.
Proof. repeat split. Qed.

(** Deleting "3-5" from a document of ten pages leaves pages 1, 2, 6, 7, 8,
    9, 10. *)
Example delete_pages_3_to_5 :
  output_at "/docs/out.pdf"
    (delete_pages 4300 "/docs/ten.pdf" "/docs/out.pdf" ["3-5"] sample_world)
  = Some (Pdf [1; 2; 6; 7; 8; 9; 10]%nat).
Proof. vm_compute. reflexivity. Qed.

(** Merging a file of three pages and a file of two. *)
Example merge_pdfs_a_b :
  output_at "/docs/out.pdf"
    (merge_pdfs ["/docs/a.pdf"; "/docs/b.pdf"] "/docs/out.pdf" sample_world)
  = Some (Pdf [1; 2; 3; 4; 5]%nat).
Proof. vm_compute. reflexivity. Qed.

(** Splitting ten pages four by four. *)
Example split_pdf_ten_by_four :
  writes_of (w_trace (split_pdf "/docs/ten.pdf" 4 sample_world).2)
  = [ ("/out/ten_part1.pdf", [1; 2; 3; 4]%nat);
      ("/out/ten_part2.pdf", [5; 6; 7; 8]%nat);
      ("/out/ten_part3.pdf", [9; 10]%nat) ].
Proof. vm_compute. reflexivity. Qed.

(** A division by zero, a missing source and a file that is no PDF are
    reported, and nothing is written. *)
Example failures_are_reported :
  printed (split_pdf "/docs/ten.pdf" 0 sample_world)
  = [MsgError (mkExn ZeroDivisionError "integer division or modulo by zero")]
  ∧ printed (extract_pages 4300 "/docs/none.pdf" "/docs/out.pdf" ["1-2"]
               sample_world)
    = [MsgError (mkExn FileNotFoundError "/docs/none.pdf")]
  ∧ printed (merge_pdfs ["/docs/a.pdf"; "/docs/notes.txt"] "/docs/out.pdf"
               sample_world)
    = [MsgError (mkExn PdfReadError "/docs/notes.txt")]
  ∧ printed (extract_pages 4300 "/docs/empty.pdf" "/docs/out.pdf" ["0-1"]
               sample_world)
    = [MsgError (mkExn IndexError "sequence index out of range")].
Proof. vm_compute. repeat split. Qed.

(** * The claims at concrete inputs *)

(** C1 fails: on a text with a token that cannot be split into two integer
    parts, [parse_page_ranges] returns the tokens as they are; the
    [ValueError] comes from [extract_pages], which reports it. *)
Lemma parse_page_ranges_keeps_malformed_token :
  parse_page_ranges "1-2,abc" = ["1-2"; "abc"]
  ∧ (¬ two_integer_parts 4300 "abc")
  ∧ printed (extract_pages 4300 "/docs/a.pdf" "/docs/out.pdf"
               (parse_page_ranges "1-2,abc") sample_world)
    = [MsgError (mkExn ValueError "abc")].
Proof.
  split; [reflexivity|]. split; [|vm_compute; reflexivity].
  intros (a & b & x & y & Hsplit & _). vm_compute in Hsplit. discriminate.
Qed.

Lemma parse_page_ranges_defers_validation_witness :
  w_files sample_world !! "/docs/ten.pdf"
  = Some (Pdf [1; 2; 3; 4; 5; 6; 7; 8; 9; 10]%nat)
  ∧ "/docs/out.pdf" ≠ ""
  ∧ ("/docs/out.pdf" ∉ w_locked sample_world)
  ∧ Forall (two_integer_parts 4300) (parse_page_ranges "1-2, 9-10")
  ∧ ∃ rs, denote 4300 (parse_page_ranges "1-2, 9-10") rs
      ∧ output_at "/docs/out.pdf"
          (delete_pages 4300 "/docs/ten.pdf" "/docs/out.pdf"
             (parse_page_ranges "1-2, 9-10") sample_world)
        = Some (Pdf (delete_spec [1; 2; 3; 4; 5; 6; 7; 8; 9; 10]%nat rs))
      ∧ ∃ evs,
          w_trace (delete_pages 4300 "/docs/ten.pdf" "/docs/out.pdf"
                     (parse_page_ranges "1-2, 9-10") sample_world).2
          = w_trace sample_world ++ evs
          ∧ writes_of evs
            = [("/docs/out.pdf",
                delete_spec [1; 2; 3; 4; 5; 6; 7; 8; 9; 10]%nat rs)]
          ∧ messages_of evs = [MsgDeleted "/docs/out.pdf"].
Proof.
  assert (w_files sample_world !! "/docs/ten.pdf"
          = Some (Pdf [1; 2; 3; 4; 5; 6; 7; 8; 9; 10]%nat)) as Hfile
    by reflexivity.
  assert ("/docs/out.pdf" ≠ "") as Hne by discriminate.
  assert ("/docs/out.pdf" ∉ w_locked sample_world) as Hfree
    by apply not_elem_of_empty.
  assert (Forall (two_integer_parts 4300) (parse_page_ranges "1-2, 9-10"))
    as Htokens.
  { repeat constructor; [by exists "1", "2", 1, 2|by exists "9", "10", 9, 10]. }
  split; [exact Hfile|]. split; [exact Hne|]. split; [exact Hfree|].
  split; [exact Htokens|].
  destruct (parse_page_ranges_defers_validation 4300 "1-2, 9-10"
              "/docs/ten.pdf" "/docs/out.pdf" _ sample_world Hfile Hne Hfree)
    as (_ & _ & Hgood).
  destruct (Hgood Htokens) as (rs & Hden & Hdeleted & _).
  cbv zeta in Hdeleted. destruct Hdeleted as (_ & Hfiles & Hshown).
  exists rs. split; [exact Hden|]. split; [|exact Hshown].
  unfold output_at. rewrite Hfiles. apply lookup_insert_eq.
Defined.

(** C2 fails at page number 0, which no document has: [range(start - 1,
    end)] begins at -1, which passes the test [page_num < len(reader.pages)]
    and, as an index, is the last page. For the range 0-1 of a document of
    three pages the claim gives page 1 alone; the code writes page 3, then
    page 1, and warns of nothing. *)
Theorem extract_pages_page_zero :
  let result :=
    extract_pages 4300 "/docs/a.pdf" "/docs/out.pdf" ["0-1"] sample_world in
  range_of_token 4300 "0-1" = Ok (0, 1)
  ∧ extract_spec [1; 2; 3]%nat [(0, 1)] = [1%nat]
  ∧ result.1 = Ok tt
  ∧ output_at "/docs/out.pdf" result = Some (Pdf [3; 1]%nat)
  ∧ printed result = [MsgExtracted "/docs/out.pdf"].
Proof. vm_compute. repeat split. Qed.

Lemma delete_pages_keeps_uncovered_witness :
  w_files sample_world !! "/docs/ten.pdf"
  = Some (Pdf [1; 2; 3; 4; 5; 6; 7; 8; 9; 10]%nat)
  ∧ denote 4300 ["3-5"] [(3, 5)]
  ∧ "/docs/out.pdf" ≠ ""
  ∧ ("/docs/out.pdf" ∉ w_locked sample_world)
  ∧ output_at "/docs/out.pdf"
      (delete_pages 4300 "/docs/ten.pdf" "/docs/out.pdf" ["3-5"] sample_world)
    = Some (Pdf [1; 2; 6; 7; 8; 9; 10]%nat).
Proof.
  assert (w_files sample_world !! "/docs/ten.pdf"
          = Some (Pdf [1; 2; 3; 4; 5; 6; 7; 8; 9; 10]%nat)) as Hfile
    by reflexivity.
  assert (denote 4300 ["3-5"] [(3, 5)]) as Hden by (repeat constructor).
  assert ("/docs/out.pdf" ≠ "") as Hne by discriminate.
  assert ("/docs/out.pdf" ∉ w_locked sample_world) as Hfree
    by apply not_elem_of_empty.
  split; [exact Hfile|]. split; [exact Hden|].
  split; [exact Hne|]. split; [exact Hfree|].
  destruct (delete_pages_keeps_uncovered 4300 "/docs/ten.pdf" "/docs/out.pdf"
              ["3-5"] [(3, 5)] _ sample_world Hfile Hden Hne Hfree)
    as (_ & Hfiles & _).
  unfold output_at. rewrite Hfiles. apply lookup_insert_eq.
Defined.

Lemma merge_pdfs_concatenates_witness :
  all_pdf (w_files sample_world) ["/docs/a.pdf"; "/docs/gone.pdf"; "/docs/b.pdf"]
  ∧ "/docs/out.pdf" ≠ ""
  ∧ ("/docs/out.pdf" ∉ w_locked sample_world)
  ∧ output_at "/docs/out.pdf"
      (merge_pdfs ["/docs/a.pdf"; "/docs/gone.pdf"; "/docs/b.pdf"]
         "/docs/out.pdf" sample_world)
    = Some (Pdf [1; 2; 3; 4; 5]%nat).
Proof.
  assert (all_pdf (w_files sample_world)
            ["/docs/a.pdf"; "/docs/gone.pdf"; "/docs/b.pdf"]) as Hpdf
    by (repeat constructor; intros size; vm_compute; discriminate).
  assert ("/docs/out.pdf" ≠ "") as Hne by discriminate.
  assert ("/docs/out.pdf" ∉ w_locked sample_world) as Hfree
    by apply not_elem_of_empty.
  split; [exact Hpdf|]. split; [exact Hne|]. split; [exact Hfree|].
  destruct (merge_pdfs_concatenates
              ["/docs/a.pdf"; "/docs/gone.pdf"; "/docs/b.pdf"]
              "/docs/out.pdf" sample_world Hpdf Hne Hfree)
    as (_ & Hfiles & _).
  unfold output_at. rewrite Hfiles. apply lookup_insert_eq.
Defined.


Lemma compress_pdf_command_line_witness :
  w_files sample_world !! "/docs/a.pdf" = Some (Pdf [1; 2; 3]%nat)
  ∧ ∃ evs,
      w_trace (compress_pdf (λ _, 1%positive) (λ _ files, Some files) (λ _, NoSuchFile)
                 "/docs/a.pdf" "/docs/small.pdf" 5 sample_world).2
      = [ EPrint MsgCompressing;
          EPopen [ "gs"; "-sDEVICE=pdfwrite"; "-dCompatibilityLevel=1.5";
                   "-dDetectDuplicateImages=true";
                   "-dColorImageResolution=150";
                   "-dGrayImageResolution=150";
                   "-dMonoImageResolution=150";
                   "-dDownsampleColorImages=true";
                   "-dDownsampleGrayImages=true";
                   "-dDownsampleMonoImages=true";
                   "-dPDFSETTINGS=/ebook"; "-dNOPAUSE"; "-dQUIET"; "-dBATCH";
                   "-dAutoRotatePages=/None";
                   "-sOutputFile=/docs/small.pdf"; "/docs/a.pdf" ] ]
        ++ evs.
Proof.
  assert (w_files sample_world !! "/docs/a.pdf" = Some (Pdf [1; 2; 3]%nat))
    as Hfile by reflexivity.
  split; [exact Hfile|].
  destruct (compress_pdf_command_line (λ _, 1%positive) (λ _ files, Some files) (λ _, NoSuchFile)
              "/docs/a.pdf" "/docs/small.pdf" 5 sample_world _ Hfile)
    as (_ & evs & Htrace).
  exists evs. exact Htrace.
Defined.

(** C8 fails for ranges that cover the document with an overlap: the
    ranges 1-2 and 2-3 cover the three pages of the source, and the output
    has four pages. *)
Lemma extract_pages_overlap_duplicates :
  denote 4300 ["1-2"; "2-3"] [(1, 2); (2, 3)]
  ∧ covers [(1, 2); (2, 3)] 3
  ∧ w_files sample_world !! "/docs/a.pdf" = Some (Pdf [1; 2; 3]%nat)
  ∧ output_at "/docs/out.pdf"
      (extract_pages 4300 "/docs/a.pdf" "/docs/out.pdf" ["1-2"; "2-3"]
         sample_world)
    = Some (Pdf [1; 2; 2; 3]%nat).
Proof.
  split; [repeat constructor|].
  split; [|split; vm_compute; reflexivity].
  intros p Hp.
  assert (p = 1 ∨ p = 2 ∨ p = 3) as [->|[->| ->]] by lia; reflexivity.
Qed.

Lemma extract_pages_round_trip_witness :
  w_files sample_world !! "/docs/ten.pdf"
  = Some (Pdf [1; 2; 3; 4; 5; 6; 7; 8; 9; 10]%nat)
  ∧ denote 4300 ["1-4"; "5-5"; "6-12"] [(1, 4); (5, 5); (6, 12)]
  ∧ tiles 1 [(1, 4); (5, 5); (6, 12)] 13
  ∧ Z.of_nat (length [1; 2; 3; 4; 5; 6; 7; 8; 9; 10]%nat) < 13
  ∧ "/docs/out.pdf" ≠ ""
  ∧ ("/docs/out.pdf" ∉ w_locked sample_world)
  ∧ output_at "/docs/out.pdf"
      (extract_pages 4300 "/docs/ten.pdf" "/docs/out.pdf"
         ["1-4"; "5-5"; "6-12"] sample_world)
    = Some (Pdf [1; 2; 3; 4; 5; 6; 7; 8; 9; 10]%nat).
Proof.
  assert (w_files sample_world !! "/docs/ten.pdf"
          = Some (Pdf [1; 2; 3; 4; 5; 6; 7; 8; 9; 10]%nat)) as Hfile
    by reflexivity.
  assert (denote 4300 ["1-4"; "5-5"; "6-12"] [(1, 4); (5, 5); (6, 12)])
    as Hden by (repeat constructor).
  assert (tiles 1 [(1, 4); (5, 5); (6, 12)] 13) as Htiles
    by (simpl; lia).
  assert (Z.of_nat (length [1; 2; 3; 4; 5; 6; 7; 8; 9; 10]%nat) < 13)
    as Hupto by (simpl; lia).
  assert ("/docs/out.pdf" ≠ "") as Hne by discriminate.
  assert ("/docs/out.pdf" ∉ w_locked sample_world) as Hfree
    by apply not_elem_of_empty.
  repeat (split; [first [exact Hfile|exact Hden|exact Htiles|exact Hupto
                        |exact Hne|exact Hfree]|]).
  destruct (extract_pages_round_trip 4300 "/docs/ten.pdf" "/docs/out.pdf"
              ["1-4"; "5-5"; "6-12"] [(1, 4); (5, 5); (6, 12)] 13 _
              sample_world Hfile Hden Htiles Hupto Hne Hfree)
    as (_ & Hfiles & _).
  unfold output_at. rewrite Hfiles. apply lookup_insert_eq.
Defined.

Lemma inverted_range_is_empty_witness :
  range_of_token 4300 "5-3" = Ok (5, 3)
  ∧ 3 < 5
  ∧ denote 4300 ["1-2"] [(1, 2)]
  ∧ denote 4300 ["9-10"] [(9, 10)]
  ∧ Forall (λ r, 1 ≤ r.1) ([(1, 2)] ++ [(9, 10)])
  ∧ w_files sample_world !! "/docs/ten.pdf"
    = Some (Pdf [1; 2; 3; 4; 5; 6; 7; 8; 9; 10]%nat)
  ∧ "/docs/out.pdf" ≠ ""
  ∧ ("/docs/out.pdf" ∉ w_locked sample_world)
  ∧ output_at "/docs/out.pdf"
      (extract_pages 4300 "/docs/ten.pdf" "/docs/out.pdf"
         ["1-2"; "5-3"; "9-10"] sample_world)
    = Some (Pdf [1; 2; 9; 10]%nat)
  ∧ output_at "/docs/out.pdf"
      (delete_pages 4300 "/docs/ten.pdf" "/docs/out.pdf"
         ["1-2"; "5-3"; "9-10"] sample_world)
    = Some (Pdf [3; 4; 5; 6; 7; 8]%nat).
Proof.
  assert (range_of_token 4300 "5-3" = Ok (5, 3)) as Htoken by reflexivity.
  assert (3 < 5) as Hinv by lia.
  assert (denote 4300 ["1-2"] [(1, 2)]) as Hden1 by (repeat constructor).
  assert (denote 4300 ["9-10"] [(9, 10)]) as Hden2 by (repeat constructor).
  assert (Forall (λ r, 1 ≤ r.1) ([(1, 2)] ++ [(9, 10)])) as Hstart
    by (repeat constructor; simpl; lia).
  assert (w_files sample_world !! "/docs/ten.pdf"
          = Some (Pdf [1; 2; 3; 4; 5; 6; 7; 8; 9; 10]%nat)) as Hfile
    by reflexivity.
  assert ("/docs/out.pdf" ≠ "") as Hne by discriminate.
  assert ("/docs/out.pdf" ∉ w_locked sample_world) as Hfree
    by apply not_elem_of_empty.
  repeat (split; [first [exact Htoken|exact Hinv|exact Hden1|exact Hden2
                        |exact Hstart|exact Hfile|exact Hne|exact Hfree]|]).
  destruct (inverted_range_is_empty 4300 "5-3" 5 3 ["1-2"] ["9-10"]
              [(1, 2)] [(9, 10)] "/docs/ten.pdf" "/docs/out.pdf" _
              sample_world Htoken Hinv Hden1 Hden2 Hstart Hfile Hne Hfree)
    as (_ & _ & Hextracted & _ & _ & Hdeleted & _).
  unfold output_at. split.
  - etransitivity; [exact (f_equal (λ m, m !! "/docs/out.pdf") Hextracted)|].
    apply lookup_insert_eq.
  - etransitivity; [exact (f_equal (λ m, m !! "/docs/out.pdf") Hdeleted)|].
    apply lookup_insert_eq.
Defined.

Lemma merge_pdfs_nothing_found_witness :
  Forall (λ file, w_files sample_world !! file = None)
    ["/docs/gone.pdf"; "/docs/lost.pdf"]
  ∧ "/docs/out.pdf" ≠ ""
  ∧ ("/docs/out.pdf" ∉ w_locked sample_world)
  ∧ output_at "/docs/out.pdf"
      (merge_pdfs ["/docs/gone.pdf"; "/docs/lost.pdf"] "/docs/out.pdf"
         sample_world)
    = Some (Pdf [])
  ∧ printed
      (merge_pdfs ["/docs/gone.pdf"; "/docs/lost.pdf"] "/docs/out.pdf"
         sample_world)
    = [ MsgFileNotFound "/docs/gone.pdf"; MsgFileNotFound "/docs/lost.pdf";
        MsgMerged "/docs/out.pdf" ].
Proof.
  assert (Forall (λ file, w_files sample_world !! file = None)
            ["/docs/gone.pdf"; "/docs/lost.pdf"]) as Hnone
    by (repeat constructor).
  assert ("/docs/out.pdf" ≠ "") as Hne by discriminate.
  assert ("/docs/out.pdf" ∉ w_locked sample_world) as Hfree
    by apply not_elem_of_empty.
  split; [exact Hnone|]. split; [exact Hne|]. split; [exact Hfree|].
  destruct (merge_pdfs_nothing_found ["/docs/gone.pdf"; "/docs/lost.pdf"]
              "/docs/out.pdf" sample_world Hnone Hne Hfree)
    as (_ & Hfiles & _).
  split; [|reflexivity].
  unfold output_at. rewrite Hfiles. apply lookup_insert_eq.
Defined.

(** * Runs of the further properties *)

(** A source given without a directory part, and a blank answer. *)
Definition bare_name_world : @World nat :=
  mkWorld {[ "ten.pdf" := Pdf [1; 2; 3]%nat ]} ∅ [" "] [].

(** A file of zero bytes beside a PDF. *)
Definition zero_byte_world : @World nat :=
  mkWorld {[ "/docs/zero.pdf" := Blob 0; "/docs/b.pdf" := Pdf [4; 5]%nat ]}
          ∅ [] [].

Definition sample_app : @App nat := mkApp sample_world None 0.

Lemma parse_page_ranges_of_joined_witness :
  Forall (λ t, free_of "," t = true) [" 1-3"; "5-7 "; "  9-9"]
  ∧ parse_page_ranges " 1-3,5-7 ,  9-9" = ["1-3"; "5-7"; "9-9"].
Proof.
  assert (Forall (λ t, free_of "," t = true) [" 1-3"; "5-7 "; "  9-9"])
    as Hfree by (repeat constructor).
  split; [exact Hfree|].
  exact (parse_page_ranges_of_joined " 1-3" ["5-7 "; "  9-9"] Hfree).
Defined.

Lemma blank_page_ranges_rejected_witness :
  PyStr.all_chars PyStr.isspace "  " = true
  ∧ w_files sample_world !! "/docs/a.pdf" = Some (Pdf [1; 2; 3]%nat)
  ∧ parse_page_ranges "  " = [""]
  ∧ ∃ e1 e2, exn_class e1 = ValueError ∧ exn_class e2 = ValueError
      ∧ extract_pages 4300 "/docs/a.pdf" "/docs/out.pdf"
          (parse_page_ranges "  ") sample_world
        = (Ok tt, after [EPrint (MsgError e1)] sample_world)
      ∧ delete_pages 4300 "/docs/a.pdf" "/docs/out.pdf"
          (parse_page_ranges "  ") sample_world
        = (Ok tt, after [EPrint (MsgError e2)] sample_world).
Proof.
  assert (PyStr.all_chars PyStr.isspace "  " = true) as Hblank
    by reflexivity.
  assert (w_files sample_world !! "/docs/a.pdf" = Some (Pdf [1; 2; 3]%nat))
    as Hfile by reflexivity.
  split; [exact Hblank|]. split; [exact Hfile|].
  exact (blank_page_ranges_rejected 4300 "  " "/docs/a.pdf" "/docs/out.pdf"
           [1; 2; 3]%nat sample_world Hblank Hfile).
Defined.

Lemma extract_pages_from_page_one_witness :
  w_files sample_world !! "/docs/ten.pdf"
  = Some (Pdf [1; 2; 3; 4; 5; 6; 7; 8; 9; 10]%nat)
  ∧ denote 4300 ["9-12"] [(9, 12)]
  ∧ Forall (λ r, 1 ≤ r.1) [(9, 12)]
  ∧ "/docs/out.pdf" ≠ ""
  ∧ ("/docs/out.pdf" ∉ w_locked sample_world)
  ∧ output_at "/docs/out.pdf"
      (extract_pages 4300 "/docs/ten.pdf" "/docs/out.pdf" ["9-12"]
         sample_world)
    = Some (Pdf [9; 10]%nat)
  ∧ printed
      (extract_pages 4300 "/docs/ten.pdf" "/docs/out.pdf" ["9-12"]
         sample_world)
    = [MsgNoSuchPage 11; MsgNoSuchPage 12; MsgExtracted "/docs/out.pdf"].
Proof.
  assert (w_files sample_world !! "/docs/ten.pdf"
          = Some (Pdf [1; 2; 3; 4; 5; 6; 7; 8; 9; 10]%nat)) as Hfile
    by reflexivity.
  assert (denote 4300 ["9-12"] [(9, 12)]) as Hden by (repeat constructor).
  assert (Forall (λ r, 1 ≤ r.1) [(9, 12)]) as Hstart
    by (repeat constructor; simpl; lia).
  assert ("/docs/out.pdf" ≠ "") as Hne by discriminate.
  assert ("/docs/out.pdf" ∉ w_locked sample_world) as Hfree
    by apply not_elem_of_empty.
  repeat (split; [first [exact Hfile|exact Hden|exact Hstart|exact Hne
                        |exact Hfree]|]).
  destruct (extract_pages_from_page_one 4300 "/docs/ten.pdf" "/docs/out.pdf"
              ["9-12"] [(9, 12)] _ sample_world Hfile Hden Hstart Hne Hfree)
    as (_ & Hfiles & _).
  split; [|reflexivity].
  unfold output_at. rewrite Hfiles. apply lookup_insert_eq.
Defined.

Lemma extract_pages_page_zero_is_last_witness :
  w_files sample_world !! "/docs/a.pdf" = Some (Pdf [1; 2; 3]%nat)
  ∧ denote 4300 ["0-2"] [(0, 2)]
  ∧ "/docs/out.pdf" ≠ ""
  ∧ ("/docs/out.pdf" ∉ w_locked sample_world)
  ∧ output_at "/docs/out.pdf"
      (extract_pages 4300 "/docs/a.pdf" "/docs/out.pdf" ["0-2"] sample_world)
    = Some (Pdf [3; 1; 2]%nat)
  ∧ printed
      (extract_pages 4300 "/docs/a.pdf" "/docs/out.pdf" ["0-2"] sample_world)
    = [MsgExtracted "/docs/out.pdf"].
Proof.
  assert (w_files sample_world !! "/docs/a.pdf" = Some (Pdf [1; 2; 3]%nat))
    as Hfile by reflexivity.
  assert ([1; 2; 3]%nat ≠ []) as Hpages by discriminate.
  assert (denote 4300 ["0-2"] [(0, 2)]) as Hden by (repeat constructor).
  assert ("/docs/out.pdf" ≠ "") as Hne by discriminate.
  assert ("/docs/out.pdf" ∉ w_locked sample_world) as Hfree
    by apply not_elem_of_empty.
  repeat (split; [first [exact Hfile|exact Hden|exact Hne|exact Hfree]|]).
  destruct (extract_pages_page_zero_is_last 4300 "/docs/a.pdf"
              "/docs/out.pdf" ["0-2"] [(0, 2)] _ sample_world
              Hfile Hpages Hden Hne Hfree)
    as (_ & Hfiles & _).
  split; [|reflexivity].
  unfold output_at. rewrite Hfiles. apply lookup_insert_eq.
Defined.

Lemma extract_pages_page_zero_of_empty_witness :
  w_files sample_world !! "/docs/empty.pdf" = Some (Pdf [])
  ∧ denote 4300 ["0-1"] [(0, 1)]
  ∧ Exists (λ r, r.1 = 0) [(0, 1)]
  ∧ w_files (extract_pages 4300 "/docs/empty.pdf" "/docs/out.pdf" ["0-1"]
               sample_world).2
    = w_files sample_world
  ∧ printed
      (extract_pages 4300 "/docs/empty.pdf" "/docs/out.pdf" ["0-1"]
         sample_world)
    = [MsgError (mkExn IndexError "sequence index out of range")].
Proof.
  assert (w_files sample_world !! "/docs/empty.pdf" = Some (Pdf []))
    as Hfile by reflexivity.
  assert (denote 4300 ["0-1"] [(0, 1)]) as Hden by (repeat constructor).
  assert (Exists (λ r, r.1 = 0) [(0, 1)]) as Hzero
    by (apply Exists_cons_hd; reflexivity).
  repeat (split; [first [exact Hfile|exact Hden|exact Hzero]|]).
  destruct (extract_pages_page_zero_of_empty 4300 "/docs/empty.pdf"
              "/docs/out.pdf" ["0-1"] [(0, 1)] sample_world
              Hfile Hden Hzero)
    as (_ & Hfiles & _).
  split; [exact Hfiles|reflexivity].
Defined.

Lemma delete_pages_one_range_witness :
  w_files sample_world !! "/docs/ten.pdf"
  = Some (Pdf [1; 2; 3; 4; 5; 6; 7; 8; 9; 10]%nat)
  ∧ range_of_token 4300 "3-5" = Ok (3, 5)
  ∧ 3 ≤ 5 + 1
  ∧ "/docs/out.pdf" ≠ ""
  ∧ ("/docs/out.pdf" ∉ w_locked sample_world)
  ∧ output_at "/docs/out.pdf"
      (delete_pages 4300 "/docs/ten.pdf" "/docs/out.pdf" ["3-5"] sample_world)
    = Some (Pdf ([1; 2] ++ [6; 7; 8; 9; 10])%nat).
Proof.
  assert (w_files sample_world !! "/docs/ten.pdf"
          = Some (Pdf [1; 2; 3; 4; 5; 6; 7; 8; 9; 10]%nat)) as Hfile
    by reflexivity.
  assert (range_of_token 4300 "3-5" = Ok (3, 5)) as Htoken by reflexivity.
  assert (3 ≤ 5 + 1) as Hle by lia.
  assert ("/docs/out.pdf" ≠ "") as Hne by discriminate.
  assert ("/docs/out.pdf" ∉ w_locked sample_world) as Hfree
    by apply not_elem_of_empty.
  repeat (split; [first [exact Hfile|exact Htoken|exact Hle|exact Hne
                        |exact Hfree]|]).
  destruct (delete_pages_one_range 4300 "/docs/ten.pdf" "/docs/out.pdf"
              "3-5" 3 5 _ sample_world Hfile Htoken Hle Hne Hfree)
    as (_ & Hfiles).
  unfold output_at. rewrite Hfiles. apply lookup_insert_eq.
Defined.

Lemma delete_pages_order_free_witness :
  w_files sample_world !! "/docs/ten.pdf"
  = Some (Pdf [1; 2; 3; 4; 5; 6; 7; 8; 9; 10]%nat)
  ∧ denote 4300 ["1-2"; "9-10"] [(1, 2); (9, 10)]
  ∧ denote 4300 ["9-10"; "1-2"; "9-10"] [(9, 10); (1, 2); (9, 10)]
  ∧ "/docs/out.pdf" ≠ ""
  ∧ ("/docs/out.pdf" ∉ w_locked sample_world)
  ∧ w_files (delete_pages 4300 "/docs/ten.pdf" "/docs/out.pdf"
               ["1-2"; "9-10"] sample_world).2
    = w_files (delete_pages 4300 "/docs/ten.pdf" "/docs/out.pdf"
                 ["9-10"; "1-2"; "9-10"] sample_world).2.
Proof.
  assert (w_files sample_world !! "/docs/ten.pdf"
          = Some (Pdf [1; 2; 3; 4; 5; 6; 7; 8; 9; 10]%nat)) as Hfile
    by reflexivity.
  assert (denote 4300 ["1-2"; "9-10"] [(1, 2); (9, 10)]) as Hden
    by (repeat constructor).
  assert (denote 4300 ["9-10"; "1-2"; "9-10"] [(9, 10); (1, 2); (9, 10)])
    as Hden' by (repeat constructor).
  assert (∀ r : Z * Z,
            r ∈ [(1, 2); (9, 10)] ↔ r ∈ [(9, 10); (1, 2); (9, 10)])
    as Hsame.
  { intros r. rewrite !elem_of_cons, !elem_of_nil. tauto. }
  assert ("/docs/out.pdf" ≠ "") as Hne by discriminate.
  assert ("/docs/out.pdf" ∉ w_locked sample_world) as Hfree
    by apply not_elem_of_empty.
  repeat (split; [first [exact Hfile|exact Hden|exact Hden'|exact Hne
                        |exact Hfree]|]).
  exact (delete_pages_order_free 4300 "/docs/ten.pdf" "/docs/out.pdf"
           ["1-2"; "9-10"] ["9-10"; "1-2"; "9-10"]
           [(1, 2); (9, 10)] [(9, 10); (1, 2); (9, 10)] _ sample_world
           Hfile Hden Hden' Hsame Hne Hfree).
Defined.

Lemma extract_and_delete_complement_witness :
  w_files sample_world !! "/docs/a.pdf" = Some (Pdf [1; 2; 3]%nat)
  ∧ range_of_token 4300 "2-3" = Ok (2, 3)
  ∧ 1 ≤ 2 ≤ 3 + 1
  ∧ 3 ≤ Z.of_nat (length [1; 2; 3]%nat)
  ∧ "/docs/out.pdf" ≠ ""
  ∧ ("/docs/out.pdf" ∉ w_locked sample_world)
  ∧ ∃ copied kept,
      output_at "/docs/out.pdf"
        (extract_pages 4300 "/docs/a.pdf" "/docs/out.pdf" ["2-3"]
           sample_world)
      = Some (Pdf copied)
      ∧ output_at "/docs/out.pdf"
          (delete_pages 4300 "/docs/a.pdf" "/docs/out.pdf" ["2-3"]
             sample_world)
        = Some (Pdf kept)
      ∧ length copied = 2%nat
      ∧ take 1 kept ++ copied ++ drop 1 kept = [1; 2; 3]%nat.
Proof.
  assert (w_files sample_world !! "/docs/a.pdf" = Some (Pdf [1; 2; 3]%nat))
    as Hfile by reflexivity.
  assert (range_of_token 4300 "2-3" = Ok (2, 3)) as Htoken by reflexivity.
  assert (1 ≤ 2 ≤ 3 + 1) as Hstart by lia.
  assert (3 ≤ Z.of_nat (length [1; 2; 3]%nat)) as Hend by (simpl; lia).
  assert ("/docs/out.pdf" ≠ "") as Hne by discriminate.
  assert ("/docs/out.pdf" ∉ w_locked sample_world) as Hfree
    by apply not_elem_of_empty.
  repeat (split; [first [exact Hfile|exact Htoken|exact Hstart|exact Hend
                        |exact Hne|exact Hfree]|]).
  exact (extract_and_delete_complement 4300 "/docs/a.pdf" "/docs/out.pdf"
           "2-3" 2 3 _ sample_world Hfile Htoken Hstart Hend Hne Hfree).
Defined.

Lemma split_pdf_parts_concat_witness :
  w_files sample_world !! "/docs/ten.pdf"
  = Some (Pdf [1; 2; 3; 4; 5; 6; 7; 8; 9; 10]%nat)
  ∧ 0 < 4
  ∧ w_stdin sample_world = ["/out"]
  ∧ ∃ evs,
      w_trace (split_pdf "/docs/ten.pdf" 4 sample_world).2
      = w_trace sample_world ++ evs
      ∧ concat ((writes_of evs).*2) = [1; 2; 3; 4; 5; 6; 7; 8; 9; 10]%nat.
Proof.
  assert (w_files sample_world !! "/docs/ten.pdf"
          = Some (Pdf [1; 2; 3; 4; 5; 6; 7; 8; 9; 10]%nat)) as Hfile
    by reflexivity.
  assert (0 < 4) as Hppp by lia.
  assert (w_stdin sample_world = ["/out"]) as Hstdin by reflexivity.
  assert (split_dir "/docs/ten.pdf" "/out" ≠ "") as Hdir by discriminate.
  assert (w_files sample_world !! split_dir "/docs/ten.pdf" "/out" = None)
    as Hnofile by reflexivity.
  assert (split_dir "/docs/ten.pdf" "/out" ∉ w_locked sample_world) as Hfree
    by apply not_elem_of_empty.
  repeat (split; [first [exact Hfile|exact Hppp|exact Hstdin]|]).
  apply (split_pdf_parts_concat "/docs/ten.pdf" 4
           [1; 2; 3; 4; 5; 6; 7; 8; 9; 10]%nat "/out" [] sample_world
           Hfile Hppp Hstdin Hdir Hnofile Hfree).
  intros i _. apply not_elem_of_empty.
Defined.

Lemma split_pdf_part_sizes_witness :
  w_files sample_world !! "/docs/ten.pdf"
  = Some (Pdf [1; 2; 3; 4; 5; 6; 7; 8; 9; 10]%nat)
  ∧ 0 < 4
  ∧ w_stdin sample_world = ["/out"]
  ∧ ∃ evs,
      w_trace (split_pdf "/docs/ten.pdf" 4 sample_world).2
      = w_trace sample_world ++ evs
      ∧ ∀ (k : nat) path (part : list nat),
          writes_of evs !! k = Some (path, part) →
          0 < Z.of_nat (length part) ≤ 4
          ∧ (Z.of_nat k + 1 < 3 → Z.of_nat (length part) = 4).
Proof.
  assert (w_files sample_world !! "/docs/ten.pdf"
          = Some (Pdf [1; 2; 3; 4; 5; 6; 7; 8; 9; 10]%nat)) as Hfile
    by reflexivity.
  assert (0 < 4) as Hppp by lia.
  assert (w_stdin sample_world = ["/out"]) as Hstdin by reflexivity.
  assert (split_dir "/docs/ten.pdf" "/out" ≠ "") as Hdir by discriminate.
  assert (w_files sample_world !! split_dir "/docs/ten.pdf" "/out" = None)
    as Hnofile by reflexivity.
  assert (split_dir "/docs/ten.pdf" "/out" ∉ w_locked sample_world) as Hfree
    by apply not_elem_of_empty.
  repeat (split; [first [exact Hfile|exact Hppp|exact Hstdin]|]).
  apply (split_pdf_part_sizes "/docs/ten.pdf" 4
           [1; 2; 3; 4; 5; 6; 7; 8; 9; 10]%nat "/out" [] sample_world
           Hfile Hppp Hstdin Hdir Hnofile Hfree).
  intros i _. apply not_elem_of_empty.
Defined.

Lemma split_pdf_zero_pages_per_part_witness :
  w_files sample_world !! "/docs/a.pdf" = Some (Pdf [1; 2; 3]%nat)
  ∧ split_pdf "/docs/a.pdf" 0 sample_world
    = (Ok tt,
       after [EPrint (MsgError (mkExn ZeroDivisionError
                                  "integer division or modulo by zero"))]
         sample_world).
Proof.
  assert (w_files sample_world !! "/docs/a.pdf" = Some (Pdf [1; 2; 3]%nat))
    as Hfile by reflexivity.
  split; [exact Hfile|].
  exact (split_pdf_zero_pages_per_part "/docs/a.pdf" _ sample_world Hfile).
Defined.

Lemma split_pdf_negative_pages_per_part_witness :
  w_files sample_world !! "/docs/empty.pdf" = Some (Pdf [])
  ∧ -1 < 0
  ∧ w_stdin sample_world = ["/out"]
  ∧ ∃ evs,
      w_trace (split_pdf "/docs/empty.pdf" (-1) sample_world).2
      = w_trace sample_world ++ evs
      ∧ writes_of evs
        = [ ("/out/empty_part1.pdf", []); ("/out/empty_part2.pdf", []) ]
      ∧ messages_of evs = [MsgSplit 2; MsgSavedIn "/out"; MsgNaming "empty"].
Proof.
  assert (w_files sample_world !! "/docs/empty.pdf" = Some (Pdf []))
    as Hfile by reflexivity.
  assert (-1 < 0) as Hppp by lia.
  assert (w_stdin sample_world = ["/out"]) as Hstdin by reflexivity.
  assert (split_dir "/docs/empty.pdf" "/out" ≠ "") as Hdir by discriminate.
  assert (w_files sample_world !! split_dir "/docs/empty.pdf" "/out" = None)
    as Hnofile by reflexivity.
  assert (split_dir "/docs/empty.pdf" "/out" ∉ w_locked sample_world)
    as Hfree by apply not_elem_of_empty.
  repeat (split; [first [exact Hfile|exact Hppp|exact Hstdin]|]).
  destruct (split_pdf_negative_pages_per_part "/docs/empty.pdf" (-1)
              [] "/out" [] sample_world
              Hfile Hppp Hstdin Hdir Hnofile Hfree)
    as (_ & evs & Htrace & Hwrites & Hmessages).
  { intros i _. apply not_elem_of_empty. }
  exists evs. split; [exact Htrace|].
  split; [rewrite Hwrites|rewrite Hmessages]; reflexivity.
Defined.

Lemma split_pdf_same_directory_of_bare_name_witness :
  w_files bare_name_world !! "ten.pdf" = Some (Pdf [1; 2; 3]%nat)
  ∧ 2 ≠ 0
  ∧ free_of "/" "ten.pdf" = true
  ∧ w_stdin bare_name_world = [" "]
  ∧ PyStr.all_chars PyStr.isspace " " = true
  ∧ split_pdf "ten.pdf" 2 bare_name_world
    = (Ok tt,
       after [EPrint (MsgError (mkExn FileNotFoundError ""))]
         (answered split_prompt [] bare_name_world)).
Proof.
  assert (w_files bare_name_world !! "ten.pdf" = Some (Pdf [1; 2; 3]%nat))
    as Hfile by reflexivity.
  assert (2 ≠ 0) as Hppp by lia.
  assert (free_of "/" "ten.pdf" = true) as Hbare by reflexivity.
  assert (w_stdin bare_name_world = [" "]) as Hstdin by reflexivity.
  assert (PyStr.all_chars PyStr.isspace " " = true) as Hblank
    by reflexivity.
  repeat (split; [first [exact Hfile|exact Hppp|exact Hbare|exact Hstdin
                        |exact Hblank]|]).
  exact (split_pdf_same_directory_of_bare_name "ten.pdf" 2 _ " " []
           bare_name_world Hfile Hppp Hbare Hstdin Hblank).
Defined.

Lemma compress_pdf_missing_input_witness :
  w_files sample_world !! "/docs/gone.pdf" = None
  ∧ compress_pdf (λ _, 1%positive) (λ _ files, Some files) (λ _, NoSuchFile)
      "/docs/gone.pdf" "/docs/small.pdf" 9 sample_world
    = (Ok tt,
       after [ EPrint MsgInvalidLevel;
               EPrint (MsgExn (mkExn FileNotFoundError "/docs/gone.pdf")) ]
         sample_world).
Proof.
  assert (w_files sample_world !! "/docs/gone.pdf" = None) as Hnone
    by reflexivity.
  split; [exact Hnone|].
  exact (compress_pdf_missing_input (λ _, 1%positive) (λ _ files, Some files) (λ _, NoSuchFile)
           "/docs/gone.pdf" "/docs/small.pdf" 9 sample_world Hnone).
Defined.

Lemma compress_pdf_success_by_output_witness :
  w_files sample_world !! "/docs/a.pdf" = Some (Pdf [1; 2; 3]%nat)
  ∧ w_files sample_world !! "/docs/b.pdf" = Some (Pdf [4; 5]%nat)
  ∧ last (w_trace
            (compress_pdf (λ _, 1%positive) (λ _ _, Some sample_files) (λ _, NoSuchFile)
               "/docs/a.pdf" "/docs/b.pdf" 3 sample_world).2)
    = Some (EPrint (MsgCompressed 1 1)).
Proof.
  assert (w_files sample_world !! "/docs/a.pdf" = Some (Pdf [1; 2; 3]%nat))
    as Hfile by reflexivity.
  assert (sample_files !! "/docs/b.pdf" = Some (Pdf [4; 5]%nat))
    as Hout by reflexivity.
  assert (file_size (λ _ : list nat, 1%positive) (Pdf [1; 2; 3]%nat) ≠ 0%N)
    as Hsize by discriminate.
  split; [exact Hfile|]. split; [exact Hout|].
  destruct (compress_pdf_success_by_output (λ _, 1%positive)
              (λ _ _, Some sample_files) (λ _, NoSuchFile) "/docs/a.pdf" "/docs/b.pdf" 3
              sample_world _ sample_files _ _
              Hfile eq_refl Hfile Hsize Hout)
    as (_ & _ & Hlast).
  exact Hlast.
Defined.

Lemma compress_pdf_empty_input_witness :
  w_files zero_byte_world !! "/docs/zero.pdf" = Some (Blob 0)
  ∧ w_files zero_byte_world !! "/docs/b.pdf" = Some (Pdf [4; 5]%nat)
  ∧ last (w_trace
            (compress_pdf (λ _, 1%positive) (λ _ files, Some files) (λ _, NoSuchFile)
               "/docs/zero.pdf" "/docs/b.pdf" 3 zero_byte_world).2)
    = Some (EPrint (MsgUnexpected
                      (mkExn ZeroDivisionError "float division by zero"))).
Proof.
  assert (w_files zero_byte_world !! "/docs/zero.pdf" = Some (Blob 0))
    as Hfile by reflexivity.
  assert (w_files zero_byte_world !! "/docs/b.pdf" = Some (Pdf [4; 5]%nat))
    as Hout by reflexivity.
  assert (file_size (λ _ : list nat, 1%positive) (Blob 0) = 0%N)
    as Hsize by reflexivity.
  split; [exact Hfile|]. split; [exact Hout|].
  destruct (compress_pdf_empty_input (λ _, 1%positive)
              (λ _ files, Some files) (λ _, NoSuchFile) "/docs/zero.pdf" "/docs/b.pdf" 3
              zero_byte_world _ (w_files zero_byte_world) _ _
              Hfile eq_refl Hfile Hsize Hout)
    as (_ & _ & Hlast).
  exact Hlast.
Defined.

Lemma merge_pdfs_progress_witness :
  all_pdf (w_files sample_world)
    ["/docs/a.pdf"; "/docs/gone.pdf"; "/docs/b.pdf"]
  ∧ "/docs/out.pdf" ≠ ""
  ∧ ("/docs/out.pdf" ∉ w_locked sample_world)
  ∧ ∃ evs (written_pages : list nat),
      w_trace (merge_pdfs ["/docs/a.pdf"; "/docs/gone.pdf"; "/docs/b.pdf"]
                 "/docs/out.pdf" sample_world).2
      = w_trace sample_world ++ evs
      ∧ writes_of evs = [("/docs/out.pdf", written_pages)]
      ∧ bars_of evs = [Z.of_nat (length written_pages)]
      ∧ progress_of evs = Z.of_nat (length written_pages).
Proof.
  assert (all_pdf (w_files sample_world)
            ["/docs/a.pdf"; "/docs/gone.pdf"; "/docs/b.pdf"]) as Hpdf
    by (repeat constructor; intros size; vm_compute; discriminate).
  assert ("/docs/out.pdf" ≠ "") as Hne by discriminate.
  assert ("/docs/out.pdf" ∉ w_locked sample_world) as Hfree
    by apply not_elem_of_empty.
  split; [exact Hpdf|]. split; [exact Hne|]. split; [exact Hfree|].
  exact (merge_pdfs_progress ["/docs/a.pdf"; "/docs/gone.pdf"; "/docs/b.pdf"]
           "/docs/out.pdf" sample_world Hpdf Hne Hfree).
Defined.

Lemma handlers_missing_input_witness :
  w_files (app_world sample_app) !! "/docs/gone.pdf" = None
  ∧ last_message
      (app_world (handle_extract 4300 "/docs/gone.pdf" "/docs/out.pdf" "1-2"
                    sample_app).2)
    = Some (MsgError (mkExn FileNotFoundError "/docs/gone.pdf"))
  ∧ snack_bar (handle_extract 4300 "/docs/gone.pdf" "/docs/out.pdf" "1-2"
                 sample_app).2
    = Some (mkSnackBar (Text "Pages extracted successfully!") 3000 true).
Proof.
  assert (w_files (app_world sample_app) !! "/docs/gone.pdf" = None)
    as Hnone by reflexivity.
  split; [exact Hnone|].
  destruct (handlers_missing_input 4300 "/docs/gone.pdf" "/docs/out.pdf"
              "1-2" 2 sample_app Hnone)
    as ((_ & Hlast & Hsnack) & _).
  split; [exact Hlast|exact Hsnack].
Defined.

Lemma number_fields_unguarded_witness :
  py_int 4300 "four" = Raise (mkExn ValueError "four")
  ∧ split_on_click 4300 "/docs/ten.pdf" "four" sample_app
    = (Raise (mkExn ValueError "four"), sample_app)
  ∧ compress_on_click 4300 (λ _, 1%positive) (λ _ files, Some files) (λ _, NoSuchFile)
      "/docs/a.pdf" "/docs/small.pdf" "four" sample_app
    = (Raise (mkExn ValueError "four"), sample_app).
Proof.
  assert (py_int 4300 "four" = Raise (mkExn ValueError "four")) as Hint
    by reflexivity.
  split; [exact Hint|].
  exact (number_fields_unguarded 4300 (λ _, 1%positive)
           (λ _ files, Some files) (λ _, NoSuchFile) "/docs/ten.pdf" "/docs/small.pdf" "four"
           _ sample_app Hint).
Defined.

Lemma merge_on_click_merges_witness :
  Forall (λ file, free_of "," file = true) ["/docs/a.pdf"; " /docs/b.pdf"]
  ∧ all_pdf (w_files (app_world sample_app)) ["/docs/a.pdf"; " /docs/b.pdf"]
  ∧ "/docs/out.pdf" ≠ ""
  ∧ ("/docs/out.pdf" ∉ w_locked (app_world sample_app))
  ∧ w_files (app_world
               (merge_on_click "/docs/a.pdf, /docs/b.pdf" "/docs/out.pdf"
                  sample_app).2) !! "/docs/out.pdf"
    = Some (Pdf [1; 2; 3]%nat).
Proof.
  assert (Forall (λ file, free_of "," file = true)
            ["/docs/a.pdf"; " /docs/b.pdf"]) as Hnames
    by (repeat constructor).
  assert (all_pdf (w_files (app_world sample_app))
            ["/docs/a.pdf"; " /docs/b.pdf"]) as Hpdf
    by (repeat constructor; intros size; vm_compute; discriminate).
  assert ("/docs/out.pdf" ≠ "") as Hne by discriminate.
  assert ("/docs/out.pdf" ∉ w_locked (app_world sample_app)) as Hfree
    by apply not_elem_of_empty.
  repeat (split; [first [exact Hnames|exact Hpdf|exact Hne|exact Hfree]|]).
  destruct (merge_on_click_merges "/docs/a.pdf" [" /docs/b.pdf"]
              "/docs/out.pdf" sample_app Hnames Hpdf Hne Hfree)
    as (_ & Hfiles & _).
  etransitivity;
    [exact (f_equal (λ m, m !! "/docs/out.pdf") Hfiles)|].
  apply lookup_insert_eq.
Defined.

Lemma compress_pdf_tool_not_started_witness :
  w_files sample_world !! "/docs/a.pdf" = Some (Pdf [1; 2; 3]%nat)
  ∧ w_files (compress_pdf (λ _, 1%positive) (λ _ _, None)
               (λ _, NotExecutable) "/docs/a.pdf" "/docs/small.pdf" 3
               sample_world).2
    = w_files sample_world
  ∧ last_message
      (compress_pdf (λ _, 1%positive) (λ _ _, None) (λ _, NotExecutable)
         "/docs/a.pdf" "/docs/small.pdf" 3 sample_world).2
    = Some (MsgUnexpected (mkExn PermissionError "gs")).
Proof.
  assert (w_files sample_world !! "/docs/a.pdf" = Some (Pdf [1; 2; 3]%nat))
    as Hfile by reflexivity.
  split; [exact Hfile|].
  rewrite (compress_pdf_tool_not_started (λ _, 1%positive) (λ _ _, None)
             (λ _, NotExecutable) "/docs/a.pdf" "/docs/small.pdf" 3
             sample_world _ Hfile eq_refl).
  split; reflexivity.
Defined.
